(** * Smart-Desk: a verification development for the desktop widget manager

    The program is a single Python module, [dummy.py].  This file embeds
    the parts of it that carry logic: the to-do widget's task list, the
    timer widget's countdown, the manager's pin/unpin life cycle, the
    save/load of the layout document and the drag handler of the desktop
    preview.

    Conventions of the embedding.
    - A Python [str] is a Rocq [string]; a character is a code point below
      256.
    - A Python [int] is a [Z]; a Python [float] is a binary64 [float].
    - A Python value that travels through the layout document is a [json].
    - An exception is an [exn]; a computation that can raise returns an
      [outcome], and what it wrote to the objects before raising stays
      written.
    - Calls into the window toolkit (creating a window, configuring a
      label, setting a geometry) are taken to succeed; only what Python
      itself evaluates around them (dictionary look-ups, arithmetic,
      attribute accesses) is modelled. *)

From Stdlib Require Import ZArith Lia Floats Ascii String DecimalString.
From stdpp Require Import base list strings.

Open Scope Z_scope.

#[local] Set Warnings "-register-all,-inexact-float".

(** ** Python builtins used by the program *)

Module Py.

(** Exceptions the modelled code can raise. [OSError] stands for any
    failure of [open], [JSONDecodeError] for any failure of [json.load]. *)
Inductive exn :=
| KeyError (key : string)
| TypeError
| AttributeError
| IndexError
| ValueError
| ZeroDivisionError
| OverflowError
| OSError
| JSONDecodeError.

Inductive outcome (A : Type) :=
| Ret (a : A)
| Raise (e : exn).
Arguments Ret {A} a.
Arguments Raise {A} e.

Definition code (c : ascii) : N := Ascii.N_of_ascii c.

(** [str.isspace] on one character: the white space of [str.strip]. *)
Definition isspace (c : ascii) : bool :=
  let n := code c in
  ((9 <=? n) && (n <=? 13) || (28 <=? n) && (n <=? 32)
   || (n =? 133) || (n =? 160))%N.

Fixpoint lstrip (s : string) : string :=
  match s with
  | EmptyString => EmptyString
  | String c s' => if isspace c then lstrip s' else s
  end.

Fixpoint rstrip (s : string) : string :=
  match s with
  | EmptyString => EmptyString
  | String c s' =>
      match rstrip s' with
      | EmptyString => if isspace c then EmptyString else String c EmptyString
      | r => String c r
      end
  end.

(** [s.strip()] *)
Definition strip (s : string) : string := rstrip (lstrip s).

(** Truth value of a string: [if task_text:] *)
Definition str_truthy (s : string) : bool :=
  match s with EmptyString => false | String _ _ => true end.

(** The white space [int(str)] skips around the literal: the C locale's
    white space, plus the non-ASCII white space that the conversion first
    turns into a blank.  The separators 28..31 are not skipped. *)
Definition int_isspace (c : ascii) : bool :=
  let n := code c in
  ((9 <=? n) && (n <=? 13) || (n =? 32) || (n =? 133) || (n =? 160))%N.

Fixpoint int_lskip (s : string) : string :=
  match s with
  | EmptyString => EmptyString
  | String c s' => if int_isspace c then int_lskip s' else s
  end.

Fixpoint int_rskip (s : string) : string :=
  match s with
  | EmptyString => EmptyString
  | String c s' =>
      match int_rskip s' with
      | EmptyString =>
          if int_isspace c then EmptyString else String c EmptyString
      | r => String c r
      end
  end.

Definition digit (c : ascii) : option Z :=
  let n := code c in
  if ((48 <=? n) && (n <=? 57))%N then Some (Z.of_N n - 48) else None.

(** Digits of a base-10 literal, with single underscores allowed between
    two digits.  [after_digit] tells whether the previous character was a
    digit. *)
Fixpoint int_digits (s : string) (acc : Z) (after_digit : bool) : option Z :=
  match s with
  | EmptyString => if after_digit then Some acc else None
  | String c s' =>
      match digit c with
      | Some d => int_digits s' (10 * acc + d) true
      | None =>
          if Ascii.eqb c "_"%char && after_digit
          then int_digits s' acc false
          else None
      end
  end.

(** [int(s)] for a string [s]; [None] is [ValueError].  (The limit some
    interpreter versions put on the number of digits is not modelled.) *)
Definition int (s : string) : option Z :=
  match int_rskip (int_lskip s) with
  | String "-" s' => option_map Z.opp (int_digits s' 0 false)
  | String "+" s' => int_digits s' 0 false
  | s' => int_digits s' 0 false
  end.

(** [float(z)] for an integer: the nearest binary64 value, or
    [OverflowError] when there is none. *)
Definition float_of_Z (z : Z) : float :=
  SF2Prim (binary_normalize prec emax z 0 false).

Definition float_of_int (z : Z) : outcome float :=
  let f := float_of_Z z in
  if PrimFloat.is_infinity f then Raise OverflowError else Ret f.

(** [int(f)] for a float: truncation toward zero. *)
Definition int_of_float (f : float) : outcome Z :=
  match Prim2SF f with
  | S754_zero _ => Ret 0
  | S754_finite sign m e =>
      let a := match e with
               | Z0 => Zpos m
               | Zpos k => Z.shiftl (Zpos m) (Zpos k)
               | Zneg k => Z.shiftr (Zpos m) (Zpos k)
               end in
      Ret (if sign then - a else a)
  | S754_infinity _ => Raise OverflowError
  | S754_nan => Raise ValueError
  end.

(** [a / b] on floats *)
Definition truediv (a b : float) : outcome float :=
  if PrimFloat.eqb b 0 then Raise ZeroDivisionError
  else Ret (PrimFloat.div a b).

(** [f"{n:02d}"] *)
Definition format_02d (n : Z) : string :=
  let s := NilZero.string_of_uint (N.to_uint (Z.to_N (Z.abs n))) in
  if n <? 0 then String "-" s
  else if (String.length s <? 2)%nat then String "0" s else s.

End Py.

Import Py.

(** ** The to-do widget (class [TodoWidget]) *)

Module Todo.

(** One entry of [self.tasks]: [{'text': ..., 'completed': ...}] *)
Record task := Task { text : string; completed : bool }.

(** The content state of a created to-do widget: what the entry field
    holds and the task list.  The task rows drawn by [update_content]
    belong to the toolkit. *)
Record TodoWidget := Widget { entry : string; tasks : list task }.

(** State set up by [create_widget]. *)
Definition create_widget : TodoWidget := Widget "" [].

(** The user types [s] into the entry field. *)
Definition type_entry (s : string) (w : TodoWidget) : TodoWidget :=
  Widget s (tasks w).

Definition add_task (w : TodoWidget) : TodoWidget :=
  let task_text := strip (entry w) in
  if str_truthy task_text
  then Widget "" (tasks w ++ [Task task_text false])
  else w.

Definition in_range (index : Z) (w : TodoWidget) : bool :=
  (0 <=? index) && (index <? Z.of_nat (length (tasks w))).

Definition toggle_task (index : Z) (w : TodoWidget) : TodoWidget :=
  if in_range index w
  then Widget (entry w)
         (alter (fun t => Task (text t) (negb (completed t)))
                (Z.to_nat index) (tasks w))
  else w.

Definition delete_task (index : Z) (w : TodoWidget) : TodoWidget :=
  if in_range index w
  then Widget (entry w) (delete (Z.to_nat index) (tasks w))
  else w.

(** Typing and adding each text of [ts] in turn. *)
Definition add_all (ts : list string) (w : TodoWidget) : TodoWidget :=
  fold_left (fun w t => add_task (type_entry t w)) ts w.

(** *** Sequences of user actions on the list *)

Inductive action :=
| Add (typed : string)
| Toggle (index : Z)
| Delete (index : Z).

Definition act (a : action) (w : TodoWidget) : TodoWidget :=
  match a with
  | Add typed => add_task (type_entry typed w)
  | Toggle index => toggle_task index w
  | Delete index => delete_task index w
  end.

Definition acts (l : list action) (w : TodoWidget) : TodoWidget :=
  fold_left (fun w a => act a w) l w.

(** A text as [add_task] stores it: not empty, no white space around. *)
Definition stored_text (s : string) : Prop :=
  s <> EmptyString /\ strip s = s.

End Todo.

(** ** The timer widget (class [TimerWidget]) *)

Module Timer.

(** A modal dialog of [messagebox], with its title and its message. *)
Inductive dialog :=
| showerror (title message : string)
| showinfo (title message : string).

(** The content state of a created timer widget: the text of the minutes
    field, the countdown, the active flag, the text of the time label and
    whether that label still exists ([winfo_exists]). *)
Record TimerWidget := Widget {
  minutes_var : string;
  remaining_time : Z;
  timer_active : bool;
  time_display : string;
  time_display_exists : bool
}.

(** State set up by [create_widget], before its first [update_content]. *)
Definition create_widget : TimerWidget := Widget "5" 0 false "00:00" true.

(** The user types [s] into the minutes field. *)
Definition type_minutes (s : string) (w : TimerWidget) : TimerWidget :=
  Widget s (remaining_time w) (timer_active w) (time_display w)
         (time_display_exists w).

Definition start_timer (w : TimerWidget) : TimerWidget * list dialog :=
  match Py.int (minutes_var w) with
  | Some minutes =>
      (Widget (minutes_var w) (minutes * 60) true (time_display w)
              (time_display_exists w), [])
  | None =>
      (w, [showerror "Error" "Please enter a valid number of minutes"])
  end.

Definition stop_timer (w : TimerWidget) : TimerWidget :=
  Widget (minutes_var w) 0 false "00:00" (time_display_exists w).

(** One refresh: the body of [update_content].  The call that schedules
    the next refresh is the caller's, see [ticks]. *)
Definition update_content (w : TimerWidget) : TimerWidget * list dialog :=
  if time_display_exists w then
    if timer_active w && (0 <? remaining_time w) then
      let minutes := remaining_time w / 60 in
      let seconds := remaining_time w mod 60 in
      (Widget (minutes_var w) (remaining_time w - 1) (timer_active w)
              (format_02d minutes ++ ":" ++ format_02d seconds)
              (time_display_exists w), [])
    else if timer_active w && (remaining_time w <=? 0) then
      (Widget (minutes_var w) (remaining_time w) false "TIME!"
              (time_display_exists w), [showinfo "Timer" "Time's up!"])
    else (w, [])
  else (w, []).

(** [n] successive refreshes, with the dialogs they open, in order. *)
Fixpoint ticks (n : nat) (w : TimerWidget) : TimerWidget * list dialog :=
  match n with
  | O => (w, [])
  | S n' =>
      let '(w1, d1) := update_content w in
      let '(w2, d2) := ticks n' w1 in
      (w2, d1 ++ d2)
  end.

(** The "time's up" notifications among the dialogs. *)
Definition is_times_up (d : dialog) : bool :=
  match d with
  | showinfo t m => String.eqb t "Timer" && String.eqb m "Time's up!"
  | showerror _ _ => false
  end.

Definition times_up_count (ds : list dialog) : nat :=
  length (filter (fun d => is_times_up d = true) ds).

(** *** The specification's statements about the timer *)

(** Claim C2 as the specification states it: an input that is not a number, or
    a number that is not positive, leaves the countdown and the flag as
    they were and opens the error dialog. *)
Definition start_rejects_invalid_input : Prop :=
  forall w : TimerWidget,
    (Py.int (minutes_var w) = None
     \/ exists n, Py.int (minutes_var w) = Some n /\ n <= 0) ->
    remaining_time (fst (start_timer w)) = remaining_time w
    /\ timer_active (fst (start_timer w)) = timer_active w
    /\ snd (start_timer w)
       = [showerror "Error" "Please enter a valid number of minutes"].

(** Claim C3 as the specification states it: after [start] with [n >= 1] and
    exactly [n * 60] refreshes, the countdown is zero, the flag is down and
    one "time's up" notification has been opened. *)
Definition expires_after_60n_ticks : Prop :=
  forall (w : TimerWidget) (n : Z),
    time_display_exists w = true ->
    Py.int (minutes_var w) = Some n ->
    1 <= n ->
    let r := ticks (Z.to_nat (n * 60)) (fst (start_timer w)) in
    remaining_time (fst r) = 0
    /\ timer_active (fst r) = false
    /\ times_up_count (snd r) = 1%nat.

(** The text the time label shows for [r] remaining seconds. *)
Definition clock_face (r : Z) : string :=
  format_02d (r / 60) ++ ":" ++ format_02d (r mod 60).

End Timer.

(** ** Python values of the layout document *)

Module Json.

(** What [json.load] returns and [json.dump] accepts.  A dictionary keeps
    its items in insertion order; a look-up takes the first item with the
    key. *)
Inductive json :=
| JNull
| JBool (b : bool)
| JInt (z : Z)
| JFloat (f : float)
| JStr (s : string)
| JArr (items : list json)
| JObj (items : list (string * json)).

(** Truth value: [v or default], [if v:] *)
Definition truthy (v : json) : bool :=
  match v with
  | JNull => false
  | JBool b => b
  | JInt z => negb (z =? 0)
  | JFloat f => negb (PrimFloat.eqb f 0)
  | JStr s => str_truthy s
  | JArr items => match items with [] => false | _ => true end
  | JObj items => match items with [] => false | _ => true end
  end.

Fixpoint assoc (key : string) (items : list (string * json)) : option json :=
  match items with
  | [] => None
  | (k, v) :: rest => if String.eqb k key then Some v else assoc key rest
  end.

(** [v[key]] for a string [key] *)
Definition subscript (v : json) (key : string) : outcome json :=
  match v with
  | JObj items =>
      match assoc key items with
      | Some x => Ret x
      | None => Raise (KeyError key)
      end
  | _ => Raise TypeError
  end.

(** [v.get(key, default)] *)
Definition get (v : json) (key : string) (default : json) : outcome json :=
  match v with
  | JObj items =>
      match assoc key items with
      | Some x => Ret x
      | None => Ret default
      end
  | _ => Raise AttributeError
  end.

Fixpoint chars (s : string) : list json :=
  match s with
  | EmptyString => []
  | String c s' => JStr (String c EmptyString) :: chars s'
  end.

(** The items a [for] loop over [v] visits. *)
Definition iter (v : json) : outcome (list json) :=
  match v with
  | JArr items => Ret items
  | JObj items => Ret (map (fun kv => JStr (fst kv)) items)
  | JStr s => Ret (chars s)
  | _ => Raise TypeError
  end.

(** [v + n] and [v - n] for an integer literal [n]: the operand types
    that Python accepts. *)
Definition is_number (v : json) : bool :=
  match v with
  | JBool _ | JInt _ | JFloat _ => true
  | _ => false
  end.

End Json.

Import Json.

(** ** The widget classes (subclasses of [BaseWidget]) *)

Module Widget.

Inductive widget_class := ClockWidget | TodoWidget | WeatherWidget | TimerWidget.

Definition get_default_config (c : widget_class) : json :=
  match c with
  | ClockWidget =>
      JObj [("width", JInt 280); ("height", JInt 120);
            ("bg_color", JStr "#1C1B1F"); ("text_color", JStr "#FFFFFF");
            ("accent_color", JStr "#D0BCFF"); ("font_family", JStr "Segoe UI");
            ("font_size", JInt 18); ("opacity", JFloat 0.95);
            ("format_12h", JBool true); ("corner_radius", JInt 16)]
  | TodoWidget =>
      JObj [("width", JInt 320); ("height", JInt 400);
            ("bg_color", JStr "#FFFFFF"); ("text_color", JStr "#1C1B1F");
            ("accent_color", JStr "#6750A4"); ("surface_color", JStr "#F7F2FA");
            ("font_family", JStr "Segoe UI"); ("font_size", JInt 11);
            ("opacity", JFloat 0.95); ("max_items", JInt 10)]
  | WeatherWidget =>
      JObj [("width", JInt 300); ("height", JInt 200);
            ("bg_color", JStr "#E3F2FD"); ("text_color", JStr "#1565C0");
            ("accent_color", JStr "#2196F3"); ("font_family", JStr "Segoe UI");
            ("font_size", JInt 12); ("opacity", JFloat 0.95);
            ("location", JStr "Calgary, AB")]
  | TimerWidget =>
      JObj [("width", JInt 250); ("height", JInt 180);
            ("bg_color", JStr "#FFF3E0"); ("text_color", JStr "#E65100");
            ("accent_color", JStr "#FF9800"); ("font_family", JStr "Segoe UI");
            ("font_size", JInt 14); ("opacity", JFloat 0.95)]
  end.

(** A widget object as the manager sees it: its class and [self.config].
    The content state of the to-do and timer widgets is in [Todo] and
    [Timer]. *)
Record instance := MkInstance { class : widget_class; config : json }.

(** [BaseWidget.__init__]: [self.config = config or self.get_default_config()];
    a call without [config] passes [None]. *)
Definition BaseWidget_init (c : widget_class) (cfg : json) : instance :=
  MkInstance c (if truthy cfg then cfg else get_default_config c).

(** What [create_widget] evaluates on [self.config], in program order:
    [self.config[key]], alone or as the operand of [+ n] or [- n]. *)
Inductive access :=
| Item (key : string)
| ItemArith (key : string).

Definition create_widget_accesses (c : widget_class) : list access :=
  match c with
  | ClockWidget =>
      [Item "bg_color"; Item "width"; Item "height";
       Item "bg_color"; Item "text_color"; Item "font_family";
       ItemArith "font_size";
       Item "bg_color"; Item "accent_color"; Item "font_family";
       ItemArith "font_size"]
  | TodoWidget =>
      [Item "bg_color"; Item "width"; Item "height";
       Item "bg_color";
       Item "bg_color"; Item "text_color"; Item "font_family";
       ItemArith "font_size";
       Item "surface_color";
       Item "surface_color"; Item "text_color"; Item "font_family";
       Item "font_size"; Item "accent_color";
       Item "bg_color"; Item "bg_color"]
  | WeatherWidget =>
      [Item "bg_color"; Item "width"; Item "height";
       Item "location"; Item "bg_color"; Item "text_color";
       Item "font_family"; Item "font_size";
       Item "bg_color";
       Item "bg_color"; Item "accent_color"; Item "font_family";
       ItemArith "font_size";
       Item "bg_color"; Item "text_color"; Item "font_family";
       ItemArith "font_size";
       Item "bg_color";
       Item "bg_color"; Item "text_color"; Item "font_family";
       ItemArith "font_size"]
  | TimerWidget =>
      [Item "bg_color"; Item "width"; Item "height";
       Item "bg_color"; Item "text_color"; Item "font_family";
       ItemArith "font_size";
       Item "bg_color"; Item "accent_color"; Item "font_family";
       ItemArith "font_size";
       Item "bg_color";
       Item "font_family"; Item "font_size"; Item "text_color";
       Item "bg_color"; Item "text_color"; Item "font_family";
       Item "font_size";
       Item "bg_color"]
  end.

Fixpoint run_accesses (cfg : json) (l : list access) : outcome unit :=
  match l with
  | [] => Ret tt
  | Item key :: rest =>
      match subscript cfg key with
      | Ret _ => run_accesses cfg rest
      | Raise e => Raise e
      end
  | ItemArith key :: rest =>
      match subscript cfg key with
      | Ret v => if is_number v then run_accesses cfg rest else Raise TypeError
      | Raise e => Raise e
      end
  end.

(** [create_widget(parent)] of the widget's class, as far as Python can
    raise in it: the look-ups in [self.config].  The toolkit calls that
    receive the values are taken to return. *)
Definition create_widget (w : instance) : outcome unit :=
  run_accesses (config w) (create_widget_accesses (class w)).

End Widget.

(** ** A widget on the desktop (class [DesktopWidget]) *)

Module Desktop.

(** [desktop_window] tells whether the object holds a window. *)
Record DesktopWidget := Build {
  widget_instance : Widget.instance;
  x : json;
  y : json;
  desktop_window : bool;
  is_pinned : bool
}.

(** [DesktopWidget(widget_instance, x, y)] *)
Definition init (w : Widget.instance) (x0 y0 : json) : DesktopWidget :=
  Build w x0 y0 false false.

(** [pin_to_desktop]: the outcome and the object as the call leaves it.
    What is modelled of the body is what Python evaluates: the look-up of
    the opacity and the look-ups of [create_widget].  The calls of the
    toolkit (the window, its attributes and geometry, the widgets of the
    frame) are taken to return, whatever values they are given; whether
    Tk accepts a position, a size, a colour or a font is outside the
    model, so that a [Ret] here says that no look-up raised.  With the
    default configuration of a class and an integer position the toolkit
    is given the values the program was written with. *)
Definition pin_to_desktop (self : DesktopWidget)
  : outcome unit * DesktopWidget :=
  if is_pinned self then (Ret tt, self)
  else
    let self1 := Build (widget_instance self) (x self) (y self) true
                       (is_pinned self) in
    match get (Widget.config (widget_instance self)) "opacity" (JFloat 0.9) with
    | Raise e => (Raise e, self1)
    | Ret _ =>
        match Widget.create_widget (widget_instance self) with
        | Raise e => (Raise e, self1)
        | Ret _ =>
            (Ret tt, Build (widget_instance self) (x self) (y self) true true)
        end
    end.

Definition unpin_from_desktop (self : DesktopWidget) : DesktopWidget :=
  if desktop_window self
  then Build (widget_instance self) (x self) (y self) false false
  else self.

End Desktop.

(** ** The manager (class [WidgetManager]) *)

Module Manager.

Import Widget.
Export Desktop (DesktopWidget).

(** One entry of [self.active_widgets].  [desktop_widget] is [None] or a
    reference to a [DesktopWidget] object: an address in the manager's
    object store. *)
Record widget_info := Info {
  type : string;
  instance : Widget.instance;
  name : json;
  desktop_widget : option nat
}.

(** The manager's lists and the store of the [DesktopWidget] objects they
    refer to.  The same object is reachable from its [widget_info] and
    from [desktop_widgets]. *)
Record WidgetManager := Mgr {
  active_widgets : list widget_info;
  desktop_widgets : list nat;
  heap : list DesktopWidget
}.

(** A toast: [_show_toast(message, toast_type)].  [StrExn s e] is the
    formatted text [f"{s}{e}"], [NameStr name s] is [f"{name}{s}"]. *)
Inductive text :=
| Str (s : string)
| StrExn (s : string) (e : exn)
| NameStr (name : json) (s : string).

Record toast := Toast { message : text; toast_type : string }.

(** Computations on the manager: they read and write its state, open
    toasts, and return or raise.  What was written before an exception
    stays written. *)
Definition M (A : Type) : Type :=
  WidgetManager -> outcome A * WidgetManager * list toast.

#[global] Instance M_ret : MRet M := fun A a m => (Ret a, m, []).

#[global] Instance M_bind : MBind M := fun A B f c m =>
  match c m with
  | (Ret a, m1, t1) => let '(r, m2, t2) := f a m1 in (r, m2, t1 ++ t2)
  | (Raise e, m1, t1) => (Raise e, m1, t1)
  end.

Definition raise {A} (e : exn) : M A := fun m => (Raise e, m, []).

Definition lift {A} (o : outcome A) : M A := fun m => (o, m, []).

Definition get_state : M WidgetManager := fun m => (Ret m, m, []).

Definition modify (f : WidgetManager -> WidgetManager) : M unit :=
  fun m => (Ret tt, f m, []).

(** [try: body  except Exception as e: handler(e)] *)
Definition try_except {A} (body : M A) (handler : exn -> M A) : M A :=
  fun m =>
    match body m with
    | (Raise e, m1, t1) => let '(r, m2, t2) := handler e m1 in (r, m2, t1 ++ t2)
    | done => done
    end.

(** [for a in l: body(a)] *)
Fixpoint for_each {A} (l : list A) (body : A -> M unit) : M unit :=
  match l with
  | [] => mret tt
  | a :: rest => body a ;; for_each rest body
  end.

Definition state_of {A} (r : outcome A * WidgetManager * list toast)
  : WidgetManager := snd (fst r).

Definition toasts_of {A} (r : outcome A * WidgetManager * list toast)
  : list toast := snd r.

Definition outcome_of {A} (r : outcome A * WidgetManager * list toast)
  : outcome A := fst (fst r).

(** *** Toasts *)

Definition _show_toast (message : text) (toast_type : string) : M unit :=
  fun m => (Ret tt, m, [Toast message toast_type]).

Definition show_success_message (message : text) : M unit :=
  _show_toast message "success".

Definition show_error_message (message : text) : M unit :=
  _show_toast message "error".

Definition show_warning_message (message : text) : M unit :=
  _show_toast message "warning".

Definition show_info_message (message : text) : M unit :=
  _show_toast message "info".

(** *** The object store *)

(** A new object; its reference is returned. *)
Definition alloc (dw : DesktopWidget) : M nat :=
  fun m =>
    (Ret (length (heap m)),
     Mgr (active_widgets m) (desktop_widgets m) (heap m ++ [dw]), []).

(** A method call on the object at [r].  A reference to no object does not
    occur in a state the program builds; the call then raises. *)
Definition call (r : nat) (method : DesktopWidget -> outcome unit * DesktopWidget)
  : M unit :=
  fun m =>
    match heap m !! r with
    | Some dw =>
        let '(o, dw') := method dw in
        (o, Mgr (active_widgets m) (desktop_widgets m) (<[r := dw']> (heap m)),
         [])
    | None => (Raise AttributeError, m, [])
    end.

(** [widget_info['desktop_widget'] and widget_info['desktop_widget'].is_pinned] *)
Definition pinned (m : WidgetManager) (wi : widget_info) : bool :=
  match desktop_widget wi with
  | Some r =>
      match heap m !! r with
      | Some dw => Desktop.is_pinned dw
      | None => false
      end
  | None => false
  end.

(** [self.active_widgets[index]] *)
Definition active_widget (index : nat) : M widget_info :=
  fun m =>
    match active_widgets m !! index with
    | Some wi => (Ret wi, m, [])
    | None => (Raise IndexError, m, [])
    end.

(** [widget_info['desktop_widget'] = v] on the entry at [index] *)
Definition set_desktop_widget (index : nat) (v : option nat) : M unit :=
  modify (fun m =>
    Mgr (alter (fun wi => Info (type wi) (instance wi) (name wi) v)
               index (active_widgets m))
        (desktop_widgets m) (heap m)).

Definition append_active (wi : widget_info) : M unit :=
  modify (fun m =>
    Mgr (active_widgets m ++ [wi]) (desktop_widgets m) (heap m)).

Definition append_desktop (r : nat) : M unit :=
  modify (fun m =>
    Mgr (active_widgets m) (desktop_widgets m ++ [r]) (heap m)).

(** [l.remove(r)]: the first occurrence goes; [None] is [ValueError]. *)
Fixpoint list_remove (r : nat) (l : list nat) : option (list nat) :=
  match l with
  | [] => None
  | a :: rest =>
      if Nat.eqb a r then Some rest
      else option_map (cons a) (list_remove r rest)
  end.

Definition remove_desktop (r : nat) : M unit :=
  fun m =>
    match list_remove r (desktop_widgets m) with
    | Some l => (Ret tt, Mgr (active_widgets m) l (heap m), [])
    | None => (Raise ValueError, m, [])
    end.

(** [r in self.desktop_widgets] *)
Definition in_desktop (r : nat) (m : WidgetManager) : bool :=
  existsb (Nat.eqb r) (desktop_widgets m).

(** *** Widget types *)

Definition widget_types : list (string * widget_class) :=
  [("Clock", ClockWidget); ("Todo List", TodoWidget);
   ("Weather", WeatherWidget); ("Timer", TimerWidget)].

Fixpoint lookup_type (key : string) (types : list (string * widget_class))
  : option widget_class :=
  match types with
  | [] => None
  | (k, c) :: rest => if String.eqb k key then Some c else lookup_type key rest
  end.

(** [str(n)] for a length *)
Definition str_nat (n : nat) : string :=
  NilZero.string_of_uint (Nat.to_uint n).

(** The listbox shows [self.active_widgets]; it belongs to the toolkit. *)
Definition update_widgets_list : M unit := mret tt.

(** *** Pinning *)

(** [pin_widget_to_desktop(widget_info)], for the entry at [index]. *)
Definition pin_widget_to_desktop (index : nat) : M unit :=
  widget_info ← active_widget index;
  m ← get_state;
  if pinned m widget_info then mret tt
  else
    let x := 100 + Z.of_nat (length (desktop_widgets m)) * 30 in
    let y := 100 + Z.of_nat (length (desktop_widgets m)) * 30 in
    desktop_widget ← alloc (Desktop.init (instance widget_info) (JInt x) (JInt y));
    call desktop_widget Desktop.pin_to_desktop;;
    set_desktop_widget index (Some desktop_widget);;
    append_desktop desktop_widget.

(** [create_widget], with the type selected in the radio buttons. *)
Definition create_widget (widget_type : string) : M unit :=
  match lookup_type widget_type widget_types with
  | None => raise (KeyError widget_type)
  | Some widget_class =>
      let widget_instance := BaseWidget_init widget_class JNull in
      m ← get_state;
      let index := length (active_widgets m) in
      append_active
        (Info widget_type widget_instance
              (JStr (widget_type ++ " #" ++ str_nat (index + 1))) None);;
      pin_widget_to_desktop index;;
      update_widgets_list;;
      show_success_message
        (Str (widget_type ++ " widget created and pinned to desktop!"))
  end.

(** [pin_selected_widget], with [curselection()] as [selection]. *)
Definition pin_selected_widget (selection : option nat) : M unit :=
  match selection with
  | Some index =>
      widget_info ← active_widget index;
      m ← get_state;
      if pinned m widget_info then
        show_info_message (Str "Widget is already pinned to desktop!")
      else
        pin_widget_to_desktop index;;
        show_success_message
          (NameStr (name widget_info) " pinned to desktop!")
  | None => show_warning_message (Str "Please select a widget to pin.")
  end.

(** [unpin_selected_widget] *)
Definition unpin_selected_widget (selection : option nat) : M unit :=
  match selection with
  | Some index =>
      widget_info ← active_widget index;
      m ← get_state;
      match desktop_widget widget_info with
      | Some r =>
          if pinned m widget_info then
            call r (fun dw => (Ret tt, Desktop.unpin_from_desktop dw));;
            remove_desktop r;;
            set_desktop_widget index None;;
            show_success_message
              (NameStr (name widget_info) " unpinned from desktop!")
          else
            show_info_message (Str "Widget is not currently pinned to desktop.")
      | None =>
          show_info_message (Str "Widget is not currently pinned to desktop.")
      end
  | None => show_warning_message (Str "Please select a widget to unpin.")
  end.

(** [remove_widget] *)
Definition remove_widget (selection : option nat) : M unit :=
  match selection with
  | Some index =>
      widget_info ← active_widget index;
      m ← get_state;
      match desktop_widget widget_info with
      | Some r =>
          if pinned m widget_info then
            call r (fun dw => (Ret tt, Desktop.unpin_from_desktop dw));;
            (if in_desktop r m then remove_desktop r else mret tt)
          else mret tt
      | None => mret tt
      end;;
      modify (fun m =>
        Mgr (delete index (active_widgets m)) (desktop_widgets m) (heap m));;
      update_widgets_list;;
      show_success_message (Str "Widget removed successfully!")
  | None => show_warning_message (Str "Please select a widget to remove.")
  end.

(** *** The customisation dialog *)

(** The block [# Update desktop widget if pinned] of [apply_changes],
    which [preview_changes] repeats: the position of the desktop widget is
    read, the widget is unpinned, a new [DesktopWidget] for the same
    widget object and position takes its place in the entry and is
    pinned.  [self.desktop_widgets] is neither read nor written.  The
    entry is the dictionary the dialog was opened on; the dialog holds the
    grab while it is open, so the entry is [self.active_widgets[index]]
    for the [index] that was selected. *)
Definition repin_desktop_widget (index : nat) : M unit :=
  widget_info ← active_widget index;
  m ← get_state;
  match desktop_widget widget_info with
  | Some r =>
      if pinned m widget_info then
        match heap m !! r with
        | Some old =>
            let old_x := Desktop.x old in
            let old_y := Desktop.y old in
            call r (fun dw => (Ret tt, Desktop.unpin_from_desktop dw));;
            desktop_widget ← alloc (Desktop.init (instance widget_info)
                                                 old_x old_y);
            set_desktop_widget index (Some desktop_widget);;
            call desktop_widget Desktop.pin_to_desktop
        | None => raise AttributeError
        end
      else mret tt
  | None => mret tt
  end.

(** *** The layout document *)

(** The file [modern_widget_config.json], when it exists: unreadable
    ([open] or [json.load] raises [e]) or holding a document. *)
Inductive file :=
| Unreadable (e : exn)
| Document (j : json).

(** What the document keeps of one widget: type, name, configuration and,
    for a pinned widget, its position. *)
Record saved := Saved {
  saved_type : string;
  saved_name : json;
  saved_config : json;
  saved_position : option (json * json)
}.

(** What [save_config] reads from the entry [wi] in the state [m]. *)
Definition snapshot (m : WidgetManager) (wi : widget_info) : saved :=
  Saved (type wi) (name wi) (config (instance wi))
        (match desktop_widget wi with
         | Some r =>
             match heap m !! r with
             | Some dw =>
                 if Desktop.is_pinned dw
                 then Some (Desktop.x dw, Desktop.y dw)
                 else None
             | None => None
             end
         | None => None
         end).

(** The dictionary [widget_config] that [save_config] builds. *)
Definition widget_config (s : saved) : json :=
  JObj ([("type", JStr (saved_type s)); ("name", saved_name s);
         ("config", saved_config s)]
        ++ match saved_position s with
           | Some (x, y) =>
               [("desktop_x", x); ("desktop_y", y); ("pinned", JBool true)]
           | None => []
           end).

(** The dictionary [config_data] for a list of widgets. *)
Definition layout (widgets : list saved) : json :=
  JObj [("widgets", JArr (map widget_config widgets));
        ("desktop_positions", JObj [])].

(** The widgets of a state, as the document and an observer see them. *)
Definition observe (m : WidgetManager) : list saved :=
  map (snapshot m) (active_widgets m).

Definition config_data (m : WidgetManager) : json := layout (observe m).

(** [save_config].  [write_error] is the exception of [open], if it
    raises; the file is then left as it was. *)
Definition save_config (write_error : option exn) (fs : option file)
  : M (option file) :=
  m ← get_state;
  match write_error with
  | None =>
      show_success_message (Str "Layout saved successfully!");;
      mret (Some (Document (config_data m)))
  | Some e =>
      show_error_message (StrExn "Failed to save layout: " e);;
      mret fs
  end.

(** [widget_type in self.widget_types]: a list or a dictionary cannot be
    hashed; a value that is not a string is no key. *)
Definition known_type (widget_type : json) : outcome (option (string * widget_class)) :=
  match widget_type with
  | JStr s =>
      Ret (match lookup_type s widget_types with
           | Some c => Some (s, c)
           | None => None
           end)
  | JArr _ | JObj _ => Raise TypeError
  | _ => Ret None
  end.

(** The body of the loop of [load_config] for one record. *)
Definition load_widget (widget_data : json) : M unit :=
  widget_type ← lift (subscript widget_data "type");
  known ← lift (known_type widget_type);
  match known with
  | Some (widget_type, widget_class) =>
      cfg ← lift (subscript widget_data "config");
      let widget_instance := BaseWidget_init widget_class cfg in
      name ← lift (subscript widget_data "name");
      m ← get_state;
      let index := length (active_widgets m) in
      append_active (Info widget_type widget_instance name None);;
      was_pinned ← lift (get widget_data "pinned" (JBool false));
      if truthy was_pinned then
        x ← lift (get widget_data "desktop_x" (JInt 100));
        y ← lift (get widget_data "desktop_y" (JInt 100));
        desktop_widget ← alloc (Desktop.init widget_instance x y);
        call desktop_widget Desktop.pin_to_desktop;;
        set_desktop_widget index (Some desktop_widget);;
        append_desktop desktop_widget
      else mret tt
  | None => mret tt
  end.

(** The body of the loop that clears the existing widgets. *)
Definition unpin_if_pinned (widget_info : widget_info) : M unit :=
  match desktop_widget widget_info with
  | Some r =>
      m ← get_state;
      if pinned m widget_info
      then call r (fun dw => (Ret tt, Desktop.unpin_from_desktop dw))
      else mret tt
  | None => mret tt
  end.

(** The [try] block of [load_config]. *)
Definition load_config_body (f : file) : M unit :=
  config_data ← lift (match f with
                      | Unreadable e => Raise e
                      | Document j => Ret j
                      end);
  m ← get_state;
  for_each (active_widgets m) unpin_if_pinned;;
  modify (fun m => Mgr [] [] (heap m));;
  widgets ← lift (get config_data "widgets" (JArr []));
  items ← lift (iter widgets);
  for_each items load_widget;;
  update_widgets_list;;
  show_success_message (Str "Layout loaded successfully!").

(** [load_config], with the file system's answer for the layout file. *)
Definition load_config (fs : option file) : M unit :=
  match fs with
  | None => mret tt
  | Some f =>
      try_except (load_config_body f)
        (fun e => show_error_message (StrExn "Failed to load layout: " e))
  end.

(** The manager before [__init__] loads the layout. *)
Definition empty : WidgetManager := Mgr [] [] [].

(** *** Sequences of user commands *)

Inductive command :=
| Create (widget_type : string)
| Pin (selection : option nat)
| Unpin (selection : option nat)
| Remove (selection : option nat).

Definition run_command (c : command) : M unit :=
  match c with
  | Create widget_type => create_widget widget_type
  | Pin selection => pin_selected_widget selection
  | Unpin selection => unpin_selected_widget selection
  | Remove selection => remove_widget selection
  end.

(** The state after a sequence of commands; an exception that escapes a
    command is reported by the event loop and the state stays as the
    command left it. *)
Definition run (cs : list command) (m : WidgetManager) : WidgetManager :=
  fold_left (fun m c => state_of (run_command c m)) cs m.

(** The positions of the pinned widgets, one per pinned entry. *)
Definition pinned_positions (m : WidgetManager) : list (json * json) :=
  omap saved_position (observe m).

(** *** Predicates on states and documents *)

(** Whether [pin_to_desktop] can build the window of [w]: the look-ups it
    makes in the configuration succeed. *)
Definition can_pin (w : Widget.instance) : bool :=
  match get (config w) "opacity" (JFloat 0.9), Widget.create_widget w with
  | Ret _, Ret _ => true
  | _, _ => false
  end.

(** What every entry of [active_widgets] satisfies in a state the program
    builds: its type names its class, its configuration is not empty, its
    window could be built if it is pinned, and its reference is to an
    object of the store. *)
Definition well_formed_entry (m : WidgetManager) (wi : widget_info) : Prop :=
  lookup_type (type wi) widget_types = Some (class (instance wi))
  /\ truthy (config (instance wi)) = true
  /\ (pinned m wi = true -> can_pin (instance wi) = true)
  /\ (forall r, desktop_widget wi = Some r -> (r < length (heap m))%nat).

Definition well_formed (m : WidgetManager) : Prop :=
  Forall (well_formed_entry m) (active_widgets m).

(** Whether the type of a record is one of [widget_types]. *)
Definition recognized (s : saved) : bool :=
  match lookup_type (saved_type s) widget_types with
  | Some _ => true
  | None => false
  end.

(** The widget [load_config] builds from a record of a recognized type:
    an empty configuration is replaced by the default of the class. *)
Definition rebuilt (s : saved) : saved :=
  match lookup_type (saved_type s) widget_types with
  | Some c =>
      Saved (saved_type s) (saved_name s)
            (config (BaseWidget_init c (saved_config s))) (saved_position s)
  | None => s
  end.

(** A record that [load_config] can load: if its type is recognized and it
    is pinned, the window of its widget can be built. *)
Definition loadable (s : saved) : Prop :=
  match lookup_type (saved_type s) widget_types, saved_position s with
  | Some c, Some _ => can_pin (BaseWidget_init c (saved_config s)) = true
  | _, _ => True
  end.

Definition load_failed (e : exn) : toast :=
  Toast (StrExn "Failed to load layout: " e) "error".

Definition load_succeeded : toast :=
  Toast (Str "Layout loaded successfully!") "success".

(** The position [pin_widget_to_desktop] gives to a new desktop widget
    when [n] widgets are on the desktop. *)
Definition stagger (n : nat) : json := JInt (100 + Z.of_nat n * 30).

(** The store [h'] comes after [h]: it is at least as long, and an object
    of [h] that is pinned in [h'] was pinned in [h]. *)
Definition heap_after (h h' : list DesktopWidget) : Prop :=
  (length h <= length h')%nat
  /\ forall r dw', (r < length h)%nat -> h' !! r = Some dw' ->
       Desktop.is_pinned dw' = true ->
       exists dw, h !! r = Some dw /\ Desktop.is_pinned dw = true.

(** The state after loading the record [s]. *)
Definition load_step (s : saved) (m : WidgetManager) : WidgetManager :=
  match lookup_type (saved_type s) widget_types with
  | None => m
  | Some c =>
      let w := BaseWidget_init c (saved_config s) in
      match saved_position s with
      | None =>
          Mgr (active_widgets m ++ [Info (saved_type s) w (saved_name s) None])
              (desktop_widgets m) (heap m)
      | Some (x, y) =>
          Mgr (active_widgets m
               ++ [Info (saved_type s) w (saved_name s)
                        (Some (length (heap m)))])
              (desktop_widgets m ++ [length (heap m)])
              (heap m ++ [Desktop.Build w x y true true])
      end
  end.

(** *** The specification's statements about the manager *)





Definition staggered_position (k : nat) : json * json := (stagger k, stagger k).



(** *** The desktop list and the entries *)

(** The reference of each entry of [active_widgets], in order. *)
Definition entry_refs (m : WidgetManager) : list (option nat) :=
  desktop_widget <$> active_widgets m.

(** The desktop list [dws], the references [refs] of the entries and the
    store [h] agree: the desktop list has no duplicate and holds exactly
    the objects the entries refer to; no two entries refer to the same
    object; an object an entry refers to is pinned; a pinned object has
    its window and belongs to an entry. *)
Definition consistent_with (refs : list (option nat)) (dws : list nat)
  (h : list DesktopWidget) : Prop :=
  NoDup dws
  /\ (forall r, r ∈ dws <-> Some r ∈ refs)
  /\ (forall i j r,
        refs !! i = Some (Some r) -> refs !! j = Some (Some r) -> i = j)
  /\ (forall r, Some r ∈ refs ->
        exists dw, h !! r = Some dw /\ Desktop.is_pinned dw = true)
  /\ (forall r dw, h !! r = Some dw -> Desktop.is_pinned dw = true ->
        Desktop.desktop_window dw = true /\ Some r ∈ refs).

Definition consistent (m : WidgetManager) : Prop :=
  consistent_with (entry_refs m) (desktop_widgets m) (heap m).

(** The entry [wi] without its desktop widget. *)
Definition unpinned_entry (wi : widget_info) : widget_info :=
  Info (type wi) (instance wi) (name wi) None.

(** The observation of an entry that is not pinned. *)
Definition without_position (s : saved) : saved :=
  Saved (saved_type s) (saved_name s) (saved_config s) None.

Definition with_position (x y : json) (s : saved) : saved :=
  Saved (saved_type s) (saved_name s) (saved_config s) (Some (x, y)).

(** The entry [wi'] of the state [m'] is the widget that the entry [wi]
    is in the state [m], read from the fields themselves: the same type
    and name, the same widget object (class and configuration), pinned
    when [wi] is, and then with a desktop widget at the same position. *)
Definition same_widget (m : WidgetManager) (wi : widget_info)
  (m' : WidgetManager) (wi' : widget_info) : Prop :=
  type wi' = type wi
  /\ name wi' = name wi
  /\ instance wi' = instance wi
  /\ pinned m' wi' = pinned m wi
  /\ forall r dw,
       desktop_widget wi = Some r -> heap m !! r = Some dw ->
       Desktop.is_pinned dw = true ->
       exists r' dw',
         desktop_widget wi' = Some r' /\ heap m' !! r' = Some dw'
         /\ Desktop.is_pinned dw' = true
         /\ Desktop.x dw' = Desktop.x dw /\ Desktop.y dw' = Desktop.y dw.

End Manager.

(** ** The desktop preview (the drag handlers of [WidgetManager]) *)

Module Preview.

Import Manager.

(** One entry of [self.preview_widget_items].  [canvas_x], [canvas_y] are
    the canvas coordinates of the entry's drawn items, which the handlers
    move together; [real_x], [real_y] are the accumulated screen
    coordinates; [widget_info] is the entry of [active_widgets] it stands
    for, by its index.

    The program keeps a reference to the dictionary of the widget there.
    The index stands for that dictionary for as long as [active_widgets]
    holds the widgets it held when the preview was built, in that order
    ([PreviewPanel.shows]); of a preview that was left open while widgets
    were removed or a layout was loaded the index is no model, and the
    statements about the widget of an entry are made for previews that
    show the widgets.  Where a handler finds no widget at the index it
    raises [IndexError], which the program has no occasion for. *)
Record item_data := ItemData {
  canvas_x : Z;
  canvas_y : Z;
  real_x : json;
  real_y : json;
  widget_info : nat
}.

Record preview := Prev {
  scale_x : float;
  scale_y : float;
  preview_widget_items : list item_data;
  dragging_widget : option nat;
  drag_start_x : Z;
  drag_start_y : Z
}.

(** [canvas_width / screen_width] in [open_desktop_preview]; the sizes are
    pixel counts, which a float holds exactly. *)
Definition scale (canvas_size screen_size : Z) : outcome float :=
  if screen_size =? 0 then Raise ZeroDivisionError
  else Ret (PrimFloat.div (float_of_Z canvas_size) (float_of_Z screen_size)).

(** The numeric value of [v] as a float operand. *)
Definition to_float (v : json) : outcome float :=
  match v with
  | JInt z => float_of_int z
  | JFloat f => Ret f
  | JBool b => Ret (if b then 1%float else 0%float)
  | _ => Raise TypeError
  end.

(** [v += d / scale] for a pointer displacement [d], which is a small
    integer. *)
Definition accumulate (v : json) (d : Z) (scale : float) : outcome float :=
  match truediv (float_of_Z d) scale with
  | Raise e => Raise e
  | Ret q =>
      match to_float v with
      | Raise e => Raise e
      | Ret f => Ret (PrimFloat.add f q)
      end
  end.

Definition set_item (i : nat) (it : item_data) (p : preview) : preview :=
  Prev (scale_x p) (scale_y p) (<[i := it]> (preview_widget_items p))
       (dragging_widget p) (drag_start_x p) (drag_start_y p).

(** [desktop_widget.x = new_x; desktop_widget.y = new_y] on the object at
    [r] *)
Definition set_position (r : nat) (new_x new_y : Z) (m : WidgetManager)
  : WidgetManager :=
  Mgr (active_widgets m) (desktop_widgets m)
      (alter (fun dw =>
                Desktop.Build (Desktop.widget_instance dw) (JInt new_x)
                  (JInt new_y) (Desktop.desktop_window dw)
                  (Desktop.is_pinned dw))
             r (heap m)).

(** The live write-back of [on_preview_drag] for the entry [wi]. *)
Definition write_back (wi : Manager.widget_info) (rx ry : float)
  (m : WidgetManager) : outcome unit * WidgetManager :=
  match desktop_widget wi with
  | Some r =>
      if pinned m wi then
        match int_of_float rx with
        | Raise e => (Raise e, m)
        | Ret new_x =>
            match int_of_float ry with
            | Raise e => (Raise e, m)
            | Ret new_y => (Ret tt, set_position r new_x new_y m)
            end
        end
      else (Ret tt, m)
  | None => (Ret tt, m)
  end.

(** [on_preview_click]; [clicked] is the key of the entry that owns the
    canvas item closest to the pointer, if an entry owns it. *)
Definition on_preview_click (clicked : option nat) (event_x event_y : Z)
  (p : preview) : preview :=
  match clicked with
  | Some i =>
      Prev (scale_x p) (scale_y p) (preview_widget_items p) (Some i)
           event_x event_y
  | None => p
  end.

(** [on_preview_drag]: the outcome and the state as the handler leaves it.
    The widget of the grabbed entry is looked up by its index, see
    [item_data]. *)
Definition on_preview_drag (event_x event_y : Z) (s : preview * WidgetManager)
  : outcome unit * (preview * WidgetManager) :=
  let '(p, m) := s in
  match dragging_widget p with
  | None => (Ret tt, s)
  | Some i =>
      let dx := event_x - drag_start_x p in
      let dy := event_y - drag_start_y p in
      match preview_widget_items p !! i with
      | None => (Raise (KeyError (str_nat i)), s)
      | Some it =>
          let it1 := ItemData (canvas_x it + dx) (canvas_y it + dy)
                              (real_x it) (real_y it) (widget_info it) in
          match accumulate (real_x it1) dx (scale_x p) with
          | Raise e => (Raise e, (set_item i it1 p, m))
          | Ret rx =>
              let it2 := ItemData (canvas_x it1) (canvas_y it1) (JFloat rx)
                                  (real_y it1) (widget_info it1) in
              match accumulate (real_y it2) dy (scale_y p) with
              | Raise e => (Raise e, (set_item i it2 p, m))
              | Ret ry =>
                  let it3 := ItemData (canvas_x it2) (canvas_y it2)
                               (real_x it2) (JFloat ry) (widget_info it2) in
                  let p3 := set_item i it3 p in
                  match active_widgets m !! widget_info it3 with
                  | None => (Raise IndexError, (p3, m))
                  | Some wi =>
                      match write_back wi rx ry m with
                      | (Raise e, m') => (Raise e, (p3, m'))
                      | (Ret _, m') =>
                          (Ret tt,
                           (Prev (scale_x p3) (scale_y p3)
                                 (preview_widget_items p3) (dragging_widget p3)
                                 event_x event_y, m'))
                      end
                  end
              end
          end
      end
  end.

(** [on_preview_release] *)
Definition on_preview_release (p : preview) : preview :=
  Prev (scale_x p) (scale_y p) (preview_widget_items p) None
       (drag_start_x p) (drag_start_y p).

(** Successive pointer-move events, each handled after the other; the
    first exception ends the sequence. *)
Fixpoint drag_all (events : list (Z * Z)) (s : preview * WidgetManager)
  : outcome unit * (preview * WidgetManager) :=
  match events with
  | [] => (Ret tt, s)
  | (event_x, event_y) :: rest =>
      match on_preview_drag event_x event_y s with
      | (Ret _, s') => drag_all rest s'
      | (Raise e, s') => (Raise e, s')
      end
  end.

(** *** Statements about dragging *)





(** The accumulated real position of the entry [i]. *)
Definition real_position (s : preview * WidgetManager) (i : nat)
  : option (json * json) :=
  match preview_widget_items (fst s) !! i with
  | Some it => Some (real_x it, real_y it)
  | None => None
  end.

(** The horizontal coordinate of a real position, truncated as the
    write-back does. *)
Definition truncated (pos : option (json * json)) : option (outcome Z) :=
  match pos with
  | Some (JFloat f, _) => Some (int_of_float f)
  | _ => None
  end.

(** Claim C7 as the specification states it, for two events: moving the
    pointer to [e1] and then to [e2] accumulates the same real position as
    moving it to [e2] at once. *)
Definition drag_composes_exactly : Prop :=
  forall (s : preview * WidgetManager) (e1 e2 : Z * Z) (i : nat),
    dragging_widget (fst s) = Some i ->
    real_position (snd (drag_all [e1; e2] s)) i
    = real_position (snd (drag_all [e2] s)) i.

(** A preview of a 1920 pixels wide screen on a canvas of 1056 pixels, with
    one entry for a widget pinned at (100, 100), grabbed at (200, 200). *)
Definition grabbed_clock : preview * WidgetManager :=
  (Prev 0.55 0.55 [ItemData 55 55 (JInt 100) (JInt 100) 0] (Some 0%nat) 200 200,
   run [Create "Clock"] empty).

(** *** The tolerance of the specification *)






End Preview.

(** ** The life of a desktop widget object *)

Module DesktopLife.

Import Desktop.

(** The two methods that are called on a [DesktopWidget]. *)
Inductive method := Pin | Unpin.

(** The object after the call; an exception of [pin_to_desktop] is the
    caller's to handle, the object stays as the call left it. *)
Definition invoke (c : method) (self : DesktopWidget) : DesktopWidget :=
  match c with
  | Pin => snd (pin_to_desktop self)
  | Unpin => unpin_from_desktop self
  end.

Definition invoke_all (cs : list method) (self : DesktopWidget)
  : DesktopWidget :=
  fold_left (fun self c => invoke c self) cs self.

(** The configuration has every key of the default configuration of the
    class [c], with a number wherever the default has one. *)
Definition covers_default (c : Widget.widget_class)
  (items : list (string * json)) : Prop :=
  forall key v,
    subscript (Widget.get_default_config c) key = Ret v ->
    exists v', assoc key items = Some v'
               /\ (is_number v = true -> is_number v' = true).

End DesktopLife.

(** ** The entries and the buttons of the desktop preview *)

Module PreviewPanel.

Import Manager Preview.

(** What the handlers of the preview work on. *)
Definition state : Type := preview * WidgetManager.

#[local] Instance outcome_ret : MRet outcome := fun A a => Ret a.

#[local] Instance outcome_bind : MBind outcome := fun A B f o =>
  match o with
  | Ret a => f a
  | Raise e => Raise e
  end.

(** [200 + i * 50] and [150 + i * 50] *)
Definition default_x (i : nat) : Z := 200 + Z.of_nat i * 50.
Definition default_y (i : nat) : Z := 150 + Z.of_nat i * 50.

(** [int(v * scale)] for a float [scale] *)
Definition scaled (v : json) (scale : float) : outcome Z :=
  f ← to_float v;
  int_of_float (PrimFloat.mul f scale).

(** [min(a, b)] on floats: [b] when it is less than [a], else [a]. *)
Definition min (a b : float) : float :=
  if PrimFloat.ltb b a then b else a.

(** [int(n * min(self.scale_x, self.scale_y))], the size of a font *)
Definition font_size (n : Z) (p : preview) : outcome Z :=
  int_of_float (PrimFloat.mul (float_of_Z n) (min (scale_x p) (scale_y p))).

(** [int(v)] *)
Definition int_of_json (v : json) : outcome Z :=
  match v with
  | JInt z => Ret z
  | JBool b => Ret (if b then 1 else 0)
  | JFloat f => int_of_float f
  | JStr s =>
      match Py.int s with
      | Some z => Ret z
      | None => Raise ValueError
      end
  | _ => Raise TypeError
  end.

(** [desktop_widget.desktop_window.geometry(...)] on the object at [r]:
    an object without a window holds [None] there. *)
Definition geometry (r : nat) (m : WidgetManager) : outcome unit :=
  match heap m !! r with
  | Some dw =>
      if Desktop.desktop_window dw then Ret tt else Raise AttributeError
  | None => Ret tt
  end.

(** *** [draw_desktop_simulation] *)

(** The step of [range(0, canvas_width, int(50 * scale))]: a step of zero
    is a [ValueError]. *)
Definition grid_step (scale : float) : outcome Z :=
  step ← scaled (JInt 50) scale;
  if step =? 0 then Raise ValueError else mret step.

(** [draw_desktop_simulation], as far as it can raise: the steps of the
    two grids, then the sizes of the icons, the fonts and the task bar,
    which are truncated products of the scales. *)
Definition draw_desktop_simulation (p : preview) : outcome unit :=
  _ ← grid_step (scale_x p);
  _ ← grid_step (scale_y p);
  icon_size ← font_size 50 p;
  margin ← font_size 20 p;
  _ ← font_size 8 p;
  _ ← font_size 8 p;
  taskbar_height ← scaled (JInt 40) (scale_y p);
  _ ← scaled (JInt 50) (scale_x p);
  _ ← font_size 10 p;
  _ ← scaled (JInt 100) (scale_x p);
  _ ← font_size 8 p;
  mret tt.

(** *** [add_interactive_widgets] *)

(** The position of the entry [wi], the [i]-th of [active_widgets], in the
    preview: that of its desktop widget if it is pinned, or the default
    for [i]. *)
Definition current_position (i : nat) (wi : Manager.widget_info)
  (m : WidgetManager) : json * json :=
  match desktop_widget wi with
  | Some r =>
      match heap m !! r with
      | Some dw =>
          if Desktop.is_pinned dw then (Desktop.x dw, Desktop.y dw)
          else (JInt (default_x i), JInt (default_y i))
      | None => (JInt (default_x i), JInt (default_y i))
      end
  | None => (JInt (default_x i), JInt (default_y i))
  end.

(** The body of the loop up to the assignment to
    [self.preview_widget_items[i]]: the value that is stored.  The sizes,
    the colours and the fonts go to the canvas; computing them can
    raise. *)
Definition interactive_widget (i : nat) (wi : Manager.widget_info)
  (s : state) : outcome item_data :=
  let '(p, m) := s in
  let '(real_x, real_y) := current_position i wi m in
  let config := Widget.config (instance wi) in
  canvas_x ← scaled real_x (scale_x p);
  canvas_y ← scaled real_y (scale_y p);
  width ← get config "width" (JInt 200);
  widget_width ← scaled width (scale_x p);
  height ← get config "height" (JInt 100);
  widget_height ← scaled height (scale_y p);
  widget_bg ← get config "bg_color" (JStr "#FFFFFF");
  text_color ← get config "text_color" (JStr "#000000");
  title_font ← font_size 9 p;
  text_color ← get config "text_color" (JStr "#000000");
  type_font ← font_size 8 p;
  mret (ItemData canvas_x canvas_y real_x real_y i).

(** [self.preview_widget_items[i] = item]: the keys of the dictionary are
    0, 1, ... in the order they were inserted, so the entry with the key
    [i] is the [i]-th of the list; assigning to the key after the last
    one appends. *)
Definition store (i : nat) (item : item_data) (p : preview) : preview :=
  if decide (i < length (preview_widget_items p))%nat
  then set_item i item p
  else Prev (scale_x p) (scale_y p) (preview_widget_items p ++ [item])
            (dragging_widget p) (drag_start_x p) (drag_start_y p).

(** The loop over [enumerate(self.active_widgets)], from the index [i]. *)
Fixpoint add_from (i : nat) (widgets : list Manager.widget_info) (s : state)
  : outcome unit * state :=
  match widgets with
  | [] => (Ret tt, s)
  | wi :: rest =>
      match interactive_widget i wi s with
      | Raise e => (Raise e, s)
      | Ret item => add_from (S i) rest (store i item (fst s), snd s)
      end
  end.

Definition add_interactive_widgets (s : state) : outcome unit * state :=
  add_from 0 (active_widgets (snd s)) s.

(** *** [apply_preview_positions] *)

(** The body of the loop for one entry of the preview; [applied_count] is
    threaded through.  The widget of the entry is looked up by its index,
    see [item_data]. *)
Definition apply_item (item_data : item_data)
  (acc : nat * WidgetManager) : outcome unit * (nat * WidgetManager) :=
  let '(applied_count, m) := acc in
  match active_widgets m !! widget_info item_data with
  | None => (Raise IndexError, acc)
  | Some wi =>
      match desktop_widget wi with
      | Some r =>
          if pinned m wi then
            match int_of_json (real_x item_data) with
            | Raise e => (Raise e, acc)
            | Ret new_x =>
                match int_of_json (real_y item_data) with
                | Raise e => (Raise e, acc)
                | Ret new_y =>
                    let m' := set_position r new_x new_y m in
                    match geometry r m' with
                    | Raise e => (Raise e, (applied_count, m'))
                    | Ret _ => (Ret tt, (S applied_count, m'))
                    end
                end
            end
          else (Ret tt, acc)
      | None => (Ret tt, acc)
      end
  end.

Fixpoint apply_all (items : list item_data) (acc : nat * WidgetManager)
  : outcome unit * (nat * WidgetManager) :=
  match items with
  | [] => (Ret tt, acc)
  | item_data :: rest =>
      match apply_item item_data acc with
      | (Ret _, acc') => apply_all rest acc'
      | (Raise e, acc') => (Raise e, acc')
      end
  end.

Definition applied (applied_count : nat) : toast :=
  Toast (Str ("Applied positions to " ++ str_nat applied_count
              ++ " desktop widgets!")) "success".

Definition apply_preview_positions (s : state)
  : outcome unit * state * list toast :=
  let '(p, m) := s in
  match apply_all (preview_widget_items p) (0%nat, m) with
  | (Ret _, (applied_count, m')) => (Ret tt, (p, m'), [applied applied_count])
  | (Raise e, (_, m')) => (Raise e, (p, m'), [])
  end.

(** *** [reset_preview_positions] *)

(** The body of the loop for the key [i] and its entry [item_data].  The
    canvas items are moved by the difference to where they are, which
    puts them at the scaled default.  The widget of the entry is looked
    up by its index, see [item_data]. *)
Definition reset_item (i : nat) (item_data : item_data) (s : state)
  : outcome unit * state :=
  let '(p, m) := s in
  match scaled (JInt (default_x i)) (scale_x p) with
  | Raise e => (Raise e, s)
  | Ret canvas_x =>
      match scaled (JInt (default_y i)) (scale_y p) with
      | Raise e => (Raise e, s)
      | Ret canvas_y =>
          let p' := set_item i (ItemData canvas_x canvas_y
                                         (JInt (default_x i))
                                         (JInt (default_y i))
                                         (widget_info item_data)) p in
          match active_widgets m !! widget_info item_data with
          | None => (Raise IndexError, (p', m))
          | Some wi =>
              match desktop_widget wi with
              | Some r =>
                  if pinned m wi then
                    match geometry r m with
                    | Raise e => (Raise e, (p', m))
                    | Ret _ =>
                        (Ret tt,
                         (p', set_position r (default_x i) (default_y i) m))
                    end
                  else (Ret tt, (p', m))
              | None => (Ret tt, (p', m))
              end
          end
      end
  end.

(** The loop over [self.preview_widget_items.items()], from the key [i]. *)
Fixpoint reset_from (i : nat) (items : list item_data) (s : state)
  : outcome unit * state :=
  match items with
  | [] => (Ret tt, s)
  | item_data :: rest =>
      match reset_item i item_data s with
      | (Ret _, s') => reset_from (S i) rest s'
      | (Raise e, s') => (Raise e, s')
      end
  end.

Definition positions_reset : toast :=
  Toast (Str "Widget positions reset to default!") "success".

Definition reset_preview_positions (s : state)
  : outcome unit * state * list toast :=
  match reset_from 0 (preview_widget_items (fst s)) s with
  | (Ret _, s') => (Ret tt, s', [positions_reset])
  | (Raise e, s') => (Raise e, s', [])
  end.

(** The state a handler leaves. *)
Definition after {A} (r : outcome A * state * list toast) : state :=
  snd (fst r).

(** *** Predicates on previews and stores *)

(** The preview [p] shows the entries of [m]: one entry of the preview
    for each, in their order. *)
Definition shows (p : preview) (m : WidgetManager) : Prop :=
  widget_info <$> preview_widget_items p
  = seq 0 (length (active_widgets m)).

(** The store [h'] is [h] up to the positions of its objects. *)
Definition same_objects (h h' : list DesktopWidget) : Prop :=
  length h' = length h
  /\ forall r dw dw', h !! r = Some dw -> h' !! r = Some dw' ->
       Desktop.widget_instance dw' = Desktop.widget_instance dw
       /\ Desktop.desktop_window dw' = Desktop.desktop_window dw
       /\ Desktop.is_pinned dw' = Desktop.is_pinned dw.

(** The manager [m'] is [m] up to the positions of desktop widgets. *)
Definition moved (m m' : WidgetManager) : Prop :=
  active_widgets m' = active_widgets m
  /\ desktop_widgets m' = desktop_widgets m
  /\ same_objects (heap m) (heap m').

(** What a reset leaves of the preview: the scales, the grabbed entry,
    the drag origin, and which widget each entry stands for. *)
Definition same_entries (p p' : preview) : Prop :=
  scale_x p' = scale_x p
  /\ scale_y p' = scale_y p
  /\ dragging_widget p' = dragging_widget p
  /\ drag_start_x p' = drag_start_x p
  /\ drag_start_y p' = drag_start_y p
  /\ widget_info <$> preview_widget_items p'
     = widget_info <$> preview_widget_items p.

(** The positions of [dw] and [dw'] are the same. *)
Definition same_position (dw dw' : DesktopWidget) : Prop :=
  Desktop.x dw' = Desktop.x dw /\ Desktop.y dw' = Desktop.y dw.

(** The object at [r] belongs to the entry that the preview entry [i]
    stands for, and is pinned. *)
Definition shown_at (p : preview) (m : WidgetManager) (i r : nat) : Prop :=
  exists it wi dw,
    preview_widget_items p !! i = Some it
    /\ active_widgets m !! widget_info it = Some wi
    /\ desktop_widget wi = Some r
    /\ heap m !! r = Some dw
    /\ Desktop.is_pinned dw = true.

(** The position is a pair of integers. *)
Definition integral (pos : json * json) : Prop :=
  exists x y : Z, pos = (JInt x, JInt y).

(** Whether the entry that a preview entry stands for is pinned. *)
Definition pinned_entry (m : WidgetManager) (item_data : item_data) : bool :=
  match active_widgets m !! widget_info item_data with
  | Some wi => pinned m wi
  | None => false
  end.


End PreviewPanel.

(** ** The states of a session *)

Module Session.

Import Manager Preview PreviewPanel.

(** The states the manager goes through in a session in which the
    customisation dialog is not used.  The manager starts empty; then the
    four commands of the main window, loads and saves of the layout, the
    drag handler and the two buttons of the preview (for any preview) and
    drags of a desktop window follow one another in any order; a step
    that raises leaves the state it had reached.  [do_drag] of a pinned
    [DesktopWidget] assigns the integer position of its window to
    [self.x] and [self.y].  A handler of the preview writes nothing in
    the manager but positions of pinned desktop widgets, whether it finds
    the widget through its dictionary, as the program does, or through
    its index, as [on_preview_drag], [apply_item] and [reset_item] do
    here: for a preview that no longer shows the widgets the steps below
    may move another pinned widget than the program moves, to a position
    that a drag of that widget's window reaches as well.

    [apply_changes] and [preview_changes] of the customisation dialog are
    not steps: they assign a new [DesktopWidget] to
    [widget_info['desktop_widget']] and leave [self.desktop_widgets] as
    it is (see [repin_desktop_widget]), so what holds of these states need
    not hold once the dialog was used on a pinned widget. *)
Inductive reachable : WidgetManager -> Prop :=
| reachable_empty : reachable empty
| reachable_command (c : command) (m : WidgetManager) :
    reachable m -> reachable (state_of (run_command c m))
| reachable_load (fs : option file) (m : WidgetManager) :
    reachable m -> reachable (state_of (load_config fs m))
| reachable_save (e : option exn) (fs : option file) (m : WidgetManager) :
    reachable m -> reachable (state_of (save_config e fs m))
| reachable_drag (event_x event_y : Z) (p : preview) (m : WidgetManager) :
    reachable m ->
    reachable (snd (snd (on_preview_drag event_x event_y (p, m))))
| reachable_apply (p : preview) (m : WidgetManager) :
    reachable m ->
    reachable (snd (after (apply_preview_positions (p, m))))
| reachable_reset (p : preview) (m : WidgetManager) :
    reachable m ->
    reachable (snd (after (reset_preview_positions (p, m))))
| reachable_do_drag (r : nat) (dw : DesktopWidget) (x y : Z)
    (m : WidgetManager) :
    reachable m ->
    heap m !! r = Some dw -> Desktop.is_pinned dw = true ->
    reachable (set_position r x y m).

End Session.

(** * Properties *)

(** ** The to-do list *)

Module TodoProofs.

Import Todo.

Lemma add_task_nonblank (t : string) (w : TodoWidget) :
  strip t <> EmptyString ->
  add_task (type_entry t w) = Widget "" (tasks w ++ [Task (strip t) false]).
Proof.
  intros Hne. unfold add_task, type_entry. simpl.
  destruct (strip t) eqn:E; [congruence | reflexivity].
Qed.

Lemma add_task_blank (t : string) (w : TodoWidget) :
  strip t = EmptyString -> add_task (type_entry t w) = type_entry t w.
Proof.
  intros He. unfold add_task, type_entry. simpl. rewrite He. reflexivity.
Qed.

Lemma tasks_add_all (ts : list string) (w : TodoWidget) :
  Forall (fun t => strip t <> EmptyString) ts ->
  tasks (add_all ts w) = tasks w ++ map (fun t => Task (strip t) false) ts.
Proof.
  intros Hts. revert w.
  induction Hts as [| t ts Ht _ IH]; intros w.
  - simpl. rewrite app_nil_r. reflexivity.
  - unfold add_all in *. simpl. rewrite IH, add_task_nonblank by exact Ht.
    simpl. rewrite <- app_assoc. reflexivity.
Qed.

Lemma in_range_spec (index : Z) (w : TodoWidget) :
  in_range index w = true <-> 0 <= index < Z.of_nat (length (tasks w)).
Proof. unfold in_range. rewrite andb_true_iff. lia. Qed.

Lemma toggle_task_involutive (index : Z) (w : TodoWidget) :
  toggle_task index (toggle_task index w) = w.
Proof.
  unfold toggle_task.
  destruct (in_range index w) eqn:E.
  - unfold in_range in *. simpl. rewrite length_alter, E.
    destruct w as [e l]. simpl. f_equal.
    rewrite list_alter_alter_eq. apply list_alter_id.
    intros [t c]. simpl. rewrite negb_involutive. reflexivity.
  - rewrite E. reflexivity.
Qed.

Lemma toggle_task_flips (index : Z) (w : TodoWidget) (t : task) :
  0 <= index ->
  tasks w !! Z.to_nat index = Some t ->
  tasks (toggle_task index w) !! Z.to_nat index
  = Some (Task (text t) (negb (completed t))).
Proof.
  intros Hi Ht. unfold toggle_task.
  assert (in_range index w = true) as ->.
  { apply in_range_spec. apply lookup_lt_Some in Ht. lia. }
  simpl. rewrite list_lookup_alter_eq, Ht. reflexivity.
Qed.

(** C9. Adding [k] texts that are not blank gives [k] tasks, in the order
    of the additions and not completed; deleting the task at a valid index
    [i] leaves the [k-1] other tasks in their order; toggling the task at a
    valid index flips its completed flag and toggling it again restores the
    widget. *)
Theorem todo_add_delete_toggle (ts : list string) (i : Z) :
  Forall (fun t => strip t <> EmptyString) ts ->
  0 <= i < Z.of_nat (length ts) ->
  let w := add_all ts create_widget in
  tasks w = map (fun t => Task (strip t) false) ts
  /\ length (tasks (delete_task i w)) = (length ts - 1)%nat
  /\ tasks (delete_task i w)
     = take (Z.to_nat i) (tasks w) ++ drop (S (Z.to_nat i)) (tasks w)
  /\ (forall t, tasks w !! Z.to_nat i = Some t ->
        tasks (toggle_task i w) !! Z.to_nat i
        = Some (Task (text t) (negb (completed t))))
  /\ toggle_task i (toggle_task i w) = w.
Proof.
  intros Hts Hi w.
  assert (Hw : tasks w = map (fun t => Task (strip t) false) ts).
  { unfold w. rewrite tasks_add_all by exact Hts. reflexivity. }
  assert (Hlen : length (tasks w) = length ts).
  { rewrite Hw, length_map. reflexivity. }
  assert (Hr : in_range i w = true).
  { apply in_range_spec. lia. }
  split; [exact Hw |].
  unfold delete_task. rewrite Hr. simpl.
  split; [rewrite length_delete; [lia | apply lookup_lt_is_Some_2; lia] |].
  split; [apply delete_take_drop |].
  split; [intros t Ht; apply toggle_task_flips; [lia | exact Ht] |].
  apply toggle_task_involutive.
Qed.

Lemma todo_add_delete_toggle_witness :
  let w := add_all ["milk"; "  eggs "; "tea"] create_widget in
  tasks (delete_task 1 w) = [Task "milk" false; Task "tea" false]
  /\ toggle_task 1 (toggle_task 1 w) = w.
Proof.
  pose proof (todo_add_delete_toggle ["milk"; "  eggs "; "tea"] 1) as H.
  simpl in H.
  destruct H as (_ & _ & Hd & _ & Ht).
  - repeat constructor; vm_compute; discriminate.
  - lia.
  - split; [exact Hd | exact Ht].
Defined.

(** C10. An index outside [0, len(tasks)), negative ones included, makes
    [toggle_task] and [delete_task] return without raising and without
    touching the widget. *)
Theorem todo_out_of_range_noop (index : Z) (w : TodoWidget) :
  ~ (0 <= index < Z.of_nat (length (tasks w))) ->
  toggle_task index w = w /\ delete_task index w = w.
Proof.
  intros Hout.
  assert (in_range index w = false) as Hr.
  { destruct (in_range index w) eqn:E; [| reflexivity].
    apply in_range_spec in E. contradiction. }
  unfold toggle_task, delete_task. rewrite Hr. split; reflexivity.
Qed.

Lemma todo_out_of_range_noop_witness :
  let w := Widget "" [Task "milk" false; Task "tea" true] in
  (toggle_task (-1) w = w /\ delete_task (-1) w = w)
  /\ (toggle_task 2 w = w /\ delete_task 2 w = w).
Proof.
  split; apply todo_out_of_range_noop; simpl; lia.
Defined.

End TodoProofs.

(** ** The timer *)

Module TimerProofs.

Import Timer.

(** C2 does not hold as stated: with "-5" in the minutes field of a new
    timer, [start_timer] sets the countdown to -300, raises the flag and
    opens no dialog. *)
Lemma start_accepts_nonpositive : ~ start_rejects_invalid_input.
Proof.
  intros H.
  destruct (H (type_minutes "-5" create_widget)) as (Hr & _ & _).
  - right. exists (-5). split; [reflexivity | lia].
  - vm_compute in Hr. discriminate.
Qed.

Lemma start_timer_rejected (w : TimerWidget) :
  Py.int (minutes_var w) = None ->
  start_timer w
  = (w, [showerror "Error" "Please enter a valid number of minutes"]).
Proof. unfold start_timer. intros ->. reflexivity. Qed.

Lemma start_timer_accepted (w : TimerWidget) (n : Z) :
  Py.int (minutes_var w) = Some n ->
  start_timer w
  = (Widget (minutes_var w) (n * 60) true (time_display w)
            (time_display_exists w), []).
Proof. unfold start_timer. intros ->. reflexivity. Qed.

(** C2, amended. An input that [int] rejects leaves the whole widget as it
    was and opens the error dialog; an input that [int] accepts, positive
    or not, sets the countdown to sixty times its value, raises the flag
    and opens no dialog. *)
Theorem start_timer_validation (w : TimerWidget) :
  (Py.int (minutes_var w) = None ->
   start_timer w
   = (w, [showerror "Error" "Please enter a valid number of minutes"]))
  /\ (forall n, Py.int (minutes_var w) = Some n ->
      start_timer w
      = (Widget (minutes_var w) (n * 60) true (time_display w)
                (time_display_exists w), [])).
Proof.
  split.
  - apply start_timer_rejected.
  - intros n. apply start_timer_accepted.
Qed.

Lemma start_timer_validation_witness :
  start_timer (Widget "five" 42 true "00:42" true)
  = (Widget "five" 42 true "00:42" true,
     [showerror "Error" "Please enter a valid number of minutes"])
  /\ start_timer (Widget " 2 " 42 false "00:42" true)
     = (Widget " 2 " 120 true "00:42" true, []).
Proof.
  split.
  - apply (proj1 (start_timer_validation _)). reflexivity.
  - apply (proj2 (start_timer_validation (Widget " 2 " 42 false "00:42" true)) 2).
    reflexivity.
Defined.

(** The countdown proper: from [k] remaining seconds, [k] refreshes bring
    the countdown to zero, leave the flag raised and open no dialog. *)
Lemma ticks_countdown (k : nat) (w : TimerWidget) :
  time_display_exists w = true ->
  timer_active w = true ->
  remaining_time w = Z.of_nat k ->
  let r := ticks k w in
  remaining_time (fst r) = 0
  /\ timer_active (fst r) = true
  /\ time_display_exists (fst r) = true
  /\ minutes_var (fst r) = minutes_var w
  /\ snd r = [].
Proof.
  revert w. induction k as [| k IH]; intros w He Ha Hr.
  - simpl. auto.
  - cbn [ticks]. unfold update_content. rewrite He, Ha.
    assert ((0 <? remaining_time w) = true) as -> by (apply Z.ltb_lt; lia).
    cbn [andb].
    match goal with |- context [ticks k ?w1] =>
      specialize (IH w1); destruct (ticks k w1) as [w2 d2] eqn:E end.
    cbn [fst snd] in *.
    destruct IH as (H1 & H2 & H3 & H4 & H5);
      [reflexivity | reflexivity | simpl; lia |].
    subst d2. auto.
Qed.

(** The refresh after the countdown has reached zero lowers the flag and
    opens the "time's up" dialog. *)
Lemma update_content_expired (w : TimerWidget) :
  time_display_exists w = true ->
  timer_active w = true ->
  remaining_time w = 0 ->
  update_content w
  = (Widget (minutes_var w) 0 false "TIME!" true, [showinfo "Timer" "Time's up!"]).
Proof.
  intros He Ha Hr. unfold update_content. rewrite He, Ha, Hr. reflexivity.
Qed.

(** A timer that is not active stays as it is and opens no dialog. *)
Lemma ticks_idle (k : nat) (w : TimerWidget) :
  timer_active w = false -> ticks k w = (w, []).
Proof.
  intros Ha. induction k as [| k IH]; [reflexivity |].
  cbn [ticks]. unfold update_content. rewrite Ha. cbn [andb].
  destruct (time_display_exists w); rewrite IH; reflexivity.
Qed.

Lemma ticks_add (a b : nat) (w : TimerWidget) :
  ticks (a + b) w
  = (fst (ticks b (fst (ticks a w))),
     snd (ticks a w) ++ snd (ticks b (fst (ticks a w)))).
Proof.
  revert w. induction a as [| a IH]; intros w.
  - simpl. destruct (ticks b w). reflexivity.
  - cbn [Nat.add ticks]. destruct (update_content w) as [w1 d1].
    rewrite IH. destruct (ticks a w1) as [w2 d2]. cbn [fst snd].
    destruct (ticks b w2) as [w3 d3]. cbn [fst snd].
    rewrite app_assoc. reflexivity.
Qed.

(** C3 does not hold as stated: with one minute on a new timer, the flag
    is still up after 60 refreshes and no notification has been opened. *)
Lemma still_active_after_60n_ticks : ~ expires_after_60n_ticks.
Proof.
  intros H.
  destruct (H (type_minutes "1" create_widget) 1) as (_ & Ha & _);
    [reflexivity | reflexivity | lia |].
  vm_compute in Ha. discriminate.
Qed.

(** C3, amended. After [start] with [n >= 1], [n * 60] refreshes bring the
    countdown to zero with the flag still up and no notification; the next
    refresh lowers the flag and opens the one "time's up" notification; any
    number of refreshes after that opens no other. *)
Theorem timer_countdown (w : TimerWidget) (n : Z) :
  time_display_exists w = true ->
  Py.int (minutes_var w) = Some n ->
  1 <= n ->
  let started := fst (start_timer w) in
  let k := Z.to_nat (n * 60) in
  (remaining_time (fst (ticks k started)) = 0
   /\ timer_active (fst (ticks k started)) = true
   /\ snd (ticks k started) = [])
  /\ (forall extra : nat,
        remaining_time (fst (ticks (k + 1 + extra) started)) = 0
        /\ timer_active (fst (ticks (k + 1 + extra) started)) = false
        /\ snd (ticks (k + 1 + extra) started) = [showinfo "Timer" "Time's up!"]
        /\ times_up_count (snd (ticks (k + 1 + extra) started)) = 1%nat).
Proof.
  intros He Hn Hpos started k.
  assert (Hs : started
               = Widget (minutes_var w) (n * 60) true (time_display w) true).
  { unfold started. rewrite (start_timer_accepted w n Hn), He.
    reflexivity. }
  destruct (ticks_countdown k started) as (H1 & H2 & H3 & H4 & H5).
  { rewrite Hs. reflexivity. }
  { rewrite Hs. reflexivity. }
  { rewrite Hs. unfold k. simpl. lia. }
  split; [auto |].
  intros extra.
  rewrite <- Nat.add_assoc, ticks_add, H5. cbn [app].
  change (ticks (1 + extra) ?x) with
    (let '(w1, d1) := update_content x in
     let '(w2, d2) := ticks extra w1 in (w2, d1 ++ d2)).
  rewrite update_content_expired by assumption.
  rewrite ticks_idle by reflexivity. cbn [fst snd app].
  repeat split; reflexivity.
Qed.

Lemma timer_countdown_witness :
  let started := fst (start_timer (type_minutes "2" create_widget)) in
  timer_active (fst (ticks 120 started)) = true
  /\ snd (ticks 120 started) = []
  /\ timer_active (fst (ticks 121 started)) = false
  /\ snd (ticks 125 started) = [showinfo "Timer" "Time's up!"].
Proof.
  pose proof (timer_countdown (type_minutes "2" create_widget) 2) as H.
  destruct H as ((_ & Ha & Hd) & Hx);
    [reflexivity | reflexivity | lia |].
  pose proof (Hx 0%nat) as (_ & Hb & _ & _).
  pose proof (Hx 4%nat) as (_ & _ & Hc & _).
  repeat split; assumption.
Defined.

End TimerProofs.

(** ** The manager *)

Module ManagerProofs.

Import Widget Manager.

Ltac munfold :=
  unfold mbind, M_bind, mret, M_ret, lift, raise, get_state, modify,
    append_active, append_desktop, set_desktop_widget, active_widget, alloc,
    call, remove_desktop, show_success_message, show_error_message,
    show_warning_message, show_info_message, _show_toast, update_widgets_list.

(** *** Running a computation step by step *)

Section Steps.

Context {A B : Type}.
Implicit Types (f : A -> M B) (m : WidgetManager).

Lemma bind_ret (c : M A) f m a m1 :
  c m = (Ret a, m1, []) -> (c ≫= f) m = f a m1.
Proof.
  intros H. unfold mbind, M_bind. rewrite H.
  destruct (f a m1) as [[r m2] t2]. reflexivity.
Qed.

Lemma bind_raise (c : M A) f m e m1 t1 :
  c m = (Raise e, m1, t1) -> (c ≫= f) m = (Raise e, m1, t1).
Proof. intros H. unfold mbind, M_bind. rewrite H. reflexivity. Qed.

Lemma bind_lift (o : outcome A) f m :
  (lift o ≫= f) m
  = match o with Ret a => f a m | Raise e => (Raise e, m, []) end.
Proof.
  destruct o as [a | e]; [apply bind_ret | apply bind_raise]; reflexivity.
Qed.

Lemma bind_mret (a : A) f m : (mret a ≫= f) m = f a m.
Proof. apply bind_ret. reflexivity. Qed.

End Steps.

Section UnitSteps.

Context {B : Type}.
Implicit Types (m : WidgetManager).

Lemma bind_get_state (f : WidgetManager -> M B) m :
  (get_state ≫= f) m = f m m.
Proof. apply bind_ret. reflexivity. Qed.

Lemma bind_modify (g : WidgetManager -> WidgetManager) (f : unit -> M B) m :
  (modify g ≫= f) m = f tt (g m).
Proof. apply bind_ret. reflexivity. Qed.

Lemma bind_alloc (dw : DesktopWidget) (f : nat -> M B) m :
  (alloc dw ≫= f) m
  = f (length (heap m))
      (Mgr (active_widgets m) (desktop_widgets m) (heap m ++ [dw])).
Proof. apply bind_ret. reflexivity. Qed.

Lemma bind_call r method (f : unit -> M B) m dw :
  heap m !! r = Some dw ->
  (call r method ≫= f) m
  = match method dw with
    | (Ret u, dw') =>
        f u (Mgr (active_widgets m) (desktop_widgets m) (<[r := dw']> (heap m)))
    | (Raise e, dw') =>
        (Raise e,
         Mgr (active_widgets m) (desktop_widgets m) (<[r := dw']> (heap m)), [])
    end.
Proof.
  intros H. destruct (method dw) as [[u | e] dw'] eqn:E.
  - apply bind_ret. unfold call. rewrite H, E. reflexivity.
  - apply bind_raise. unfold call. rewrite H, E. reflexivity.
Qed.

Lemma bind_toast msg ty (f : unit -> M B) m :
  (_show_toast msg ty ≫= f) m
  = (outcome_of (f tt m), state_of (f tt m), Toast msg ty :: toasts_of (f tt m)).
Proof.
  unfold mbind, M_bind, _show_toast.
  destruct (f tt m) as [[r m2] t2]. reflexivity.
Qed.

End UnitSteps.

(** *** Lists that grow at the end *)

Section Snoc.

Context {A : Type}.
Implicit Types (l : list A) (x y : A).

Lemma lookup_snoc l x : (l ++ [x]) !! length l = Some x.
Proof. apply list_lookup_middle. reflexivity. Qed.

Lemma insert_snoc l x y : <[length l := y]> (l ++ [x]) = l ++ [y].
Proof.
  replace (length l) with (length l + 0)%nat at 1 by lia.
  rewrite insert_app_r. reflexivity.
Qed.

Lemma alter_snoc (f : A -> A) l x : alter f (length l) (l ++ [x]) = l ++ [f x].
Proof.
  replace (length l) with (length l + 0)%nat at 1 by lia.
  rewrite alter_app_r. reflexivity.
Qed.

End Snoc.

(** *** Pinning one widget *)

Lemma pin_widget_to_desktop_pinned (index : nat) (m : WidgetManager)
  (wi : widget_info) :
  active_widgets m !! index = Some wi ->
  pinned m wi = true ->
  pin_widget_to_desktop index m = (Ret tt, m, []).
Proof.
  intros Hwi Hp. unfold pin_widget_to_desktop. munfold.
  rewrite Hwi. simpl. rewrite Hp. reflexivity.
Qed.

Lemma pin_widget_to_desktop_missing (index : nat) (m : WidgetManager) :
  active_widgets m !! index = None ->
  pin_widget_to_desktop index m = (Raise IndexError, m, []).
Proof.
  intros Hwi. unfold pin_widget_to_desktop. munfold.
  rewrite Hwi. reflexivity.
Qed.

Lemma pin_widget_to_desktop_unpinned (index : nat) (m : WidgetManager)
  (wi : widget_info) :
  active_widgets m !! index = Some wi ->
  pinned m wi = false ->
  let r := length (heap m) in
  let n := length (desktop_widgets m) in
  let dw0 := Desktop.init (instance wi) (stagger n) (stagger n) in
  pin_widget_to_desktop index m
  = match Desktop.pin_to_desktop dw0 with
    | (Ret _, dw1) =>
        (Ret tt,
         Mgr (alter (fun wi => Info (type wi) (instance wi) (name wi) (Some r))
                    index (active_widgets m))
             (desktop_widgets m ++ [r]) (heap m ++ [dw1]), [])
    | (Raise e, dw1) =>
        (Raise e, Mgr (active_widgets m) (desktop_widgets m) (heap m ++ [dw1]),
         [])
    end.
Proof.
  intros Hwi Hp r n dw0. unfold pin_widget_to_desktop. munfold.
  rewrite Hwi. simpl. rewrite Hp. simpl.
  rewrite lookup_snoc.
  fold n. fold (stagger n). fold dw0.
  destruct (Desktop.pin_to_desktop dw0) as [[[] | e] dw1]; simpl.
  - rewrite insert_snoc. reflexivity.
  - rewrite insert_snoc. reflexivity.
Qed.

Lemma pin_to_desktop_init_ok (w : Widget.instance) (x y : json) :
  can_pin w = true ->
  Desktop.pin_to_desktop (Desktop.init w x y)
  = (Ret tt, Desktop.Build w x y true true).
Proof.
  unfold can_pin, Desktop.pin_to_desktop, Desktop.init. simpl.
  destruct (get (config w) "opacity" (JFloat 0.9)); [| discriminate].
  destruct (Widget.create_widget w) as [[] |]; [reflexivity | discriminate].
Qed.

Lemma pin_to_desktop_init_fail (w : Widget.instance) (x y : json) :
  can_pin w = false ->
  exists e, Desktop.pin_to_desktop (Desktop.init w x y)
            = (Raise e, Desktop.Build w x y true false).
Proof.
  unfold can_pin, Desktop.pin_to_desktop, Desktop.init. simpl.
  destruct (get (config w) "opacity" (JFloat 0.9)); [| eauto].
  destruct (Widget.create_widget w) as [[] |]; [discriminate | eauto].
Qed.

(** Every default configuration lets the window be built. *)
Lemma can_pin_default (c : widget_class) :
  can_pin (BaseWidget_init c JNull) = true.
Proof. destruct c; reflexivity. Qed.

Lemma truthy_BaseWidget_init (c : widget_class) (cfg : json) :
  truthy (config (BaseWidget_init c cfg)) = true.
Proof.
  unfold BaseWidget_init. simpl.
  destruct (truthy cfg) eqn:E; [exact E | destruct c; reflexivity].
Qed.

(** *** Pinning and unpinning the selected widget *)

(** C8. Pinning a widget that is pinned changes nothing in the state and
    shows the informational toast, through [pin_selected_widget] as
    through [pin_widget_to_desktop] (which shows nothing); unpinning a
    widget that is not pinned changes nothing and shows the informational
    toast. *)
Theorem pin_unpin_idempotent (m : WidgetManager) (index : nat)
  (wi : widget_info) :
  active_widgets m !! index = Some wi ->
  (pinned m wi = true ->
   pin_selected_widget (Some index) m
   = (Ret tt, m, [Toast (Str "Widget is already pinned to desktop!") "info"])
   /\ pin_widget_to_desktop index m = (Ret tt, m, []))
  /\ (pinned m wi = false ->
      unpin_selected_widget (Some index) m
      = (Ret tt, m,
         [Toast (Str "Widget is not currently pinned to desktop.") "info"])).
Proof.
  intros Hwi. split; intros Hp.
  - split; [| exact (pin_widget_to_desktop_pinned index m wi Hwi Hp)].
    unfold pin_selected_widget. munfold. rewrite Hwi. simpl. rewrite Hp.
    reflexivity.
  - unfold unpin_selected_widget. munfold. rewrite Hwi. simpl.
    destruct (desktop_widget wi) eqn:Hd; [rewrite Hp |]; reflexivity.
Qed.

Lemma pin_unpin_idempotent_witness :
  let m := run [Create "Clock"; Create "Timer"; Unpin (Some 1%nat)] empty in
  state_of (pin_selected_widget (Some 0%nat) m) = m
  /\ toasts_of (pin_selected_widget (Some 0%nat) m)
     = [Toast (Str "Widget is already pinned to desktop!") "info"]
  /\ state_of (unpin_selected_widget (Some 1%nat) m) = m
  /\ toasts_of (unpin_selected_widget (Some 1%nat) m)
     = [Toast (Str "Widget is not currently pinned to desktop.") "info"].
Proof.
  intros m.
  destruct (pin_unpin_idempotent m 0%nat
              (Info "Clock" (BaseWidget_init ClockWidget JNull)
                    (JStr "Clock #1") (Some 0%nat)) eq_refl) as [Hp _].
  destruct (Hp eq_refl) as [Hp1 _].
  destruct (pin_unpin_idempotent m 1%nat
              (Info "Timer" (BaseWidget_init TimerWidget JNull)
                    (JStr "Timer #2") None) eq_refl) as [_ Hu].
  specialize (Hu eq_refl).
  rewrite Hp1, Hu. repeat split; reflexivity.
Defined.

(** *** Loading one record *)

(** The loop that clears the existing widgets only writes to the store. *)
Lemma unpin_all (l : list widget_info) (m : WidgetManager) :
  exists h,
    for_each l unpin_if_pinned m
    = (Ret tt, Mgr (active_widgets m) (desktop_widgets m) h, []).
Proof.
  revert m. induction l as [| wi l IH]; intros m.
  - exists (heap m). destruct m. reflexivity.
  - cbn [for_each]. unfold mbind, M_bind.
    assert (exists h, unpin_if_pinned wi m
                      = (Ret tt, Mgr (active_widgets m) (desktop_widgets m) h, []))
      as [h Hh].
    { unfold unpin_if_pinned. munfold.
      destruct (desktop_widget wi) as [r |] eqn:Hd;
        [| exists (heap m); destruct m; reflexivity].
      unfold pinned. rewrite Hd.
      destruct (heap m !! r) as [dw |] eqn:Hr;
        [| exists (heap m); destruct m; reflexivity].
      destruct (Desktop.is_pinned dw);
        [| exists (heap m); destruct m; reflexivity].
      simpl. rewrite Hr. eauto. }
    rewrite Hh.
    destruct (IH (Mgr (active_widgets m) (desktop_widgets m) h)) as [h' Hh'].
    rewrite Hh'. simpl. eauto.
Qed.

(** The states [load_widget] can leave: the state it found (it raised
    before building the widget, or skipped the record); one more entry,
    not pinned; one more entry, pinned, with its new object; one more
    entry, not pinned, and an object whose window could not be built. *)
Lemma load_widget_cases (widget_data : json) (m : WidgetManager) :
  (exists o, load_widget widget_data m = (o, m, []))
  \/ exists ty c cfg nm,
       lookup_type ty widget_types = Some c
       /\ let w := BaseWidget_init c cfg in
          load_widget widget_data m
          = (Ret tt,
             Mgr (active_widgets m ++ [Info ty w nm None]) (desktop_widgets m)
                 (heap m), [])
          \/ exists x y,
               (can_pin w = true
                /\ load_widget widget_data m
                   = (Ret tt,
                      Mgr (active_widgets m
                           ++ [Info ty w nm (Some (length (heap m)))])
                          (desktop_widgets m ++ [length (heap m)])
                          (heap m ++ [Desktop.Build w x y true true]), []))
               \/ (exists e,
                     load_widget widget_data m
                     = (Raise e,
                        Mgr (active_widgets m ++ [Info ty w nm None])
                            (desktop_widgets m)
                            (heap m ++ [Desktop.Build w x y true false]), [])).
Proof.
  unfold load_widget.
  rewrite bind_lift.
  destruct (subscript widget_data "type") as [wt |] eqn:Ht; [| left; eauto].
  rewrite bind_lift.
  destruct (known_type wt) as [[[ty c] |] |] eqn:Hk;
    [| left; eauto | left; eauto].
  assert (lookup_type ty widget_types = Some c) as Hty.
  { unfold known_type in Hk. destruct wt; try discriminate.
    destruct (lookup_type s widget_types) eqn:E; congruence. }
  rewrite bind_lift.
  destruct (subscript widget_data "config") as [cfg |]; [| left; eauto].
  rewrite bind_lift.
  destruct (subscript widget_data "name") as [nm |]; [| left; eauto].
  right. exists ty, c, cfg, nm. split; [exact Hty |]. cbv zeta.
  rewrite bind_get_state. unfold append_active. rewrite bind_modify.
  rewrite bind_lift.
  destruct widget_data as [| | | | | | items]; try discriminate.
  assert (exists v, get (JObj items) "pinned" (JBool false) = Ret v) as [v ->].
  { simpl. destruct (assoc "pinned" items); eauto. }
  destruct (truthy v); [| left; reflexivity].
  right.
  assert (exists x, get (JObj items) "desktop_x" (JInt 100) = Ret x) as [x Hx].
  { simpl. destruct (assoc "desktop_x" items); eauto. }
  assert (exists y, get (JObj items) "desktop_y" (JInt 100) = Ret y) as [y Hy].
  { simpl. destruct (assoc "desktop_y" items); eauto. }
  exists x, y.
  rewrite bind_lift, Hx, bind_lift, Hy, bind_alloc.
  cbn [heap active_widgets desktop_widgets].
  rewrite (bind_call _ _ _ _ (Desktop.init (BaseWidget_init c cfg) x y))
    by apply lookup_snoc.
  cbn [heap active_widgets desktop_widgets].
  destruct (can_pin (BaseWidget_init c cfg)) eqn:Hc.
  - left. split; [reflexivity |].
    rewrite (pin_to_desktop_init_ok _ _ _ Hc).
    unfold set_desktop_widget, append_desktop. rewrite bind_modify.
    unfold modify. cbn [heap active_widgets desktop_widgets].
    rewrite insert_snoc, alter_snoc. reflexivity.
  - right. destruct (pin_to_desktop_init_fail _ x y Hc) as [e He].
    exists e. rewrite He. rewrite insert_snoc. reflexivity.
Qed.

(** *** Well-formed states *)

Lemma heap_after_refl (h : list DesktopWidget) : heap_after h h.
Proof. split; [lia | eauto]. Qed.

Lemma heap_after_snoc (h : list DesktopWidget) (dw : DesktopWidget) :
  heap_after h (h ++ [dw]).
Proof.
  split; [rewrite length_app; lia |].
  intros r dw' Hr Hl Hp. rewrite lookup_app_l in Hl by exact Hr. eauto.
Qed.

Lemma heap_after_unpin (h : list DesktopWidget) (r : nat) (dw : DesktopWidget) :
  Desktop.is_pinned dw = false -> heap_after h (<[r := dw]> h).
Proof.
  intros Hdw. split; [rewrite length_insert; lia |].
  intros r' dw' Hr Hl Hp.
  destruct (decide (r = r')) as [-> | Hne].
  - rewrite list_lookup_insert_eq in Hl by exact Hr. congruence.
  - rewrite list_lookup_insert_ne in Hl by exact Hne. eauto.
Qed.

Lemma well_formed_entry_after (m m' : WidgetManager) (wi : widget_info) :
  heap_after (heap m) (heap m') ->
  well_formed_entry m wi -> well_formed_entry m' wi.
Proof.
  intros [Hlen Hpin] (Hty & Htr & Hcp & Hrefs).
  repeat split; [exact Hty | exact Htr | |].
  - intros Hp. apply Hcp. unfold pinned in *.
    destruct (desktop_widget wi) as [r |]; [| discriminate].
    destruct (heap m' !! r) as [dw' |] eqn:E; [| discriminate].
    destruct (Hpin r dw' (Hrefs r eq_refl) E Hp) as (dw & -> & Hd). exact Hd.
  - intros r Hr. specialize (Hrefs r Hr). lia.
Qed.

Lemma well_formed_after (m : WidgetManager) (dws : list nat)
  (h : list DesktopWidget) :
  heap_after (heap m) h ->
  well_formed m -> well_formed (Mgr (active_widgets m) dws h).
Proof.
  intros Hh Hwf. unfold well_formed in *. simpl.
  eapply Forall_impl; [exact Hwf |].
  intros wi. apply well_formed_entry_after. exact Hh.
Qed.

Lemma well_formed_snoc (m : WidgetManager) (wi : widget_info)
  (dws : list nat) (h : list DesktopWidget) :
  heap_after (heap m) h ->
  well_formed m ->
  well_formed_entry (Mgr (active_widgets m ++ [wi]) dws h) wi ->
  well_formed (Mgr (active_widgets m ++ [wi]) dws h).
Proof.
  intros Hh Hwf Hwi. unfold well_formed. simpl.
  apply Forall_app. split; [| constructor; [exact Hwi | constructor]].
  eapply Forall_impl; [exact Hwf |].
  intros wi0. apply well_formed_entry_after. exact Hh.
Qed.

Lemma well_formed_empty : well_formed empty.
Proof. constructor. Qed.

(** A new entry that is not pinned. *)
Lemma well_formed_entry_unpinned (m : WidgetManager) (ty : string)
  (c : widget_class) (cfg nm : json) :
  lookup_type ty widget_types = Some c ->
  well_formed_entry m (Info ty (BaseWidget_init c cfg) nm None).
Proof.
  intros Hty. repeat split.
  - exact Hty.
  - apply truthy_BaseWidget_init.
  - discriminate.
  - discriminate.
Qed.

(** Loading one record keeps the state well formed and shows no toast. *)
Lemma load_widget_well_formed (widget_data : json) (m : WidgetManager) :
  well_formed m ->
  well_formed (state_of (load_widget widget_data m))
  /\ toasts_of (load_widget widget_data m) = [].
Proof.
  intros Hwf.
  destruct (load_widget_cases widget_data m)
    as [[o ->] | (ty & c & cfg & nm & Hty & [-> | (x & y & [[Hc ->] | [e ->]])])];
    (split; [| reflexivity]); unfold state_of; simpl.
  - exact Hwf.
  - apply well_formed_snoc;
      [apply heap_after_refl | exact Hwf |
       apply well_formed_entry_unpinned; exact Hty].
  - apply well_formed_snoc; [apply heap_after_snoc | exact Hwf |].
    repeat split; simpl.
    + exact Hty.
    + apply truthy_BaseWidget_init.
    + intros _. exact Hc.
    + intros r [= <-]. rewrite length_app. simpl. lia.
  - apply well_formed_snoc;
      [apply heap_after_snoc | exact Hwf |
       apply well_formed_entry_unpinned; exact Hty].
Qed.

Lemma load_widgets_well_formed (items : list json) (m : WidgetManager) :
  well_formed m ->
  well_formed (state_of (for_each items load_widget m))
  /\ toasts_of (for_each items load_widget m) = [].
Proof.
  revert m. induction items as [| wd items IH]; intros m Hwf.
  - split; [exact Hwf | reflexivity].
  - cbn [for_each].
    destruct (load_widget_well_formed wd m Hwf) as [Hwf1 Ht1].
    destruct (load_widget wd m) as [[[[] | e] m1] t1] eqn:E;
      unfold state_of, toasts_of in Hwf1, Ht1; simpl in Hwf1, Ht1; subst t1.
    + rewrite (bind_ret _ _ _ _ _ E). apply IH. exact Hwf1.
    + rewrite (bind_raise _ _ _ _ _ _ E). split; [exact Hwf1 | reflexivity].
Qed.

(** *** The whole of [load_config] *)

(** The [try] block shows the success toast when it returns and none when
    it raises; the state it leaves is well formed; and it is the state it
    found when the file could not be read. *)
Lemma load_config_body_result (f : file) (m : WidgetManager) :
  exists o m1 t,
    load_config_body f m = (o, m1, t)
    /\ (well_formed m -> well_formed m1)
    /\ match o with
       | Ret _ => t = [load_succeeded]
       | Raise _ => t = []
       end.
Proof.
  unfold load_config_body.
  rewrite bind_lift.
  destruct f as [e | j]; [exists (Raise e), m, []; auto |].
  rewrite bind_get_state.
  destruct (unpin_all (active_widgets m) m) as [h Hh].
  rewrite (bind_ret _ _ _ _ _ Hh), bind_modify. cbn [heap].
  assert (well_formed (Mgr [] [] h)) as Hwf0 by constructor.
  rewrite bind_lift.
  destruct (get j "widgets" (JArr [])) as [widgets | e];
    [| exists (Raise e), (Mgr [] [] h), []; auto].
  rewrite bind_lift.
  destruct (iter widgets) as [items | e];
    [| exists (Raise e), (Mgr [] [] h), []; auto].
  destruct (load_widgets_well_formed items _ Hwf0) as [Hwf1 Ht1].
  destruct (for_each items load_widget (Mgr [] [] h)) as [[[[] | e] m1] t1] eqn:E;
    unfold state_of, toasts_of in Hwf1, Ht1; simpl in Hwf1, Ht1; subst t1.
  - rewrite (bind_ret _ _ _ _ _ E). unfold update_widgets_list.
    rewrite bind_mret. exists (Ret tt), m1, [load_succeeded]. auto.
  - rewrite (bind_raise _ _ _ _ _ _ E). exists (Raise e), m1, []. auto.
Qed.

Lemma load_config_well_formed (fs : option file) (m : WidgetManager) :
  well_formed m -> well_formed (state_of (load_config fs m)).
Proof.
  intros Hwf. destruct fs as [f |]; [| exact Hwf].
  unfold load_config, try_except.
  destruct (load_config_body_result f m) as (o & m1 & t & -> & Hwf1 & _).
  destruct o; exact (Hwf1 Hwf).
Qed.



(** *** Loading a saved layout *)

Lemma load_widget_saved (s : saved) (m : WidgetManager) :
  loadable s ->
  load_widget (widget_config s) m = (Ret tt, load_step s m, []).
Proof.
  destruct s as [ty nm cfg pos]. unfold loadable, load_step, load_widget.
  cbn [saved_type saved_name saved_config saved_position].
  intros Hl.
  rewrite bind_lift. cbn [widget_config saved_type subscript app assoc String.eqb
                          Ascii.eqb Bool.eqb].
  rewrite bind_lift. unfold known_type.
  destruct (lookup_type ty widget_types) as [c |] eqn:Hty; [| reflexivity].
  rewrite bind_lift. cbn.
  rewrite bind_lift. cbn.
  rewrite bind_get_state. unfold append_active. rewrite bind_modify.
  rewrite bind_lift.
  destruct pos as [[x y] |]; cbn; [| reflexivity].
  rewrite bind_lift. cbn. rewrite bind_lift. cbn. rewrite bind_alloc.
  cbn [heap active_widgets desktop_widgets].
  rewrite (bind_call _ _ _ _ (Desktop.init (BaseWidget_init c cfg) x y))
    by apply lookup_snoc.
  cbn [heap active_widgets desktop_widgets].
  rewrite (pin_to_desktop_init_ok _ _ _ Hl).
  unfold set_desktop_widget, append_desktop. rewrite bind_modify.
  unfold modify. cbn [heap active_widgets desktop_widgets].
  rewrite insert_snoc, alter_snoc. reflexivity.
Qed.

Lemma snapshot_heap_app (m : WidgetManager) (aw : list widget_info)
  (dws : list nat) (h : list DesktopWidget) (wi : widget_info) :
  (forall r, desktop_widget wi = Some r -> (r < length (heap m))%nat) ->
  snapshot (Mgr aw dws (heap m ++ h)) wi = snapshot m wi.
Proof.
  intros Hr. unfold snapshot. cbn [heap].
  destruct (desktop_widget wi) as [r |]; [| reflexivity].
  rewrite lookup_app_l by (apply Hr; reflexivity). reflexivity.
Qed.

Lemma observe_heap_app (m : WidgetManager) (aw : list widget_info)
  (dws : list nat) (h : list DesktopWidget) :
  well_formed m ->
  map (snapshot (Mgr aw dws (heap m ++ h))) (active_widgets m) = observe m.
Proof.
  intros Hwf. unfold observe. apply map_ext_Forall.
  eapply Forall_impl; [exact Hwf |].
  intros wi (_ & _ & _ & Hr). apply snapshot_heap_app. exact Hr.
Qed.

Lemma observe_load_step (s : saved) (m : WidgetManager) :
  well_formed m ->
  observe (load_step s m)
  = observe m ++ (if recognized s then [rebuilt s] else []).
Proof.
  intros Hwf. unfold load_step, recognized, rebuilt.
  destruct (lookup_type (saved_type s) widget_types) as [c |];
    [| rewrite app_nil_r; reflexivity].
  destruct s as [ty nm cfg [[x y] |]];
    cbn [saved_type saved_name saved_config saved_position];
    unfold observe; cbn [active_widgets]; rewrite map_app; cbn [map].
  - rewrite observe_heap_app by exact Hwf. f_equal.
    unfold snapshot. cbn [desktop_widget heap]. rewrite lookup_snoc.
    reflexivity.
  - rewrite <- (app_nil_r (heap m)) at 1.
    rewrite observe_heap_app by exact Hwf. reflexivity.
Qed.

(** Loading the records of a layout, one after the other. *)
Lemma load_saved_widgets (ss : list saved) (m : WidgetManager) :
  Forall loadable ss ->
  well_formed m ->
  exists m',
    for_each (map widget_config ss) load_widget m = (Ret tt, m', [])
    /\ well_formed m'
    /\ observe m' = observe m ++ map rebuilt (List.filter recognized ss).
Proof.
  intros Hss. revert m.
  induction Hss as [| s ss Hs _ IH]; intros m Hwf.
  - exists m. rewrite app_nil_r. auto.
  - pose proof (load_widget_saved s m Hs) as E.
    assert (well_formed (load_step s m)) as Hwf1.
    { pose proof (load_widget_well_formed (widget_config s) m Hwf) as [H _].
      rewrite E in H. exact H. }
    destruct (IH _ Hwf1) as (m' & Hrun & Hwf' & Hobs).
    exists m'. cbn [map for_each].
    rewrite (bind_ret _ _ _ _ _ E). split; [exact Hrun |].
    split; [exact Hwf' |].
    rewrite Hobs, observe_load_step by exact Hwf.
    cbn [List.filter]. destruct (recognized s); cbn [map app];
      rewrite <- app_assoc; reflexivity.
Qed.

(** Loading a layout: the load succeeds and the widgets of the new state
    are those rebuilt from the records of a recognized type. *)
Lemma load_layout (ss : list saved) (m : WidgetManager) :
  Forall loadable ss ->
  exists m',
    load_config (Some (Document (layout ss))) m = (Ret tt, m', [load_succeeded])
    /\ well_formed m'
    /\ observe m' = map rebuilt (List.filter recognized ss).
Proof.
  intros Hss. unfold load_config, try_except, load_config_body.
  rewrite bind_lift, bind_get_state.
  destruct (unpin_all (active_widgets m) m) as [h Hh].
  rewrite (bind_ret _ _ _ _ _ Hh), bind_modify. cbn [heap].
  rewrite bind_lift. cbn [layout get assoc String.eqb Ascii.eqb Bool.eqb].
  rewrite bind_lift. cbn [iter].
  destruct (load_saved_widgets ss (Mgr [] [] h) Hss) as (m' & Hrun & Hwf & Hobs);
    [constructor |].
  rewrite (bind_ret _ _ _ _ _ Hrun). unfold update_widgets_list.
  rewrite bind_mret. exists m'. auto.
Qed.

(** C5. A layout whose records can be loaded, some of them of a type that
    is not recognized: the load completes with the success toast (no
    exception, no failure), and the widgets of the new state are exactly
    those of the recognized records, in their order. *)
Theorem load_skips_unrecognized_types (ss : list saved) (m : WidgetManager) :
  Forall loadable ss ->
  exists m',
    load_config (Some (Document (layout ss))) m = (Ret tt, m', [load_succeeded])
    /\ observe m' = map rebuilt (List.filter recognized ss)
    /\ length (active_widgets m') = length (List.filter recognized ss).
Proof.
  intros Hss. destruct (load_layout ss m Hss) as (m' & Hrun & _ & Hobs).
  exists m'. split; [exact Hrun |]. split; [exact Hobs |].
  apply (f_equal (@length saved)) in Hobs.
  unfold observe in Hobs. rewrite !length_map in Hobs. exact Hobs.
Qed.

Lemma load_skips_unrecognized_types_witness :
  let clock := Saved "Clock" (JStr "Clock #1")
                     (get_default_config ClockWidget)
                     (Some (JInt 100, JInt 100)) in
  let alien := Saved "Calendar" (JStr "Calendar #2") (JObj []) None in
  let timer := Saved "Timer" (JStr "Timer #3")
                     (get_default_config TimerWidget) None in
  exists m',
    load_config (Some (Document (layout [clock; alien; timer]))) empty
    = (Ret tt, m', [load_succeeded])
    /\ observe m' = [clock; timer].
Proof.
  intros clock alien timer.
  destruct (load_skips_unrecognized_types [clock; alien; timer] empty)
    as (m' & Hrun & Hobs & _).
  - repeat constructor.
  - exists m'. split; [exact Hrun | exact Hobs].
Defined.

(** *** The commands keep the state well formed *)

Lemma create_widget_known (ty : string) (c : widget_class) (m : WidgetManager) :
  lookup_type ty widget_types = Some c ->
  let w := BaseWidget_init c JNull in
  let r := length (heap m) in
  let n := length (desktop_widgets m) in
  create_widget ty m
  = (Ret tt,
     Mgr (active_widgets m
          ++ [Info ty w
                   (JStr (ty ++ " #" ++ str_nat (length (active_widgets m) + 1)))
                   (Some r)])
         (desktop_widgets m ++ [r])
         (heap m ++ [Desktop.Build w (stagger n) (stagger n) true true]),
     [Toast (Str (ty ++ " widget created and pinned to desktop!")) "success"]).
Proof.
  intros Hty w r n. unfold create_widget. rewrite Hty.
  rewrite bind_get_state. unfold append_active. rewrite bind_modify.
  match goal with |- context [pin_widget_to_desktop ?i] =>
    match goal with |- (_ ≫= _) ?m1 = _ =>
      pose proof (pin_widget_to_desktop_unpinned i m1 _ (lookup_snoc _ _) eq_refl)
        as Hpin
    end
  end.
  cbn [heap active_widgets desktop_widgets instance] in Hpin.
  fold w n in Hpin.
  rewrite (pin_to_desktop_init_ok w _ _ (can_pin_default c)), alter_snoc in Hpin.
  rewrite (bind_ret _ _ _ _ _ Hpin). unfold update_widgets_list.
  rewrite bind_mret. reflexivity.
Qed.

Lemma create_widget_unknown (ty : string) (m : WidgetManager) :
  lookup_type ty widget_types = None ->
  create_widget ty m = (Raise (KeyError ty), m, []).
Proof. intros Hty. unfold create_widget. rewrite Hty. reflexivity. Qed.

Lemma create_widget_well_formed (ty : string) (m : WidgetManager) :
  well_formed m -> well_formed (state_of (create_widget ty m)).
Proof.
  intros Hwf.
  destruct (lookup_type ty widget_types) as [c |] eqn:Hty.
  - rewrite (create_widget_known ty c m Hty). unfold state_of. simpl.
    apply well_formed_snoc; [apply heap_after_snoc | exact Hwf |].
    repeat split; simpl.
    + exact Hty.
    + exact (truthy_BaseWidget_init c JNull).
    + intros _. exact (can_pin_default c).
    + intros r [= <-]. rewrite length_app. simpl. lia.
  - rewrite (create_widget_unknown ty m Hty). exact Hwf.
Qed.

(** The states [pin_selected_widget] can leave. *)
Lemma pin_selected_widget_cases (selection : option nat) (m : WidgetManager) :
  state_of (pin_selected_widget selection m) = m
  \/ exists index wi,
       active_widgets m !! index = Some wi
       /\ pinned m wi = false
       /\ let r := length (heap m) in
          let n := length (desktop_widgets m) in
          (can_pin (instance wi) = true
           /\ state_of (pin_selected_widget selection m)
              = Mgr (alter (fun wi => Info (type wi) (instance wi) (name wi)
                                           (Some r))
                           index (active_widgets m))
                    (desktop_widgets m ++ [r])
                    (heap m ++ [Desktop.Build (instance wi) (stagger n)
                                              (stagger n) true true]))
          \/ (can_pin (instance wi) = false
              /\ state_of (pin_selected_widget selection m)
                 = Mgr (active_widgets m) (desktop_widgets m)
                       (heap m ++ [Desktop.Build (instance wi) (stagger n)
                                                 (stagger n) true false])).
Proof.
  destruct selection as [index |]; [| left; reflexivity].
  unfold pin_selected_widget.
  destruct (active_widgets m !! index) as [wi |] eqn:Hwi.
  - rewrite (bind_ret _ _ _ wi m) by (unfold active_widget; rewrite Hwi; reflexivity).
    rewrite bind_get_state.
    destruct (pinned m wi) eqn:Hp; [left; reflexivity |].
    right. exists index, wi. split; [exact Hwi |]. split; [exact Hp |].
    pose proof (pin_widget_to_desktop_unpinned index m wi Hwi Hp) as Hpin.
    cbv zeta in *.
    destruct (can_pin (instance wi)) eqn:Hc.
    + left. split; [reflexivity |].
      rewrite (pin_to_desktop_init_ok _ _ _ Hc) in Hpin.
      rewrite (bind_ret _ _ _ _ _ Hpin). reflexivity.
    + right. split; [reflexivity |].
      destruct (pin_to_desktop_init_fail (instance wi)
                  (stagger (length (desktop_widgets m)))
                  (stagger (length (desktop_widgets m))) Hc) as [e He].
      rewrite He in Hpin. rewrite (bind_raise _ _ _ _ _ _ Hpin). reflexivity.
  - left. erewrite bind_raise; [reflexivity |].
    unfold active_widget. rewrite Hwi. reflexivity.
Qed.

Lemma pin_selected_widget_well_formed (selection : option nat)
  (m : WidgetManager) :
  well_formed m -> well_formed (state_of (pin_selected_widget selection m)).
Proof.
  intros Hwf.
  destruct (pin_selected_widget_cases selection m)
    as [-> | (index & wi & Hwi & Hp & [[Hc ->] | [Hc ->]])].
  - exact Hwf.
  - unfold well_formed. cbn [active_widgets].
    apply Forall_alter.
    + eapply Forall_impl; [exact Hwf |].
      intros wi0. apply well_formed_entry_after. apply heap_after_snoc.
    + intros wi0 Hwi0 (Hty & Htr & _ & _).
      assert (wi0 = wi) as -> by congruence.
      repeat split; simpl; [exact Hty | exact Htr | intros _; exact Hc |].
      intros r [= <-]. rewrite length_app. simpl. lia.
  - apply well_formed_after; [apply heap_after_snoc | exact Hwf].
Qed.

Lemma heap_after_insert (h : list DesktopWidget) (r : nat)
  (dw dw' : DesktopWidget) :
  h !! r = Some dw ->
  (Desktop.is_pinned dw' = true -> Desktop.is_pinned dw = true) ->
  heap_after h (<[r := dw']> h).
Proof.
  intros Hr Hdw. split; [rewrite length_insert; lia |].
  intros r' dw0 Hlt Hl Hp.
  destruct (decide (r = r')) as [<- | Hne].
  - rewrite list_lookup_insert_eq in Hl by exact Hlt.
    injection Hl as <-. eauto.
  - rewrite list_lookup_insert_ne in Hl by exact Hne. eauto.
Qed.

Lemma heap_after_unpin_from_desktop (h : list DesktopWidget) (r : nat)
  (dw : DesktopWidget) :
  h !! r = Some dw -> heap_after h (<[r := Desktop.unpin_from_desktop dw]> h).
Proof.
  intros Hr. apply (heap_after_insert h r dw); [exact Hr |].
  unfold Desktop.unpin_from_desktop.
  destruct (Desktop.desktop_window dw); [discriminate | auto].
Qed.

Lemma pinned_lookup (m : WidgetManager) (wi : widget_info) :
  pinned m wi = true ->
  exists r dw, desktop_widget wi = Some r /\ heap m !! r = Some dw
               /\ Desktop.is_pinned dw = true.
Proof.
  unfold pinned. destruct (desktop_widget wi) as [r |]; [| discriminate].
  destruct (heap m !! r) as [dw |] eqn:E; [| discriminate].
  intros H. exists r, dw. auto.
Qed.

Lemma well_formed_entry_cleared (m : WidgetManager) (wi : widget_info) :
  well_formed_entry m wi ->
  well_formed_entry m (Info (type wi) (instance wi) (name wi) None).
Proof.
  intros (Hty & Htr & _ & _). repeat split; simpl; auto; discriminate.
Qed.

Lemma unpin_selected_widget_well_formed (selection : option nat)
  (m : WidgetManager) :
  well_formed m -> well_formed (state_of (unpin_selected_widget selection m)).
Proof.
  intros Hwf. destruct selection as [index |]; [| exact Hwf].
  unfold unpin_selected_widget.
  destruct (active_widgets m !! index) as [wi |] eqn:Hwi.
  - rewrite (bind_ret _ _ _ wi m) by (unfold active_widget; rewrite Hwi; reflexivity).
    rewrite bind_get_state.
    destruct (desktop_widget wi) as [r |] eqn:Hd; [| exact Hwf].
    destruct (pinned m wi) eqn:Hp; [| exact Hwf].
    destruct (pinned_lookup m wi Hp) as (r' & dw & Hr' & Hdw & _).
    assert (r' = r) as -> by congruence.
    rewrite (bind_call _ _ _ _ dw Hdw).
    set (m1 := Mgr (active_widgets m) (desktop_widgets m)
                   (<[r := Desktop.unpin_from_desktop dw]> (heap m))).
    assert (well_formed m1) as Hwf1.
    { apply well_formed_after;
        [apply heap_after_unpin_from_desktop; exact Hdw | exact Hwf]. }
    unfold remove_desktop at 1.
    destruct (list_remove r (desktop_widgets m1)) as [l |] eqn:Hl.
    + erewrite bind_ret; [| rewrite Hl; reflexivity].
      unfold set_desktop_widget. rewrite bind_modify.
      unfold state_of. simpl.
      unfold well_formed. simpl. apply Forall_alter.
      * eapply Forall_impl; [exact Hwf1 |]. intros wi0 H. exact H.
      * intros wi0 _ H. apply (well_formed_entry_cleared _ _ H).
    + erewrite bind_raise; [exact Hwf1 | rewrite Hl; reflexivity].
  - erewrite bind_raise; [exact Hwf |].
    unfold active_widget. rewrite Hwi. reflexivity.
Qed.

Lemma remove_desktop_well_formed (r : nat) (m : WidgetManager) :
  well_formed m ->
  exists o m1, remove_desktop r m = (o, m1, []) /\ well_formed m1.
Proof.
  intros Hwf. unfold remove_desktop.
  destruct (list_remove r (desktop_widgets m)) as [l |]; [| eauto].
  exists (Ret tt), (Mgr (active_widgets m) l (heap m)).
  split; [reflexivity |].
  apply (well_formed_after m l (heap m)); [apply heap_after_refl | exact Hwf].
Qed.

Lemma remove_widget_well_formed (selection : option nat) (m : WidgetManager) :
  well_formed m -> well_formed (state_of (remove_widget selection m)).
Proof.
  intros Hwf. destruct selection as [index |]; [| exact Hwf].
  unfold remove_widget.
  destruct (active_widgets m !! index) as [wi |] eqn:Hwi.
  - rewrite (bind_ret _ _ _ wi m) by (unfold active_widget; rewrite Hwi; reflexivity).
    rewrite bind_get_state.
    match goal with |- well_formed (state_of ((?X ≫= _) m)) =>
      assert (exists o m1, X m = (o, m1, []) /\ well_formed m1)
        as (o & m1 & HX & Hwf1)
    end.
    { destruct (desktop_widget wi) as [r |] eqn:Hd; [| exists (Ret tt), m; auto].
      destruct (pinned m wi) eqn:Hp; [| exists (Ret tt), m; auto].
      destruct (pinned_lookup m wi Hp) as (r' & dw & Hr' & Hdw & _).
      assert (r' = r) as -> by congruence.
      rewrite (bind_call _ _ _ _ dw Hdw).
      set (m1 := Mgr (active_widgets m) (desktop_widgets m)
                     (<[r := Desktop.unpin_from_desktop dw]> (heap m))).
      assert (well_formed m1) as Hwf1.
      { apply well_formed_after;
          [apply heap_after_unpin_from_desktop; exact Hdw | exact Hwf]. }
      destruct (in_desktop r m); [| exists (Ret tt), m1; auto].
      apply remove_desktop_well_formed. exact Hwf1. }
    destruct o as [[] | e].
    + rewrite (bind_ret _ _ _ _ _ HX), bind_modify.
      unfold state_of. simpl. unfold well_formed. simpl.
      apply Forall_delete. exact Hwf1.
    + rewrite (bind_raise _ _ _ _ _ _ HX). exact Hwf1.
  - erewrite bind_raise; [exact Hwf |].
    unfold active_widget. rewrite Hwi. reflexivity.
Qed.

(** Every state that commands and loads build from the empty manager is
    well formed. *)
Lemma run_command_well_formed (c : command) (m : WidgetManager) :
  well_formed m -> well_formed (state_of (run_command c m)).
Proof.
  destruct c; simpl.
  - apply create_widget_well_formed.
  - apply pin_selected_widget_well_formed.
  - apply unpin_selected_widget_well_formed.
  - apply remove_widget_well_formed.
Qed.

Lemma run_well_formed (cs : list command) (m : WidgetManager) :
  well_formed m -> well_formed (run cs m).
Proof.
  revert m. induction cs as [| c cs IH]; intros m Hwf; [exact Hwf |].
  apply IH. apply run_command_well_formed. exact Hwf.
Qed.

(** *** Saving, then loading *)

Lemma BaseWidget_init_truthy (w : Widget.instance) :
  truthy (config w) = true -> BaseWidget_init (class w) (config w) = w.
Proof.
  intros H. destruct w as [c cfg]. unfold BaseWidget_init. simpl in *.
  rewrite H. reflexivity.
Qed.

Lemma saved_position_pinned (m : WidgetManager) (wi : widget_info) :
  saved_position (snapshot m wi) <> None -> pinned m wi = true.
Proof.
  unfold snapshot, pinned. simpl.
  destruct (desktop_widget wi) as [r |]; [| congruence].
  destruct (heap m !! r) as [dw |]; [| congruence].
  destruct (Desktop.is_pinned dw); congruence.
Qed.

Lemma snapshot_well_formed (m : WidgetManager) (wi : widget_info) :
  well_formed_entry m wi ->
  loadable (snapshot m wi)
  /\ recognized (snapshot m wi) = true
  /\ rebuilt (snapshot m wi) = snapshot m wi.
Proof.
  intros (Hty & Htr & Hcp & _).
  unfold loadable, recognized, rebuilt.
  change (saved_type (snapshot m wi)) with (type wi).
  change (saved_config (snapshot m wi)) with (config (instance wi)).
  rewrite Hty, (BaseWidget_init_truthy _ Htr).
  split; [| split; reflexivity].
  destruct (saved_position (snapshot m wi)) eqn:E; [| exact I].
  apply Hcp, saved_position_pinned. congruence.
Qed.

Lemma observe_well_formed (m : WidgetManager) :
  well_formed m ->
  Forall loadable (observe m)
  /\ map rebuilt (List.filter recognized (observe m)) = observe m.
Proof.
  unfold well_formed, observe.
  induction 1 as [| wi l Hwi _ [IH1 IH2]]; [split; [constructor | reflexivity] |].
  destruct (snapshot_well_formed m wi Hwi) as (Hl & Hr & Hb).
  cbn [map List.filter]. rewrite Hr. cbn [map]. rewrite Hb, IH2.
  split; [constructor; assumption | reflexivity].
Qed.

Lemma snapshot_position_spec (m : WidgetManager) (wi : widget_info) :
  match saved_position (snapshot m wi) with
  | Some (x, y) =>
      pinned m wi = true
      /\ exists r dw,
           desktop_widget wi = Some r /\ heap m !! r = Some dw
           /\ Desktop.is_pinned dw = true
           /\ Desktop.x dw = x /\ Desktop.y dw = y
  | None => pinned m wi = false
  end.
Proof.
  unfold snapshot, pinned. cbn [saved_position].
  destruct (desktop_widget wi) as [r |]; [| reflexivity].
  destruct (heap m !! r) as [dw |] eqn:Hl; [| reflexivity].
  destruct (Desktop.is_pinned dw) eqn:Hp; [| reflexivity].
  split; [reflexivity |]. exists r, dw. auto.
Qed.

Lemma snapshot_same_widget (m m' : WidgetManager) (wi wi' : widget_info) :
  well_formed_entry m wi -> well_formed_entry m' wi' ->
  snapshot m' wi' = snapshot m wi ->
  same_widget m wi m' wi'.
Proof.
  intros (Hty & _) (Hty' & _) E.
  pose proof (f_equal saved_position E) as Ep.
  pose proof (snapshot_position_spec m wi) as Hs.
  pose proof (snapshot_position_spec m' wi') as Hs'.
  unfold snapshot in E. injection E as Et En Ec _.
  assert (instance wi' = instance wi) as Hi.
  { rewrite Et, Hty in Hty'. injection Hty' as Hcl.
    destruct (instance wi), (instance wi'). cbn in *. congruence. }
  split; [exact Et |]. split; [exact En |]. split; [exact Hi |].
  rewrite Ep in Hs'.
  destruct (saved_position (snapshot m wi)) as [[x y] |].
  - destruct Hs as (Hp & r1 & dw1 & Hr1 & Hl1 & _ & Hx1 & Hy1).
    destruct Hs' as (Hp' & r' & dw' & Hr' & Hl' & Hpin' & Hx' & Hy').
    split; [congruence |]. intros r dw Hr Hl _.
    assert (dw = dw1) as -> by congruence.
    exists r', dw'. repeat split; congruence.
  - split; [congruence |]. intros r dw Hr Hl Hpin.
    unfold pinned in Hs. rewrite Hr, Hl, Hpin in Hs. discriminate.
Qed.

Lemma observe_same_widgets (m m' : WidgetManager) :
  well_formed m -> well_formed m' ->
  observe m' = observe m ->
  Forall2 (fun wi wi' => same_widget m wi m' wi')
          (active_widgets m) (active_widgets m').
Proof.
  unfold well_formed, observe. intros Hwf Hwf'.
  generalize (active_widgets m') Hwf'. clear Hwf'.
  induction Hwf as [| wi aw Hwi _ IH]; intros aw' Hwf' E.
  - destruct aw'; [constructor | discriminate].
  - destruct aw' as [| wi' aw']; [discriminate |].
    cbn [map] in E.
    assert (snapshot m' wi' = snapshot m wi) as E1 by congruence.
    assert (map (snapshot m') aw' = map (snapshot m) aw) as E2 by congruence.
    apply Forall_cons in Hwf' as [Hwi' Hwf'].
    constructor; [exact (snapshot_same_widget m m' wi wi' Hwi Hwi' E1) |].
    exact (IH aw' Hwf' E2).
Qed.

(** C1. In a well-formed state [m], [save_config] writes the layout and
    leaves the state as it is, and [load_config] on what was written, in
    any state [m0] (the state that was saved, or that of a new run of
    the program), succeeds and builds a state with the widgets of [m]:
    as many entries, in the same order (hence the same multiset), each
    with the same type, name, class and configuration, pinned when it was
    pinned, and then with a desktop widget at the same position. *)
Theorem save_load_round_trip (m m0 : WidgetManager) (fs : option file) :
  well_formed m ->
  exists doc m',
    save_config None fs m
    = (Ret (Some doc), m,
       [Toast (Str "Layout saved successfully!") "success"])
    /\ load_config (Some doc) m0 = (Ret tt, m', [load_succeeded])
    /\ observe m' = observe m
    /\ observe m' ≡ₚ observe m
    /\ Forall2 (fun wi wi' => same_widget m wi m' wi')
               (active_widgets m) (active_widgets m').
Proof.
  intros Hwf. destruct (observe_well_formed m Hwf) as [Hl Hr].
  destruct (load_layout (observe m) m0 Hl) as (m' & Hrun & Hwf' & Hobs).
  exists (Document (config_data m)), m'.
  split; [reflexivity |]. split; [exact Hrun |].
  rewrite Hr in Hobs.
  split; [exact Hobs |]. split; [rewrite Hobs; reflexivity |].
  exact (observe_same_widgets m m' Hwf Hwf' Hobs).
Qed.

Lemma save_load_round_trip_witness :
  let m := run [Create "Clock"; Create "Todo List"; Create "Timer";
                Unpin (Some 1%nat)] empty in
  let m0 := run [Create "Weather"] empty in
  exists doc m',
    state_of (save_config None None m) = m
    /\ outcome_of (save_config None None m) = Ret (Some doc)
    /\ state_of (load_config (Some doc) m0) = m'
    /\ observe m' = observe m
    /\ Forall2 (fun wi wi' => same_widget m wi m' wi')
               (active_widgets m) (active_widgets m').
Proof.
  intros m m0.
  destruct (save_load_round_trip m m0 None) as (doc & m' & Hs & Hl & Ho & _ & Hf).
  - apply run_well_formed, well_formed_empty.
  - exists doc, m'. rewrite Hs, Hl. repeat split; assumption.
Defined.

(** *** Staggered positions *)







#[local] Instance staggered_position_inj : Inj (=) (=) staggered_position.
Proof.
  intros j k H. unfold staggered_position, stagger in H.
  injection H as H _. lia.
Qed.




End ManagerProofs.

(** ** The desktop preview *)

Module PreviewProofs.

Import Manager Preview.

(** C7 does not hold as stated: with the scale 1056/1920, dragging the
    grabbed entry by 7 and then by 4 pixels accumulates 119.99999999999999,
    which is written to the desktop as 119; dragging it by 11 pixels at
    once accumulates 120. *)
Lemma drag_in_two_steps_drifts : ~ drag_composes_exactly.
Proof.
  intros H.
  specialize (H grabbed_clock (207, 200) (211, 200) 0%nat eq_refl).
  apply (f_equal truncated) in H. vm_compute in H. discriminate.
Qed.

(** The positions the two drags leave on the desktop widget. *)
Lemma drag_in_two_steps_writes_back :
  (Desktop.x <$> heap (snd (snd (drag_all [(207, 200); (211, 200)]
                                          grabbed_clock))) !! 0%nat)
  = Some (JInt 119)
  /\ (Desktop.x <$> heap (snd (snd (drag_all [(211, 200)] grabbed_clock)))
                    !! 0%nat)
     = Some (JInt 120).
Proof. split; vm_compute; reflexivity. Qed.




Lemma scale_of_grabbed_clock : scale 1056 1920 = Ret 0.55%float.
Proof. vm_compute. reflexivity. Qed.





(** The write-back keeps the entries of [active_widgets] and whether they
    are pinned. *)
Lemma write_back_keeps (wi : Manager.widget_info) (rx ry : float)
  (m : WidgetManager) :
  active_widgets (snd (write_back wi rx ry m)) = active_widgets m
  /\ forall wi', pinned (snd (write_back wi rx ry m)) wi' = pinned m wi'.
Proof.
  unfold write_back.
  destruct (desktop_widget wi) as [r |]; [| auto].
  destruct (pinned m wi); [| auto].
  destruct (int_of_float rx); [| auto].
  destruct (int_of_float ry); [| auto].
  split; [reflexivity |]. intros wi'. unfold pinned, set_position. cbn [heap snd].
  destruct (desktop_widget wi') as [r' |]; [| reflexivity].
  rewrite list_lookup_alter.
  destruct (decide (r = r')) as [<- | Hne]; [| reflexivity].
  destruct (heap m !! r); reflexivity.
Qed.






(** *** The write-back keeps the state well formed *)

Lemma write_back_well_formed (wi : Manager.widget_info) (rx ry : float)
  (m : WidgetManager) :
  well_formed m -> well_formed (snd (write_back wi rx ry m)).
Proof.
  intros Hwf. unfold write_back.
  destruct (desktop_widget wi) as [r |]; [| exact Hwf].
  destruct (pinned m wi); [| exact Hwf].
  destruct (int_of_float rx); [| exact Hwf].
  destruct (int_of_float ry); [| exact Hwf].
  apply ManagerProofs.well_formed_after; [| exact Hwf].
  split; [rewrite length_alter; lia |].
  intros r' dw' _ Hl Hp. rewrite list_lookup_alter in Hl.
  destruct (decide (r = r')) as [<- | Hne]; [| eauto].
  destruct (heap m !! r) as [dw |]; [| discriminate].
  injection Hl as <-. eauto.
Qed.

Lemma on_preview_drag_well_formed (event_x event_y : Z) (p : preview)
  (m : WidgetManager) :
  well_formed m ->
  well_formed (snd (snd (on_preview_drag event_x event_y (p, m)))).
Proof.
  intros Hwf. unfold on_preview_drag.
  destruct (dragging_widget p) as [i |]; [| exact Hwf].
  destruct (preview_widget_items p !! i) as [it |]; [| exact Hwf].
  cbn [real_x real_y canvas_x canvas_y widget_info].
  destruct (accumulate (real_x it) _ _) as [rx |]; [| exact Hwf].
  destruct (accumulate (real_y it) _ _) as [ry |]; [| exact Hwf].
  destruct (active_widgets m !! widget_info it) as [wi |]; [| exact Hwf].
  pose proof (write_back_well_formed wi rx ry m Hwf) as H.
  destruct (write_back wi rx ry m) as [[[] | e] m']; exact H.
Qed.

End PreviewProofs.

(** ** More on the to-do list *)

Module TodoMore.

Import Todo.

Lemma rstrip_idempotent (s : string) : rstrip (rstrip s) = rstrip s.
Proof.
  induction s as [| c s IH]; [reflexivity |].
  cbn [rstrip]. destruct (rstrip s) as [| c' r] eqn:E.
  - destruct (isspace c) eqn:Hc; [reflexivity |].
    cbn [rstrip]. rewrite Hc. reflexivity.
  - cbn [rstrip]. cbn [rstrip] in IH.
    destruct (match rstrip r with
              | EmptyString => if isspace c' then EmptyString
                               else String c' EmptyString
              | String a s0 => String c' (String a s0)
              end) eqn:E2; [discriminate | rewrite IH; reflexivity].
Qed.

(** What [lstrip] returns is empty or starts with a character that is not
    white space. *)
Lemma lstrip_head (s : string) :
  match lstrip s with
  | EmptyString => True
  | String c _ => isspace c = false
  end.
Proof.
  induction s as [| c s IH]; [exact I |].
  cbn [lstrip]. destruct (isspace c) eqn:Hc; [exact IH | exact Hc].
Qed.

Lemma lstrip_rstrip_head (c : ascii) (s : string) :
  isspace c = false -> lstrip (rstrip (String c s)) = rstrip (String c s).
Proof.
  intros Hc. cbn [rstrip].
  destruct (rstrip s); [rewrite Hc |]; cbn [lstrip]; rewrite Hc; reflexivity.
Qed.

Lemma strip_idempotent (s : string) : strip (strip s) = strip s.
Proof.
  unfold strip. pose proof (lstrip_head s) as H.
  destruct (lstrip s) as [| c r]; [reflexivity |].
  rewrite (lstrip_rstrip_head c r H). apply rstrip_idempotent.
Qed.

Lemma stored_text_strip (t : string) :
  strip t <> EmptyString -> stored_text (strip t).
Proof. intros H. split; [exact H | apply strip_idempotent]. Qed.

Lemma add_task_stored (w : TodoWidget) :
  Forall (fun t => stored_text (text t)) (tasks w) ->
  Forall (fun t => stored_text (text t)) (tasks (add_task w)).
Proof.
  intros H. unfold add_task.
  destruct (strip (entry w)) eqn:E; [exact H |].
  cbn [str_truthy tasks]. apply Forall_app. split; [exact H |].
  constructor; [| constructor]. cbn [text]. rewrite <- E.
  apply stored_text_strip. rewrite E. discriminate.
Qed.

Lemma act_stored (a : action) (w : TodoWidget) :
  Forall (fun t => stored_text (text t)) (tasks w) ->
  Forall (fun t => stored_text (text t)) (tasks (act a w)).
Proof.
  intros H. destruct a as [typed | index | index]; cbn [act].
  - apply add_task_stored. exact H.
  - unfold toggle_task. destruct (in_range index w); [| exact H].
    cbn [tasks]. apply Forall_alter; [exact H |].
    intros t _ Ht. exact Ht.
  - unfold delete_task. destruct (in_range index w); [| exact H].
    cbn [tasks]. apply Forall_delete. exact H.
Qed.

(** X1. Whatever the user types, toggles and deletes, in any order, every
    task of the list has a text that is not empty and carries no white
    space around it; a text that is blank never becomes a task. *)
Theorem tasks_always_stored (l : list action) :
  Forall (fun t => stored_text (text t)) (tasks (acts l create_widget)).
Proof.
  unfold acts.
  assert (forall w, Forall (fun t => stored_text (text t)) (tasks w) ->
            Forall (fun t => stored_text (text t))
                   (tasks (fold_left (fun w a => act a w) l w))) as H.
  { induction l as [| a l IH]; intros w Hw; [exact Hw |].
    cbn [fold_left]. apply IH, act_stored, Hw. }
  apply H. constructor.
Qed.

(** X2. Toggling a task changes nothing but the completed flag of the
    task at the index: the entry field, the number of tasks and every
    text stay as they were; every task at another position stays as it
    was (all of them when the index is negative or past the end); and a
    task at the index has its flag inverted. *)
Theorem toggle_task_frame (index : Z) (w : TodoWidget) :
  entry (toggle_task index w) = entry w
  /\ length (tasks (toggle_task index w)) = length (tasks w)
  /\ map text (tasks (toggle_task index w)) = map text (tasks w)
  /\ (forall j : nat, Z.of_nat j <> index ->
        tasks (toggle_task index w) !! j = tasks w !! j)
  /\ (forall (j : nat) (t : task),
        Z.of_nat j = index -> tasks w !! j = Some t ->
        tasks (toggle_task index w) !! j
        = Some (Task (text t) (negb (completed t)))).
Proof.
  unfold toggle_task. destruct (in_range index w) eqn:E.
  - apply TodoProofs.in_range_spec in E.
    cbn [entry tasks]. split; [reflexivity |].
    split; [apply length_alter |]. split; [| split].
    + apply list_eq. intros j. rewrite !list_lookup_fmap, list_lookup_alter.
      destruct (decide (Z.to_nat index = j)) as [<- | _]; [| reflexivity].
      destruct (tasks w !! Z.to_nat index); reflexivity.
    + intros j Hj. apply list_lookup_alter_ne. lia.
    + intros j t <- Ht. rewrite Nat2Z.id, list_lookup_alter_eq, Ht.
      reflexivity.
  - do 4 (split; [reflexivity |]).
    intros j t <- Ht. apply lookup_lt_Some in Ht.
    assert (in_range (Z.of_nat j) w = true) as E'
      by (apply TodoProofs.in_range_spec; lia).
    congruence.
Qed.

Lemma toggle_task_frame_witness :
  let w := Widget "tea" [Task "milk" false; Task "eggs" false] in
  tasks (toggle_task 1 w) = [Task "milk" false; Task "eggs" true]
  /\ tasks (toggle_task (-1) w) !! 0%nat = Some (Task "milk" false).
Proof.
  intros w.
  destruct (toggle_task_frame 1 w) as (_ & _ & _ & Hj & Hi).
  destruct (toggle_task_frame (-1) w) as (_ & _ & _ & Hj' & _).
  split; [| apply (Hj' 0%nat); discriminate].
  apply list_eq. intros [| [| j]].
  - apply (Hj 0%nat). discriminate.
  - exact (Hi 1%nat (Task "eggs" false) eq_refl eq_refl).
  - apply (Hj (S (S j))). lia.
Defined.

Lemma in_range_toggle (k i : Z) (w : TodoWidget) :
  in_range k (toggle_task i w) = in_range k w.
Proof.
  unfold toggle_task. destruct (in_range i w); [| reflexivity].
  unfold in_range. cbn [tasks]. rewrite length_alter. reflexivity.
Qed.

(** X3. Deleting and toggling commute when they address different tasks:
    toggling task [i] and then deleting a later task [j] gives the same
    list as deleting first and toggling after. *)
Theorem toggle_delete_commute (i j : Z) (w : TodoWidget) :
  0 <= i < j ->
  delete_task j (toggle_task i w) = toggle_task i (delete_task j w).
Proof.
  intros Hij. unfold delete_task at 1. rewrite in_range_toggle.
  unfold delete_task. destruct (in_range j w) eqn:Ej; [| reflexivity].
  apply TodoProofs.in_range_spec in Ej.
  assert (in_range i w = true) as Ei by (apply TodoProofs.in_range_spec; lia).
  assert (is_Some (tasks w !! Z.to_nat j)) as Hsome
    by (apply lookup_lt_is_Some_2; lia).
  assert (in_range i (Widget (entry w) (delete (Z.to_nat j) (tasks w))) = true)
    as Ei'.
  { apply TodoProofs.in_range_spec. cbn [tasks].
    rewrite length_delete by exact Hsome. lia. }
  unfold toggle_task. rewrite Ei, Ei'. cbn [entry tasks]. f_equal.
  apply list_eq. intros k.
  destruct (decide (k < Z.to_nat j)%nat) as [Hk | Hk].
  - rewrite list_lookup_delete_lt by exact Hk.
    rewrite !list_lookup_alter.
    destruct (decide (Z.to_nat i = k));
      rewrite list_lookup_delete_lt by lia; reflexivity.
  - rewrite list_lookup_delete_ge by lia.
    rewrite list_lookup_alter_ne by lia.
    rewrite list_lookup_alter_ne by lia.
    rewrite list_lookup_delete_ge by lia. reflexivity.
Qed.

Lemma toggle_delete_commute_witness :
  let w := Widget "" [Task "milk" false; Task "eggs" false; Task "tea" true] in
  delete_task 2 (toggle_task 0 w) = toggle_task 0 (delete_task 2 w)
  /\ tasks (delete_task 2 (toggle_task 0 w))
     = [Task "milk" true; Task "eggs" false].
Proof.
  split; [apply toggle_delete_commute; lia | reflexivity].
Defined.

End TodoMore.

(** ** More on the timer *)

Module TimerMore.

Import Timer.

(** A running countdown, [j] refreshes long, with at least [j] seconds
    left. *)
Lemma ticks_running (j : nat) (w : TimerWidget) :
  time_display_exists w = true ->
  timer_active w = true ->
  Z.of_nat j <= remaining_time w ->
  ticks j w
  = (Widget (minutes_var w) (remaining_time w - Z.of_nat j) true
            (match j with
             | O => time_display w
             | S _ => clock_face (remaining_time w - Z.of_nat j + 1)
             end) true, []).
Proof.
  revert w. induction j as [| j IH]; intros w He Ha Hr.
  - cbn [ticks]. rewrite Z.sub_0_r. destruct w. simpl in *. subst.
    reflexivity.
  - cbn [ticks]. unfold update_content. rewrite He, Ha.
    assert ((0 <? remaining_time w) = true) as -> by (apply Z.ltb_lt; lia).
    cbn [andb]. rewrite IH; cbn [time_display_exists timer_active
      remaining_time minutes_var time_display]; [| reflexivity | reflexivity | lia].
    f_equal. f_equal; [lia |].
    destruct j as [| j'].
    + replace (remaining_time w - Z.of_nat 1 + 1) with (remaining_time w)
        by lia.
      reflexivity.
    + f_equal. lia.
Qed.

(** X4. While the countdown runs, the label shows the seconds that were
    left before the refresh: after [start] with [n >= 1] and [k] refreshes,
    [1 <= k <= 60 n], the countdown is [60 n - k], the timer is active, no
    dialog has been opened and the label reads [60 n - k + 1] seconds as
    minutes and seconds. *)
Theorem countdown_display (w : TimerWidget) (n : Z) (k : nat) :
  time_display_exists w = true ->
  Py.int (minutes_var w) = Some n ->
  (1 <= k)%nat ->
  Z.of_nat k <= n * 60 ->
  ticks k (fst (start_timer w))
  = (Widget (minutes_var w) (n * 60 - Z.of_nat k) true
            (clock_face (n * 60 - Z.of_nat k + 1)) true, []).
Proof.
  intros He Hn Hk Hle.
  rewrite (TimerProofs.start_timer_accepted w n Hn), He. cbn [fst].
  rewrite ticks_running; cbn [time_display_exists timer_active remaining_time
    minutes_var]; [| reflexivity | reflexivity | exact Hle].
  destruct k; [lia | reflexivity].
Qed.

Lemma countdown_display_witness :
  ticks 31 (fst (start_timer (type_minutes "2" create_widget)))
  = (Widget "2" 89 true "01:30" true, []).
Proof.
  apply (countdown_display (type_minutes "2" create_widget) 2 31);
    [reflexivity | reflexivity | lia | lia].
Defined.

(** X5. Stopping a timer before it expires suppresses the notification
    for good: after [start], at most [60 n] refreshes, and [stop], no
    dialog has been opened, and any number of further refreshes opens none
    and leaves the timer inactive at zero with the label at 00:00. *)
Theorem stop_before_expiry (w : TimerWidget) (n : Z) (j k : nat) :
  time_display_exists w = true ->
  Py.int (minutes_var w) = Some n ->
  Z.of_nat j <= n * 60 ->
  let running := ticks j (fst (start_timer w)) in
  snd running = []
  /\ ticks k (stop_timer (fst running))
     = (Widget (minutes_var w) 0 false "00:00" true, []).
Proof.
  intros He Hn Hle running. unfold running.
  rewrite (TimerProofs.start_timer_accepted w n Hn), He. cbn [fst].
  rewrite ticks_running; cbn [time_display_exists timer_active remaining_time
    minutes_var]; [| reflexivity | reflexivity | exact Hle].
  split; [reflexivity |].
  cbn [fst]. unfold stop_timer. cbn [minutes_var time_display_exists].
  apply TimerProofs.ticks_idle. reflexivity.
Qed.

Lemma stop_before_expiry_witness :
  let running := ticks 60 (fst (start_timer (type_minutes "1" create_widget))) in
  snd running = []
  /\ ticks 100 (stop_timer (fst running)) = (Widget "1" 0 false "00:00" true, []).
Proof.
  apply (stop_before_expiry (type_minutes "1" create_widget) 1 60 100);
    [reflexivity | reflexivity | lia].
Defined.

(** One refresh: it opens nothing, or it opens the one notification and
    leaves the timer inactive; it never raises the countdown nor the
    flag. *)
Lemma update_content_cases (w : TimerWidget) :
  let r := update_content w in
  remaining_time (fst r) <= remaining_time w
  /\ (timer_active w = false -> r = (w, []))
  /\ (snd r = []
      \/ (snd r = [showinfo "Timer" "Time's up!"]
          /\ timer_active (fst r) = false)).
Proof.
  unfold update_content.
  destruct (time_display_exists w); [| cbn; auto with zarith].
  destruct (timer_active w) eqn:Ha; cbn [andb];
    [| cbn; repeat split; auto with zarith].
  destruct (0 <? remaining_time w) eqn:Hr.
  - cbn. repeat split; [lia | discriminate | auto].
  - assert ((remaining_time w <=? 0) = true) as ->
      by (apply Z.leb_le; apply Z.ltb_ge in Hr; lia).
    cbn. repeat split; [lia | discriminate | auto].
Qed.

(** X6. From any state and over any number of refreshes, the timer opens
    at most one dialog, which is the "time's up" notification; the
    countdown never goes up; and a timer that is not active stays exactly
    as it is. *)
Theorem ticks_notify_at_most_once (k : nat) (w : TimerWidget) :
  (snd (ticks k w) = [] \/ snd (ticks k w) = [showinfo "Timer" "Time's up!"])
  /\ remaining_time (fst (ticks k w)) <= remaining_time w
  /\ (timer_active w = false -> ticks k w = (w, [])).
Proof.
  split; [| split]; [| | intros Ha; apply TimerProofs.ticks_idle, Ha].
  - revert w. induction k as [| k IH]; intros w; [left; reflexivity |].
    cbn [ticks].
    destruct (update_content_cases w) as (_ & _ & Hd).
    destruct (update_content w) as [w1 d1]. cbn [fst snd] in Hd.
    destruct Hd as [-> | [-> Ha]].
    + specialize (IH w1). destruct (ticks k w1) as [w2 d2]. exact IH.
    + rewrite (TimerProofs.ticks_idle k w1 Ha). right. reflexivity.
  - revert w. induction k as [| k IH]; intros w; [cbn; lia |].
    cbn [ticks].
    destruct (update_content_cases w) as (Hr & _ & _).
    destruct (update_content w) as [w1 d1]. cbn [fst] in Hr.
    specialize (IH w1). destruct (ticks k w1) as [w2 d2]. cbn [fst] in *. lia.
Qed.

Lemma ticks_notify_at_most_once_witness :
  ticks 500 (stop_timer (fst (start_timer (type_minutes "2" create_widget))))
  = (stop_timer (fst (start_timer (type_minutes "2" create_widget))), []).
Proof.
  apply (ticks_notify_at_most_once 500). reflexivity.
Defined.

(** X7. A number of minutes that is not positive makes the timer expire
    at once: the first refresh after [start] lowers the flag, writes TIME!
    on the label and opens the notification, and the countdown keeps the
    value [60 n] that [start] gave it. *)
Theorem nonpositive_minutes_expire_at_once (w : TimerWidget) (n : Z) (k : nat) :
  time_display_exists w = true ->
  Py.int (minutes_var w) = Some n ->
  n <= 0 ->
  ticks (S k) (fst (start_timer w))
  = (Widget (minutes_var w) (n * 60) false "TIME!" true,
     [showinfo "Timer" "Time's up!"]).
Proof.
  intros He Hn Hle.
  rewrite (TimerProofs.start_timer_accepted w n Hn), He. cbn [fst ticks].
  unfold update_content. cbn [time_display_exists timer_active remaining_time
    minutes_var andb].
  assert ((0 <? n * 60) = false) as -> by (apply Z.ltb_ge; lia).
  assert ((n * 60 <=? 0) = true) as -> by (apply Z.leb_le; lia).
  rewrite TimerProofs.ticks_idle by reflexivity. reflexivity.
Qed.

Lemma nonpositive_minutes_expire_at_once_witness :
  ticks 3 (fst (start_timer (type_minutes "-5" create_widget)))
  = (Widget "-5" (-300) false "TIME!" true, [showinfo "Timer" "Time's up!"]).
Proof.
  apply (nonpositive_minutes_expire_at_once (type_minutes "-5" create_widget)
           (-5) 2); [reflexivity | reflexivity | lia].
Defined.

End TimerMore.

(** ** More on the manager: the desktop list *)

Module ManagerMore.

Import Widget Manager ManagerProofs.

(** *** [list.remove] *)

Lemma list_remove_spec (r : nat) (l : list nat) :
  NoDup l -> r ∈ l ->
  exists l', list_remove r l = Some l'
             /\ NoDup l'
             /\ (forall x, x ∈ l' <-> x ∈ l /\ x <> r)
             /\ S (length l') = length l.
Proof.
  induction l as [| a l IH]; intros Hnd Hin.
  - apply elem_of_nil in Hin. contradiction.
  - apply NoDup_cons in Hnd as [Ha Hnd]. cbn [list_remove].
    destruct (Nat.eqb_spec a r) as [-> | Hne].
    + exists l. split; [reflexivity |]. split; [exact Hnd |].
      split; [| reflexivity].
      intros x. rewrite elem_of_cons. split.
      * intros Hx. split; [auto |]. intros ->. contradiction.
      * intros [[-> | Hx] Hxr]; [contradiction | exact Hx].
    + apply elem_of_cons in Hin as [-> | Hin]; [contradiction |].
      destruct (IH Hnd Hin) as (l' & -> & Hnd' & Hmem & Hlen).
      exists (a :: l'). split; [reflexivity |].
      split; [apply NoDup_cons; split; [| exact Hnd'] |].
      * intros Ha'. apply Hmem in Ha' as [Ha' _]. contradiction.
      * split; [| simpl; lia].
        intros x. rewrite !elem_of_cons, Hmem. split.
        -- intros [-> | [Hx Hxr]]; auto.
        -- intros [[-> | Hx] Hxr]; auto.
Qed.

Lemma list_remove_snoc (r : nat) (l : list nat) :
  r ∉ l -> list_remove r (l ++ [r]) = Some l.
Proof.
  induction l as [| a l IH]; intros Hr.
  - simpl. rewrite Nat.eqb_refl. reflexivity.
  - apply not_elem_of_cons in Hr as [Hne Hr]. cbn [app list_remove].
    destruct (Nat.eqb_spec a r) as [-> | _]; [contradiction |].
    rewrite (IH Hr). reflexivity.
Qed.

Lemma list_remove_absent (r : nat) (l : list nat) :
  r ∉ l -> list_remove r l = None.
Proof.
  induction l as [| a l IH]; intros Hr; [reflexivity |].
  apply not_elem_of_cons in Hr as [Hne Hr]. cbn [list_remove].
  destruct (Nat.eqb_spec a r) as [-> | _]; [contradiction |].
  rewrite (IH Hr). reflexivity.
Qed.

(** *** The agreement is kept, step by step *)

Section Steps.

Variables (refs : list (option nat)) (dws : list nat) (h : list DesktopWidget).
Hypothesis Hc : consistent_with refs dws h.

Lemma consistent_ref_valid (r : nat) : Some r ∈ refs -> (r < length h)%nat.
Proof.
  intros Hr. destruct Hc as (_ & _ & _ & Hobj & _).
  destruct (Hobj r Hr) as (dw & Hdw & _). exact (lookup_lt_Some _ _ _ Hdw).
Qed.

Lemma consistent_fresh : (Some (length h) ∉ refs) /\ (length h ∉ dws).
Proof.
  assert (Some (length h) ∉ refs) as H.
  { intros Hr. apply consistent_ref_valid in Hr. lia. }
  split; [exact H |]. intros Hd. apply H.
  destruct Hc as (_ & Hmem & _). apply Hmem. exact Hd.
Qed.

(** One more entry, without a desktop widget. *)
Lemma consistent_snoc_none : consistent_with (refs ++ [None]) dws h.
Proof.
  destruct Hc as (Hnd & Hmem & Hinj & Hobj & Hpin).
  assert (forall r, Some r ∈ (refs ++ [None]) <-> Some r ∈ refs) as Hsn.
  { intros r. rewrite elem_of_app, list_elem_of_singleton. split; [| auto].
    intros [H | H]; [exact H | discriminate]. }
  split; [exact Hnd |]. split; [| split; [| split]].
  - intros r. rewrite Hsn. apply Hmem.
  - intros i j r Hi Hj.
    apply lookup_app_Some in Hi as [Hi | [_ Hi]];
      [| destruct (i - length refs)%nat; simpl in Hi; discriminate].
    apply lookup_app_Some in Hj as [Hj | [_ Hj]];
      [| destruct (j - length refs)%nat; simpl in Hj; discriminate].
    exact (Hinj i j r Hi Hj).
  - intros r Hr. apply Hobj, Hsn, Hr.
  - intros r dw Hdw Hp. destruct (Hpin r dw Hdw Hp) as [Hw Hr].
    split; [exact Hw | apply Hsn, Hr].
Qed.

(** One more object, which is not pinned. *)
Lemma consistent_heap_snoc (dw : DesktopWidget) :
  Desktop.is_pinned dw = false -> consistent_with refs dws (h ++ [dw]).
Proof.
  intros Hdw. destruct Hc as (Hnd & Hmem & Hinj & Hobj & Hpin).
  split; [exact Hnd |]. split; [exact Hmem |]. split; [exact Hinj |]. split.
  - intros r Hr. destruct (Hobj r Hr) as (dw0 & Hl & Hp).
    exists dw0. split; [apply lookup_app_l_Some, Hl | exact Hp].
  - intros r dw0 Hl Hp. apply lookup_app_Some in Hl as [Hl | [_ Hl]];
      [exact (Hpin r dw0 Hl Hp) |].
    destruct (r - length h)%nat; simpl in Hl; [| discriminate].
    congruence.
Qed.

(** The entry [i], which had no desktop widget, gets a new object, pinned
    and appended to the desktop list. *)
Lemma consistent_pin (i : nat) (dw : DesktopWidget) :
  refs !! i = Some None ->
  Desktop.is_pinned dw = true ->
  Desktop.desktop_window dw = true ->
  consistent_with (<[i := Some (length h)]> refs) (dws ++ [length h])
                  (h ++ [dw]).
Proof.
  intros Hi Hp Hw. destruct consistent_fresh as [Hfr Hfd].
  destruct Hc as (Hnd & Hmem & Hinj & Hobj & Hpin).
  assert (i < length refs)%nat as Hlt by exact (lookup_lt_Some _ _ _ Hi).
  assert (forall r, Some r ∈ <[i := Some (length h)]> refs
                    <-> r = length h \/ Some r ∈ refs) as Hins.
  { intros r. rewrite !list_elem_of_lookup. split.
    - intros [j Hj]. destruct (decide (i = j)) as [<- | Hne].
      + rewrite list_lookup_insert_eq in Hj by exact Hlt. left. congruence.
      + rewrite list_lookup_insert_ne in Hj by exact Hne. right. eauto.
    - intros [-> | [j Hj]].
      + exists i. apply list_lookup_insert_eq. exact Hlt.
      + exists j. rewrite list_lookup_insert_ne; [exact Hj |]. congruence. }
  split; [| split; [| split; [| split]]].
  - apply NoDup_app. split; [exact Hnd |]. split; [| apply NoDup_singleton].
    intros x Hx Hx'. apply list_elem_of_singleton in Hx'. congruence.
  - intros r. rewrite elem_of_app, list_elem_of_singleton, Hins, Hmem. tauto.
  - intros j k r Hj Hk.
    destruct (decide (i = j)) as [<- | Hnj], (decide (i = k)) as [<- | Hnk];
      [reflexivity | | |].
    + rewrite list_lookup_insert_eq in Hj by exact Hlt.
      rewrite list_lookup_insert_ne in Hk by exact Hnk.
      injection Hj as <-. exfalso. apply Hfr.
      exact (list_elem_of_lookup_2 _ _ _ Hk).
    + rewrite list_lookup_insert_eq in Hk by exact Hlt.
      rewrite list_lookup_insert_ne in Hj by exact Hnj.
      injection Hk as <-. exfalso. apply Hfr.
      exact (list_elem_of_lookup_2 _ _ _ Hj).
    + rewrite list_lookup_insert_ne in Hj by exact Hnj.
      rewrite list_lookup_insert_ne in Hk by exact Hnk.
      exact (Hinj j k r Hj Hk).
  - intros r Hr. apply Hins in Hr as [-> | Hr].
    + exists dw. split; [apply lookup_snoc | exact Hp].
    + destruct (Hobj r Hr) as (dw0 & Hl & Hp0).
      exists dw0. split; [apply lookup_app_l_Some, Hl | exact Hp0].
  - intros r dw0 Hl Hp0. rewrite Hins.
    apply lookup_app_Some in Hl as [Hl | [Hge Hl]].
    + destruct (Hpin r dw0 Hl Hp0) as [Hw0 Hr]. auto.
    + destruct (r - length h)%nat eqn:E; simpl in Hl; [| discriminate].
      injection Hl as <-. split; [exact Hw | left; lia].
Qed.

(** The entry [i] loses its object [r], which is unpinned and removed from
    the desktop list. *)
Lemma consistent_unpin (i r : nat) (dw : DesktopWidget) :
  refs !! i = Some (Some r) ->
  h !! r = Some dw ->
  exists l,
    list_remove r dws = Some l
    /\ S (length l) = length dws
    /\ Desktop.is_pinned (Desktop.unpin_from_desktop dw) = false
    /\ consistent_with (<[i := None]> refs) l
         (<[r := Desktop.unpin_from_desktop dw]> h).
Proof.
  intros Hi Hdw. destruct Hc as (Hnd & Hmem & Hinj & Hobj & Hpin).
  assert (Some r ∈ refs) as Hr by exact (list_elem_of_lookup_2 _ _ _ Hi).
  assert (i < length refs)%nat as Hlt by exact (lookup_lt_Some _ _ _ Hi).
  assert (r < length h)%nat as Hrlt by exact (lookup_lt_Some _ _ _ Hdw).
  destruct (Hobj r Hr) as (dw' & Hdw' & Hp).
  assert (dw' = dw) as -> by congruence.
  destruct (Hpin r dw Hdw Hp) as [Hw _].
  assert (Desktop.is_pinned (Desktop.unpin_from_desktop dw) = false) as Hun.
  { unfold Desktop.unpin_from_desktop. rewrite Hw. reflexivity. }
  destruct (list_remove_spec r dws Hnd (proj2 (Hmem r) Hr))
    as (l & Hl & Hndl & Hmeml & Hlen).
  exists l. split; [exact Hl |]. split; [exact Hlen |]. split; [exact Hun |].
  assert (forall r', Some r' ∈ <[i := None]> refs
                     <-> Some r' ∈ refs /\ r' <> r) as Hins.
  { intros r'. rewrite !list_elem_of_lookup. split.
    - intros [j Hj]. destruct (decide (i = j)) as [<- | Hne].
      + rewrite list_lookup_insert_eq in Hj by exact Hlt. discriminate.
      + rewrite list_lookup_insert_ne in Hj by exact Hne.
        split; [eauto |]. intros ->. apply Hne. exact (Hinj i j r Hi Hj).
    - intros [[j Hj] Hne]. exists j.
      rewrite list_lookup_insert_ne; [exact Hj |]. congruence. }
  split; [exact Hndl |]. split; [| split; [| split]].
  - intros r'. rewrite Hmeml, Hins, Hmem. tauto.
  - intros j k r' Hj Hk.
    destruct (decide (i = j)) as [<- | Hnj];
      [rewrite list_lookup_insert_eq in Hj by exact Hlt; discriminate |].
    destruct (decide (i = k)) as [<- | Hnk];
      [rewrite list_lookup_insert_eq in Hk by exact Hlt; discriminate |].
    rewrite list_lookup_insert_ne in Hj by exact Hnj.
    rewrite list_lookup_insert_ne in Hk by exact Hnk.
    exact (Hinj j k r' Hj Hk).
  - intros r' Hr'. apply Hins in Hr' as [Hr' Hne].
    destruct (Hobj r' Hr') as (dw0 & Hl0 & Hp0).
    exists dw0. split; [| exact Hp0].
    rewrite list_lookup_insert_ne by congruence. exact Hl0.
  - intros r' dw0 Hl0 Hp0. rewrite Hins.
    destruct (decide (r = r')) as [<- | Hne].
    + rewrite list_lookup_insert_eq in Hl0 by exact Hrlt. congruence.
    + rewrite list_lookup_insert_ne in Hl0 by exact Hne.
      destruct (Hpin r' dw0 Hl0 Hp0) as [Hw0 Hr0]. auto.
Qed.

(** An entry without a desktop widget goes. *)
Lemma consistent_delete_none (i : nat) :
  refs !! i = Some None -> consistent_with (delete i refs) dws h.
Proof.
  intros Hi. destruct Hc as (Hnd & Hmem & Hinj & Hobj & Hpin).
  assert (forall r, Some r ∈ delete i refs <-> Some r ∈ refs) as Hdel.
  { intros r. rewrite !list_elem_of_lookup. split.
    - intros [j Hj]. rewrite list_lookup_delete in Hj. eauto.
    - intros [j Hj]. destruct (decide (j < i)%nat) as [Hlt | Hge].
      + exists j. rewrite list_lookup_delete_lt by exact Hlt. exact Hj.
      + assert (j <> i) by congruence.
        exists (j - 1)%nat. rewrite list_lookup_delete_ge by lia.
        replace (S (j - 1)) with j by lia. exact Hj. }
  split; [exact Hnd |]. split; [| split; [| split]].
  - intros r. rewrite Hdel. apply Hmem.
  - intros j k r Hj Hk. rewrite list_lookup_delete in Hj, Hk.
    pose proof (Hinj _ _ r Hj Hk) as E.
    destruct (decide (j < i)%nat), (decide (k < i)%nat); lia.
  - intros r Hr. apply Hobj, Hdel, Hr.
  - intros r dw Hl Hp. destruct (Hpin r dw Hl Hp) as [Hw Hr].
    split; [exact Hw | apply Hdel, Hr].
Qed.

(** The objects keep their flags: positions may change. *)
Lemma consistent_flags (h' : list DesktopWidget) :
  (forall r, (fun dw => (Desktop.is_pinned dw, Desktop.desktop_window dw))
               <$> h' !! r
             = (fun dw => (Desktop.is_pinned dw, Desktop.desktop_window dw))
               <$> h !! r) ->
  consistent_with refs dws h'.
Proof.
  intros Hfl. destruct Hc as (Hnd & Hmem & Hinj & Hobj & Hpin).
  split; [exact Hnd |]. split; [exact Hmem |]. split; [exact Hinj |]. split.
  - intros r Hr. destruct (Hobj r Hr) as (dw & Hl & Hp).
    specialize (Hfl r). rewrite Hl in Hfl.
    destruct (h' !! r) as [dw' |]; [| discriminate].
    injection Hfl as Hp' _. exists dw'. split; [reflexivity | congruence].
  - intros r dw' Hl Hp. specialize (Hfl r). rewrite Hl in Hfl.
    destruct (h !! r) as [dw |] eqn:E; [| discriminate].
    injection Hfl as Hp' Hw'. rewrite Hw'. apply (Hpin r dw E). congruence.
Qed.

End Steps.

Lemma consistent_clear (h : list DesktopWidget) :
  Forall (fun dw => Desktop.is_pinned dw = false) h -> consistent_with [] [] h.
Proof.
  intros Hh. split; [constructor |]. split; [| split; [| split]].
  - intros r. rewrite !elem_of_nil. tauto.
  - intros i j r Hi. rewrite lookup_nil in Hi. discriminate.
  - intros r Hr. apply elem_of_nil in Hr. contradiction.
  - intros r dw Hl Hp. rewrite (Forall_lookup_1 _ _ _ _ Hh Hl) in Hp.
    discriminate.
Qed.

(** *** The commands keep the agreement *)

Lemma entry_refs_alter (i : nat) (v : option nat) (aw : list widget_info) :
  desktop_widget <$> alter (fun wi => Info (type wi) (instance wi) (name wi) v)
                           i aw
  = <[i := v]> (desktop_widget <$> aw).
Proof.
  rewrite list_insert_alter. apply list_fmap_alter.
  apply Forall_forall. reflexivity.
Qed.

Lemma consistent_snoc_pin (refs : list (option nat)) (dws : list nat)
  (h : list DesktopWidget) (dw : DesktopWidget) :
  consistent_with refs dws h ->
  Desktop.is_pinned dw = true ->
  Desktop.desktop_window dw = true ->
  consistent_with (refs ++ [Some (length h)]) (dws ++ [length h]) (h ++ [dw]).
Proof.
  intros Hc Hp Hw.
  rewrite <- (insert_snoc refs None (Some (length h))).
  apply consistent_pin; [apply consistent_snoc_none, Hc | | exact Hp | exact Hw].
  apply lookup_snoc.
Qed.

(** In a consistent state an entry is pinned exactly when it has a desktop
    widget. *)
Lemma consistent_pinned (m : WidgetManager) (i : nat) (wi : widget_info) :
  consistent m ->
  active_widgets m !! i = Some wi ->
  pinned m wi = match desktop_widget wi with Some _ => true | None => false end.
Proof.
  intros (_ & _ & _ & Hobj & _) Hwi. unfold pinned.
  destruct (desktop_widget wi) as [r |] eqn:Hd; [| reflexivity].
  destruct (Hobj r) as (dw & -> & Hp); [| exact Hp].
  apply (list_elem_of_lookup_2 _ i). unfold entry_refs.
  rewrite list_lookup_fmap, Hwi. simpl. rewrite Hd. reflexivity.
Qed.

Lemma entry_refs_lookup (m : WidgetManager) (i : nat) (wi : widget_info) :
  active_widgets m !! i = Some wi ->
  entry_refs m !! i = Some (desktop_widget wi).
Proof.
  intros Hwi. unfold entry_refs. rewrite list_lookup_fmap, Hwi. reflexivity.
Qed.

Lemma create_widget_consistent (ty : string) (m : WidgetManager) :
  consistent m -> consistent (state_of (create_widget ty m)).
Proof.
  intros Hc.
  destruct (lookup_type ty widget_types) as [c |] eqn:Hty;
    [| rewrite (create_widget_unknown ty m Hty); exact Hc].
  rewrite (create_widget_known ty c m Hty).
  unfold state_of, consistent, entry_refs.
  cbn [fst snd active_widgets desktop_widgets heap].
  rewrite fmap_app. apply consistent_snoc_pin; [exact Hc | |]; reflexivity.
Qed.

Lemma pin_selected_widget_consistent (selection : option nat)
  (m : WidgetManager) :
  consistent m -> consistent (state_of (pin_selected_widget selection m)).
Proof.
  intros Hc.
  destruct (pin_selected_widget_cases selection m)
    as [-> | (index & wi & Hwi & Hp & [[_ ->] | [_ ->]])]; [exact Hc | |].
  - unfold consistent, entry_refs.
    cbn [active_widgets desktop_widgets heap].
    rewrite entry_refs_alter.
    apply consistent_pin; [exact Hc | | reflexivity | reflexivity].
    rewrite (consistent_pinned m index wi Hc Hwi) in Hp.
    fold (entry_refs m). rewrite (entry_refs_lookup m index wi Hwi).
    destruct (desktop_widget wi); [discriminate | reflexivity].
  - unfold consistent, entry_refs.
    cbn [active_widgets desktop_widgets heap].
    apply consistent_heap_snoc; [exact Hc | reflexivity].
Qed.

(** What [unpin_selected_widget] does to a pinned entry whose object is in
    the desktop list. *)
Lemma unpin_selected_widget_result (index r : nat) (m : WidgetManager)
  (wi : widget_info) (dw : DesktopWidget) (l : list nat) :
  active_widgets m !! index = Some wi ->
  desktop_widget wi = Some r ->
  heap m !! r = Some dw ->
  Desktop.is_pinned dw = true ->
  list_remove r (desktop_widgets m) = Some l ->
  unpin_selected_widget (Some index) m
  = (Ret tt,
     Mgr (alter unpinned_entry index (active_widgets m)) l
         (<[r := Desktop.unpin_from_desktop dw]> (heap m)),
     [Toast (NameStr (name wi) " unpinned from desktop!") "success"]).
Proof.
  intros Hwi Hd Hdw Hp Hl. unfold unpin_selected_widget.
  rewrite (bind_ret _ _ _ wi m) by (unfold active_widget; rewrite Hwi; reflexivity).
  rewrite bind_get_state, Hd.
  assert (pinned m wi = true) as -> by (unfold pinned; rewrite Hd, Hdw; exact Hp).
  rewrite (bind_call _ _ _ _ dw Hdw).
  erewrite bind_ret;
    [| unfold remove_desktop; cbn [desktop_widgets]; rewrite Hl; reflexivity].
  unfold set_desktop_widget. rewrite bind_modify. reflexivity.
Qed.

Lemma unpin_selected_widget_unchanged (selection : option nat)
  (m : WidgetManager) :
  (forall index wi, selection = Some index ->
     active_widgets m !! index = Some wi -> pinned m wi = false) ->
  state_of (unpin_selected_widget selection m) = m.
Proof.
  intros H. destruct selection as [index |]; [| reflexivity].
  unfold unpin_selected_widget.
  destruct (active_widgets m !! index) as [wi |] eqn:Hwi.
  - rewrite (bind_ret _ _ _ wi m) by (unfold active_widget; rewrite Hwi; reflexivity).
    rewrite bind_get_state, (H index wi eq_refl Hwi).
    destruct (desktop_widget wi); reflexivity.
  - erewrite bind_raise; [reflexivity |].
    unfold active_widget. rewrite Hwi. reflexivity.
Qed.

Lemma unpin_selected_widget_consistent (selection : option nat)
  (m : WidgetManager) :
  consistent m -> consistent (state_of (unpin_selected_widget selection m)).
Proof.
  intros Hc. destruct selection as [index |]; [| exact Hc].
  destruct (active_widgets m !! index) as [wi |] eqn:Hwi;
    [| rewrite unpin_selected_widget_unchanged; [exact Hc | congruence]].
  destruct (pinned m wi) eqn:Hp;
    [| rewrite unpin_selected_widget_unchanged; [exact Hc | congruence]].
  destruct (pinned_lookup m wi Hp) as (r & dw & Hd & Hdw & Hpd).
  pose proof (entry_refs_lookup m index wi Hwi) as Hi. rewrite Hd in Hi.
  destruct (consistent_unpin _ _ _ Hc index r dw Hi Hdw)
    as (l & Hl & _ & _ & Hc').
  rewrite (unpin_selected_widget_result index r m wi dw l Hwi Hd Hdw Hpd Hl).
  unfold state_of, consistent, entry_refs.
  cbn [fst snd active_widgets desktop_widgets heap].
  unfold unpinned_entry. rewrite entry_refs_alter. exact Hc'.
Qed.

Lemma in_desktop_spec (r : nat) (m : WidgetManager) :
  in_desktop r m = true <-> r ∈ desktop_widgets m.
Proof.
  unfold in_desktop. rewrite existsb_exists. split.
  - intros (x & Hx & E). apply Nat.eqb_eq in E as ->.
    apply list_elem_of_In. exact Hx.
  - intros H. exists r. split; [apply list_elem_of_In, H | apply Nat.eqb_refl].
Qed.

(** What [remove_widget] does to a pinned entry whose object is in the
    desktop list, and to an entry that is not pinned. *)
Lemma remove_widget_pinned (index r : nat) (m : WidgetManager)
  (wi : widget_info) (dw : DesktopWidget) (l : list nat) :
  active_widgets m !! index = Some wi ->
  desktop_widget wi = Some r ->
  heap m !! r = Some dw ->
  Desktop.is_pinned dw = true ->
  r ∈ desktop_widgets m ->
  list_remove r (desktop_widgets m) = Some l ->
  remove_widget (Some index) m
  = (Ret tt,
     Mgr (delete index (active_widgets m)) l
         (<[r := Desktop.unpin_from_desktop dw]> (heap m)),
     [Toast (Str "Widget removed successfully!") "success"]).
Proof.
  intros Hwi Hd Hdw Hp Hin Hl. unfold remove_widget.
  rewrite (bind_ret _ _ _ wi m) by (unfold active_widget; rewrite Hwi; reflexivity).
  rewrite bind_get_state, Hd.
  assert (pinned m wi = true) as -> by (unfold pinned; rewrite Hd, Hdw; exact Hp).
  rewrite (proj2 (in_desktop_spec r m) Hin).
  match goal with |- (?X ≫= _) m = _ =>
    assert (X m = (Ret tt,
                   Mgr (active_widgets m) l
                       (<[r := Desktop.unpin_from_desktop dw]> (heap m)), []))
      as HX
  end.
  { rewrite (bind_call _ _ _ _ dw Hdw).
    unfold remove_desktop. cbn [desktop_widgets]. rewrite Hl. reflexivity. }
  rewrite (bind_ret _ _ _ _ _ HX), bind_modify.
  unfold update_widgets_list. rewrite bind_mret. reflexivity.
Qed.

Lemma remove_widget_unpinned (index : nat) (m : WidgetManager)
  (wi : widget_info) :
  active_widgets m !! index = Some wi ->
  pinned m wi = false ->
  remove_widget (Some index) m
  = (Ret tt,
     Mgr (delete index (active_widgets m)) (desktop_widgets m) (heap m),
     [Toast (Str "Widget removed successfully!") "success"]).
Proof.
  intros Hwi Hp. unfold remove_widget.
  rewrite (bind_ret _ _ _ wi m) by (unfold active_widget; rewrite Hwi; reflexivity).
  rewrite bind_get_state, Hp.
  match goal with |- (?X ≫= _) m = _ =>
    assert (X m = (Ret tt, m, [])) as HX
      by (destruct (desktop_widget wi); reflexivity)
  end.
  rewrite (bind_ret _ _ _ _ _ HX), bind_modify.
  unfold update_widgets_list. rewrite bind_mret. reflexivity.
Qed.

Lemma remove_widget_missing (index : nat) (m : WidgetManager) :
  active_widgets m !! index = None ->
  remove_widget (Some index) m = (Raise IndexError, m, []).
Proof.
  intros Hwi. unfold remove_widget. erewrite bind_raise; [reflexivity |].
  unfold active_widget. rewrite Hwi. reflexivity.
Qed.

Lemma remove_widget_consistent (selection : option nat) (m : WidgetManager) :
  consistent m -> consistent (state_of (remove_widget selection m)).
Proof.
  intros Hc. destruct selection as [index |]; [| exact Hc].
  destruct (active_widgets m !! index) as [wi |] eqn:Hwi;
    [| rewrite (remove_widget_missing index m Hwi); exact Hc].
  pose proof (entry_refs_lookup m index wi Hwi) as Hi.
  destruct (pinned m wi) eqn:Hp.
  - destruct (pinned_lookup m wi Hp) as (r & dw & Hd & Hdw & Hpd).
    rewrite Hd in Hi.
    destruct (consistent_unpin _ _ _ Hc index r dw Hi Hdw)
      as (l & Hl & _ & _ & Hc').
    assert (r ∈ desktop_widgets m) as Hin.
    { destruct Hc as (_ & Hmem & _). apply Hmem.
      exact (list_elem_of_lookup_2 _ _ _ Hi). }
    rewrite (remove_widget_pinned index r m wi dw l Hwi Hd Hdw Hpd Hin Hl).
    unfold state_of, consistent, entry_refs.
    cbn [fst snd active_widgets desktop_widgets heap].
    rewrite list_fmap_delete.
    replace (delete index (desktop_widget <$> active_widgets m))
      with (delete index (<[index := None]> (desktop_widget <$> active_widgets m))).
    + apply consistent_delete_none; [exact Hc' |].
      apply list_lookup_insert_eq. exact (lookup_lt_Some _ _ _ Hi).
    + apply list_eq. intros j. rewrite !list_lookup_delete.
      apply list_lookup_insert_ne. destruct (decide (j < index)%nat); lia.
  - rewrite (remove_widget_unpinned index m wi Hwi Hp).
    unfold state_of, consistent, entry_refs.
    cbn [fst snd active_widgets desktop_widgets heap].
    rewrite list_fmap_delete.
    apply consistent_delete_none; [exact Hc |].
    rewrite (consistent_pinned m index wi Hc Hwi) in Hp.
    fold (entry_refs m). rewrite Hi.
    destruct (desktop_widget wi); [discriminate | reflexivity].
Qed.

Lemma run_command_consistent (c : command) (m : WidgetManager) :
  consistent m -> consistent (state_of (run_command c m)).
Proof.
  destruct c; simpl.
  - apply create_widget_consistent.
  - apply pin_selected_widget_consistent.
  - apply unpin_selected_widget_consistent.
  - apply remove_widget_consistent.
Qed.

(** *** Loading keeps the agreement *)

(** The loop that clears the widgets: an object that is still pinned after
    it was pinned before and belongs to none of the entries visited. *)
Lemma unpin_all_heap (l : list widget_info) (m : WidgetManager) :
  (forall r dw, heap m !! r = Some dw -> Desktop.is_pinned dw = true ->
     Desktop.desktop_window dw = true) ->
  exists h,
    for_each l unpin_if_pinned m
    = (Ret tt, Mgr (active_widgets m) (desktop_widgets m) h, [])
    /\ length h = length (heap m)
    /\ forall r dw', h !! r = Some dw' -> Desktop.is_pinned dw' = true ->
         heap m !! r = Some dw' /\ Some r ∉ (desktop_widget <$> l).
Proof.
  revert m. induction l as [| wi l IH]; intros m Hwin.
  - exists (heap m). destruct m. cbn. split; [reflexivity |].
    split; [reflexivity |]. intros r dw' Hl _. split; [exact Hl |].
    apply not_elem_of_nil.
  - cbn [for_each].
    assert (exists h1,
              unpin_if_pinned wi m
              = (Ret tt, Mgr (active_widgets m) (desktop_widgets m) h1, [])
              /\ length h1 = length (heap m)
              /\ (forall r dw, h1 !! r = Some dw ->
                    Desktop.is_pinned dw = true ->
                    heap m !! r = Some dw /\ desktop_widget wi <> Some r))
      as (h1 & E1 & Hlen1 & Hsurv1).
    { unfold unpin_if_pinned.
      destruct (desktop_widget wi) as [r0 |] eqn:Hd.
      - rewrite bind_get_state. unfold pinned. rewrite Hd.
        destruct (heap m !! r0) as [dw0 |] eqn:Hr0.
        + destruct (Desktop.is_pinned dw0) eqn:Hp0.
          * exists (<[r0 := Desktop.unpin_from_desktop dw0]> (heap m)).
            split; [unfold call; rewrite Hr0; reflexivity |].
            split; [apply length_insert |].
            intros r dw Hl Hp. destruct (decide (r0 = r)) as [<- | Hne].
            -- rewrite list_lookup_insert_eq in Hl
                 by exact (lookup_lt_Some _ _ _ Hr0).
               injection Hl as <-. unfold Desktop.unpin_from_desktop in Hp.
               rewrite (Hwin r0 dw0 Hr0 Hp0) in Hp. discriminate.
            -- rewrite list_lookup_insert_ne in Hl by exact Hne.
               split; [exact Hl | congruence].
          * exists (heap m). destruct m. cbn in *.
            split; [reflexivity |]. split; [reflexivity |].
            intros r dw Hl Hp. split; [exact Hl |]. intros [= <-]. congruence.
        + exists (heap m). destruct m. cbn in *.
          split; [reflexivity |]. split; [reflexivity |].
          intros r dw Hl Hp. split; [exact Hl |]. intros [= <-]. congruence.
      - exists (heap m). destruct m. cbn.
        split; [reflexivity |]. split; [reflexivity |].
        intros r dw Hl Hp. split; [exact Hl | discriminate]. }
    rewrite (bind_ret _ _ _ _ _ E1).
    destruct (IH (Mgr (active_widgets m) (desktop_widgets m) h1))
      as (h & E & Hlen & Hsurv).
    { cbn [heap]. intros r dw Hl Hp.
      destruct (Hsurv1 r dw Hl Hp) as [Hl0 _]. exact (Hwin r dw Hl0 Hp). }
    exists h. cbn [active_widgets desktop_widgets heap] in *.
    split; [exact E |]. split; [lia |].
    intros r dw' Hl Hp. destruct (Hsurv r dw' Hl Hp) as [Hl1 Hnot].
    destruct (Hsurv1 r dw' Hl1 Hp) as [Hl0 Hne].
    split; [exact Hl0 |]. rewrite fmap_cons. apply not_elem_of_cons.
    split; [congruence | exact Hnot].
Qed.

(** In a consistent state the loop leaves no object pinned. *)
Lemma unpin_all_consistent (m : WidgetManager) :
  consistent m ->
  exists h,
    for_each (active_widgets m) unpin_if_pinned m
    = (Ret tt, Mgr (active_widgets m) (desktop_widgets m) h, [])
    /\ length h = length (heap m)
    /\ Forall (fun dw => Desktop.is_pinned dw = false) h.
Proof.
  intros (_ & _ & _ & _ & Hpin).
  destruct (unpin_all_heap (active_widgets m) m) as (h & E & Hlen & Hsurv).
  { intros r dw Hl Hp. apply (Hpin r dw Hl Hp). }
  exists h. split; [exact E |]. split; [exact Hlen |].
  apply Forall_lookup. intros r dw' Hl.
  destruct (Desktop.is_pinned dw') eqn:Hp; [| reflexivity].
  destruct (Hsurv r dw' Hl Hp) as [Hl0 Hnot].
  exfalso. apply Hnot. apply (Hpin r dw' Hl0 Hp).
Qed.

Lemma load_widget_consistent (widget_data : json) (m : WidgetManager) :
  consistent m -> consistent (state_of (load_widget widget_data m)).
Proof.
  intros Hc.
  destruct (load_widget_cases widget_data m)
    as [[o ->] | (ty & c & cfg & nm & Hty & [-> | (x & y & [[_ ->] | [e ->]])])];
    unfold state_of, consistent, entry_refs;
    cbn [fst snd active_widgets desktop_widgets heap].
  - exact Hc.
  - rewrite fmap_app. apply consistent_snoc_none. exact Hc.
  - rewrite fmap_app. apply consistent_snoc_pin; [exact Hc | |]; reflexivity.
  - rewrite fmap_app. apply consistent_snoc_none.
    apply consistent_heap_snoc; [exact Hc | reflexivity].
Qed.

(** Loading records only appends: to the entries and to the store. *)
Lemma load_widget_appends (widget_data : json) (m : WidgetManager) :
  exists aw h,
    active_widgets (state_of (load_widget widget_data m))
    = active_widgets m ++ aw
    /\ heap (state_of (load_widget widget_data m)) = heap m ++ h.
Proof.
  destruct (load_widget_cases widget_data m)
    as [[o ->] | (ty & c & cfg & nm & Hty & [-> | (x & y & [[_ ->] | [e ->]])])];
    unfold state_of; cbn [fst snd active_widgets heap].
  - exists [], []. rewrite !app_nil_r. auto.
  - exists [Info ty (BaseWidget_init c cfg) nm None], [].
    rewrite app_nil_r. auto.
  - eexists. eexists. split; reflexivity.
  - eexists. eexists. split; reflexivity.
Qed.

Lemma load_widgets_consistent (items : list json) (m : WidgetManager) :
  consistent m ->
  consistent (state_of (for_each items load_widget m))
  /\ exists aw h,
       active_widgets (state_of (for_each items load_widget m))
       = active_widgets m ++ aw
       /\ heap (state_of (for_each items load_widget m)) = heap m ++ h.
Proof.
  revert m. induction items as [| wd items IH]; intros m Hc.
  - split; [exact Hc |]. exists [], []. cbn. rewrite !app_nil_r. auto.
  - cbn [for_each].
    pose proof (load_widget_consistent wd m Hc) as Hc1.
    destruct (load_widget_appends wd m) as (aw1 & h1 & Ha1 & Hh1).
    destruct (load_widget_cases wd m)
      as [[o E] | (ty & c & cfg & nm & _ & [E | (x & y & [[_ E] | [e E]])])];
      rewrite E in Hc1, Ha1, Hh1;
      unfold state_of in Hc1, Ha1, Hh1; cbn [fst snd] in Hc1, Ha1, Hh1;
      try (rewrite (bind_ret _ _ _ _ _ E);
           destruct (IH _ Hc1) as (Hc2 & aw2 & h2 & Ha2 & Hh2);
           split; [exact Hc2 |];
           exists (aw1 ++ aw2), (h1 ++ h2);
           rewrite Ha2, Hh2, Ha1, Hh1, <- !app_assoc; auto);
      try (rewrite (bind_raise _ _ _ _ _ _ E);
           split; [exact Hc1 |]; exists aw1, h1; auto).
    destruct o as [[] | e].
    + rewrite (bind_ret _ _ _ _ _ E).
      destruct (IH _ Hc) as (Hc2 & aw2 & h2 & Ha2 & Hh2).
      split; [exact Hc2 |]. exists aw2, h2. auto.
    + rewrite (bind_raise _ _ _ _ _ _ E). split; [exact Hc |].
      exists [], []. cbn. rewrite !app_nil_r. auto.
Qed.

(** [load_config] on a document that was parsed: the widgets are cleared,
    then the records are read; the toast tells how the reading ended. *)
Lemma load_config_document (j : json) (m : WidgetManager) (h : list DesktopWidget) :
  for_each (active_widgets m) unpin_if_pinned m
  = (Ret tt, Mgr (active_widgets m) (desktop_widgets m) h, []) ->
  load_config (Some (Document j)) m
  = match get j "widgets" (JArr []) with
    | Raise e => (Ret tt, Mgr [] [] h, [load_failed e])
    | Ret widgets =>
        match iter widgets with
        | Raise e => (Ret tt, Mgr [] [] h, [load_failed e])
        | Ret items =>
            match for_each items load_widget (Mgr [] [] h) with
            | (Ret _, m1, _) => (Ret tt, m1, [load_succeeded])
            | (Raise e, m1, _) => (Ret tt, m1, [load_failed e])
            end
        end
    end.
Proof.
  intros Hh. unfold load_config, try_except, load_config_body.
  rewrite bind_lift, bind_get_state.
  rewrite (bind_ret _ _ _ _ _ Hh), bind_modify. cbn [heap].
  rewrite bind_lift.
  destruct (get j "widgets" (JArr [])) as [widgets | e]; [| reflexivity].
  rewrite bind_lift.
  destruct (iter widgets) as [items | e]; [| reflexivity].
  destruct (load_widgets_well_formed items (Mgr [] [] h)) as [_ Ht];
    [constructor |].
  destruct (for_each items load_widget (Mgr [] [] h)) as [[[[] | e] m1] t1] eqn:E;
    unfold toasts_of in Ht; cbn [snd] in Ht; subst t1.
  - rewrite (bind_ret _ _ _ _ _ E). unfold update_widgets_list.
    rewrite bind_mret. reflexivity.
  - rewrite (bind_raise _ _ _ _ _ _ E). reflexivity.
Qed.

Lemma load_config_consistent (fs : option file) (m : WidgetManager) :
  consistent m -> consistent (state_of (load_config fs m)).
Proof.
  intros Hc. destruct fs as [[e | j] |]; [exact Hc | | exact Hc].
  destruct (unpin_all_consistent m Hc) as (h & Hh & _ & Hun).
  rewrite (load_config_document j m h Hh).
  pose proof (consistent_clear h Hun) as Hc0.
  destruct (get j "widgets" (JArr [])) as [widgets | e]; [| exact Hc0].
  destruct (iter widgets) as [items | e]; [| exact Hc0].
  destruct (load_widgets_consistent items (Mgr [] [] h) Hc0) as [Hc1 _].
  destruct (for_each items load_widget (Mgr [] [] h)) as [[[[] | e] m1] t1];
    exact Hc1.
Qed.

(** *** What the commands do to the observation *)

Lemma snapshot_insert_ne (m : WidgetManager) (aw : list widget_info)
  (dws : list nat) (r : nat) (dw : DesktopWidget) (wi : widget_info) :
  desktop_widget wi <> Some r ->
  snapshot (Mgr aw dws (<[r := dw]> (heap m))) wi = snapshot m wi.
Proof.
  intros Hne. unfold snapshot. cbn [heap].
  destruct (desktop_widget wi) as [r' |]; [| reflexivity].
  rewrite list_lookup_insert_ne by congruence. reflexivity.
Qed.

Lemma consistent_entry_valid (m : WidgetManager) (i : nat) (wi : widget_info) :
  consistent m ->
  active_widgets m !! i = Some wi ->
  forall r, desktop_widget wi = Some r -> (r < length (heap m))%nat.
Proof.
  intros Hc Hwi r Hr. apply (consistent_ref_valid _ _ _ Hc).
  apply (list_elem_of_lookup_2 _ i).
  rewrite (entry_refs_lookup m i wi Hwi), Hr. reflexivity.
Qed.

Lemma consistent_entries_distinct (m : WidgetManager) (i j r : nat)
  (wi wj : widget_info) :
  consistent m ->
  active_widgets m !! i = Some wi ->
  active_widgets m !! j = Some wj ->
  desktop_widget wi = Some r ->
  desktop_widget wj = Some r ->
  i = j.
Proof.
  intros (_ & _ & Hinj & _) Hwi Hwj Hi Hj.
  apply (Hinj i j r).
  - rewrite (entry_refs_lookup m i wi Hwi), Hi. reflexivity.
  - rewrite (entry_refs_lookup m j wj Hwj), Hj. reflexivity.
Qed.

(** X8. Unpinning a pinned widget, in a state where the desktop list and
    the entries agree: the command returns with its success toast, the
    widget is observed without a position and every other widget exactly
    as before, and the desktop list is one shorter. *)
Theorem unpin_pinned_widget (m : WidgetManager) (index : nat)
  (wi : widget_info) :
  consistent m ->
  active_widgets m !! index = Some wi ->
  pinned m wi = true ->
  exists m',
    unpin_selected_widget (Some index) m
    = (Ret tt, m',
       [Toast (NameStr (name wi) " unpinned from desktop!") "success"])
    /\ observe m' = <[index := without_position (snapshot m wi)]> (observe m)
    /\ S (length (desktop_widgets m')) = length (desktop_widgets m)
    /\ consistent m'.
Proof.
  intros Hc Hwi Hp.
  destruct (pinned_lookup m wi Hp) as (r & dw & Hd & Hdw & Hpd).
  pose proof (entry_refs_lookup m index wi Hwi) as Hi. rewrite Hd in Hi.
  destruct (consistent_unpin _ _ _ Hc index r dw Hi Hdw)
    as (l & Hl & Hlen & _ & _).
  pose proof (unpin_selected_widget_result index r m wi dw l Hwi Hd Hdw Hpd Hl)
    as E.
  eexists. split; [exact E |]. split; [| split; [exact Hlen |]].
  - unfold observe. cbn [active_widgets]. apply list_eq. intros j.
    rewrite list_lookup_fmap.
    destruct (decide (index = j)) as [<- | Hne].
    + rewrite list_lookup_alter_eq, Hwi.
      rewrite list_lookup_insert_eq
        by (rewrite length_map; exact (lookup_lt_Some _ _ _ Hwi)).
      reflexivity.
    + rewrite list_lookup_alter_ne, list_lookup_insert_ne by exact Hne.
      rewrite list_lookup_fmap.
      destruct (active_widgets m !! j) as [wj |] eqn:Hwj; [| reflexivity].
      cbn. f_equal. apply snapshot_insert_ne. intros Hj.
      apply Hne. exact (consistent_entries_distinct m index j r wi wj
                          Hc Hwi Hwj Hd Hj).
  - pose proof (unpin_selected_widget_consistent (Some index) m Hc) as Hc'.
    rewrite E in Hc'. exact Hc'.
Qed.

Lemma run_consistent (cs : list command) (m : WidgetManager) :
  consistent m -> consistent (run cs m).
Proof.
  revert m. induction cs as [| c cs IH]; intros m Hc; [exact Hc |].
  apply IH, run_command_consistent, Hc.
Qed.

Lemma consistent_empty : consistent empty.
Proof. apply (consistent_clear []). constructor. Qed.

Lemma unpin_pinned_widget_witness :
  let m := run [Create "Clock"; Create "Timer"] empty in
  exists m',
    state_of (unpin_selected_widget (Some 0%nat) m) = m'
    /\ pinned_positions m' = [(JInt 130, JInt 130)]
    /\ desktop_widgets m' = [1%nat].
Proof.
  intros m.
  destruct (unpin_pinned_widget m 0%nat
              (Info "Clock" (BaseWidget_init ClockWidget JNull)
                    (JStr "Clock #1") (Some 0%nat)))
    as (m' & E & Hobs & _ & _).
  - apply run_consistent, consistent_empty.
  - reflexivity.
  - reflexivity.
  - exists m'. rewrite E. split; [reflexivity |].
    unfold pinned_positions. rewrite Hobs.
    injection E as <-. split; reflexivity.
Defined.

(** X9. Removing a widget, in a state where the desktop list and the
    entries agree: the command returns with its success toast and the
    widgets observed afterwards are the others, in their order and exactly
    as before; the agreement is kept. *)
Theorem remove_selected_widget (m : WidgetManager) (index : nat)
  (wi : widget_info) :
  consistent m ->
  active_widgets m !! index = Some wi ->
  exists m',
    remove_widget (Some index) m
    = (Ret tt, m', [Toast (Str "Widget removed successfully!") "success"])
    /\ observe m' = delete index (observe m)
    /\ consistent m'.
Proof.
  intros Hc Hwi.
  pose proof (remove_widget_consistent (Some index) m Hc) as Hc'.
  pose proof (entry_refs_lookup m index wi Hwi) as Hi.
  destruct (pinned m wi) eqn:Hp.
  - destruct (pinned_lookup m wi Hp) as (r & dw & Hd & Hdw & Hpd).
    rewrite Hd in Hi.
    destruct (consistent_unpin _ _ _ Hc index r dw Hi Hdw)
      as (l & Hl & _ & _ & _).
    assert (r ∈ desktop_widgets m) as Hin.
    { destruct Hc as (_ & Hmem & _). apply Hmem.
      exact (list_elem_of_lookup_2 _ _ _ Hi). }
    pose proof (remove_widget_pinned index r m wi dw l Hwi Hd Hdw Hpd Hin Hl)
      as E.
    rewrite E in Hc'. eexists. split; [exact E |]. split; [| exact Hc'].
    unfold observe. cbn [active_widgets]. apply list_eq. intros j.
    rewrite list_lookup_fmap, !list_lookup_delete, list_lookup_fmap.
    set (j' := if decide (j < index)%nat then j else S j).
    assert (j' <> index) as Hne by (unfold j'; destruct (decide _); lia).
    destruct (active_widgets m !! j') as [wj |] eqn:Hwj; [| reflexivity].
    cbn. f_equal. apply snapshot_insert_ne. intros Hj.
    apply Hne. symmetry.
    exact (consistent_entries_distinct m index j' r wi wj Hc Hwi Hwj Hd Hj).
  - pose proof (remove_widget_unpinned index m wi Hwi Hp) as E.
    rewrite E in Hc'. eexists. split; [exact E |]. split; [| exact Hc'].
    unfold observe. cbn [active_widgets]. rewrite list_fmap_delete.
    reflexivity.
Qed.

Lemma remove_selected_widget_witness :
  let m := run [Create "Clock"; Create "Timer"; Create "Weather"] empty in
  exists m',
    state_of (remove_widget (Some 1%nat) m) = m'
    /\ map saved_type (observe m') = ["Clock"; "Weather"]
    /\ pinned_positions m' = [(JInt 100, JInt 100); (JInt 160, JInt 160)].
Proof.
  intros m.
  destruct (remove_selected_widget m 1%nat
              (Info "Timer" (BaseWidget_init TimerWidget JNull)
                    (JStr "Timer #2") (Some 1%nat)))
    as (m' & E & Hobs & _).
  - apply run_consistent, consistent_empty.
  - reflexivity.
  - exists m'. rewrite E. split; [reflexivity |].
    unfold pinned_positions. rewrite Hobs. split; reflexivity.
Defined.

Lemma observe_heap_app_consistent (m : WidgetManager) (aw : list widget_info)
  (dws : list nat) (h : list DesktopWidget) :
  consistent m ->
  snapshot (Mgr aw dws (heap m ++ h)) <$> active_widgets m = observe m.
Proof.
  intros Hc. unfold observe. apply list_eq. intros j.
  rewrite !list_lookup_fmap.
  destruct (active_widgets m !! j) as [wj |] eqn:Hwj; [| reflexivity].
  cbn. f_equal. apply snapshot_heap_app.
  exact (consistent_entry_valid m j wj Hc Hwj).
Qed.

(** What [pin_selected_widget] does to an entry that is not pinned and
    whose window can be built. *)
Lemma pin_selected_widget_result (index : nat) (m : WidgetManager)
  (wi : widget_info) :
  active_widgets m !! index = Some wi ->
  pinned m wi = false ->
  can_pin (instance wi) = true ->
  let r := length (heap m) in
  let n := length (desktop_widgets m) in
  pin_selected_widget (Some index) m
  = (Ret tt,
     Mgr (alter (fun wi => Info (type wi) (instance wi) (name wi) (Some r))
                index (active_widgets m))
         (desktop_widgets m ++ [r])
         (heap m ++ [Desktop.Build (instance wi) (stagger n) (stagger n)
                                   true true]),
     [Toast (NameStr (name wi) " pinned to desktop!") "success"]).
Proof.
  intros Hwi Hp Hc r n. unfold pin_selected_widget.
  rewrite (bind_ret _ _ _ wi m) by (unfold active_widget; rewrite Hwi; reflexivity).
  rewrite bind_get_state, Hp.
  pose proof (pin_widget_to_desktop_unpinned index m wi Hwi Hp) as Hpin.
  cbv zeta in Hpin. rewrite (pin_to_desktop_init_ok _ _ _ Hc) in Hpin.
  rewrite (bind_ret _ _ _ _ _ Hpin). reflexivity.
Qed.

(** Pinning and unpinning again, for an entry whose window can be built
    in the model: the look-ups in its configuration succeed. *)
Lemma pin_then_unpin_built (m : WidgetManager) (index : nat)
  (wi : widget_info) :
  consistent m ->
  active_widgets m !! index = Some wi ->
  pinned m wi = false ->
  can_pin (instance wi) = true ->
  let n := length (desktop_widgets m) in
  let m1 := state_of (pin_selected_widget (Some index) m) in
  let m2 := state_of (unpin_selected_widget (Some index) m1) in
  observe m1
  = <[index := with_position (stagger n) (stagger n) (snapshot m wi)]>
      (observe m)
  /\ observe m2 = observe m
  /\ desktop_widgets m2 = desktop_widgets m.
Proof.
  intros Hc Hwi Hp Hcan n m1 m2.
  assert (desktop_widget wi = None) as Hnone.
  { rewrite (consistent_pinned m index wi Hc Hwi) in Hp.
    destruct (desktop_widget wi); [discriminate | reflexivity]. }
  assert (index < length (active_widgets m))%nat as Hlt
    by exact (lookup_lt_Some _ _ _ Hwi).
  pose proof (pin_selected_widget_result index m wi Hwi Hp Hcan) as E1.
  cbv zeta in E1. fold n in E1.
  assert (m1 = Mgr (alter (fun wi => Info (type wi) (instance wi) (name wi)
                                          (Some (length (heap m))))
                          index (active_widgets m))
                   (desktop_widgets m ++ [length (heap m)])
                   (heap m ++ [Desktop.Build (instance wi) (stagger n)
                                             (stagger n) true true])) as Hm1.
  { unfold m1. rewrite E1. reflexivity. }
  assert (observe m1
          = <[index := with_position (stagger n) (stagger n) (snapshot m wi)]>
              (observe m)) as Hobs1.
  { rewrite Hm1. unfold observe at 1. cbn [active_widgets].
    apply list_eq. intros j. rewrite list_lookup_fmap.
    destruct (decide (index = j)) as [<- | Hne].
    - rewrite list_lookup_alter_eq, Hwi.
      rewrite list_lookup_insert_eq by (unfold observe; rewrite length_map; exact Hlt).
      cbn. f_equal. unfold snapshot, with_position.
      cbn [desktop_widget heap type name instance saved_type saved_name
           saved_config].
      rewrite lookup_snoc. reflexivity.
    - rewrite list_lookup_alter_ne, list_lookup_insert_ne by exact Hne.
      unfold observe. rewrite list_lookup_fmap.
      destruct (active_widgets m !! j) as [wj |] eqn:Hwj; [| reflexivity].
      cbn. f_equal. apply snapshot_heap_app.
      exact (consistent_entry_valid m j wj Hc Hwj). }
  split; [exact Hobs1 |].
  destruct (consistent_fresh _ _ _ Hc) as [_ Hfresh].
  pose proof (unpin_selected_widget_result index (length (heap m)) m1
                (Info (type wi) (instance wi) (name wi) (Some (length (heap m))))
                (Desktop.Build (instance wi) (stagger n) (stagger n) true true)
                (desktop_widgets m)) as E2.
  rewrite Hm1 in E2. cbn [active_widgets desktop_widgets heap] in E2.
  rewrite list_lookup_alter_eq, Hwi, lookup_snoc, insert_snoc in E2.
  rewrite (list_remove_snoc _ _ Hfresh) in E2.
  specialize (E2 eq_refl eq_refl eq_refl eq_refl eq_refl).
  rewrite list_alter_alter_eq in E2.
  assert (alter (unpinned_entry
                 ∘ (fun wi => Info (type wi) (instance wi) (name wi)
                                   (Some (length (heap m)))))
                index (active_widgets m) = active_widgets m) as Hsame.
  { apply list_eq. intros j. rewrite list_lookup_alter.
    destruct (decide (index = j)) as [<- | _]; [| reflexivity].
    rewrite Hwi. cbn. f_equal. destruct wi. cbn in *. subst. reflexivity. }
  rewrite Hsame in E2.
  assert (m2 = Mgr (active_widgets m) (desktop_widgets m)
                   (heap m ++ [Desktop.unpin_from_desktop
                                 (Desktop.Build (instance wi) (stagger n)
                                                (stagger n) true true)])) as Hm2.
  { unfold m2. rewrite Hm1, E2. reflexivity. }
  rewrite Hm2. split; [| reflexivity].
  unfold observe at 1. cbn [active_widgets].
  apply observe_heap_app_consistent. exact Hc.
Qed.

Lemma can_pin_default_config (w : Widget.instance) :
  config w = get_default_config (class w) -> can_pin w = true.
Proof.
  destruct w as [c cfg]. cbn [config class]. intros ->.
  destruct c; reflexivity.
Qed.

(** X10. A selected widget that is not pinned, in a state where the
    desktop list and the entries agree.  If it has the default
    configuration of its class, pinning it puts it at the staggered
    position for the number of widgets on the desktop, shows the success
    toast and leaves every other widget as observed before, and unpinning
    it again restores the observation and the desktop list of the state
    before the pin.  If a look-up that the window makes in its
    configuration fails, Pin Selected raises, shows no toast, and leaves
    the entries, the desktop list and the observation as they were. *)
Theorem pin_then_unpin (m : WidgetManager) (index : nat) (wi : widget_info) :
  consistent m ->
  active_widgets m !! index = Some wi ->
  pinned m wi = false ->
  (config (instance wi) = get_default_config (class (instance wi)) ->
   let n := length (desktop_widgets m) in
   let m1 := state_of (pin_selected_widget (Some index) m) in
   let m2 := state_of (unpin_selected_widget (Some index) m1) in
   outcome_of (pin_selected_widget (Some index) m) = Ret tt
   /\ toasts_of (pin_selected_widget (Some index) m)
      = [Toast (NameStr (name wi) " pinned to desktop!") "success"]
   /\ observe m1
      = <[index := with_position (stagger n) (stagger n) (snapshot m wi)]>
          (observe m)
   /\ observe m2 = observe m
   /\ desktop_widgets m2 = desktop_widgets m)
  /\ (can_pin (instance wi) = false ->
      exists e h,
        pin_selected_widget (Some index) m
        = (Raise e, Mgr (active_widgets m) (desktop_widgets m) h, [])
        /\ observe (Mgr (active_widgets m) (desktop_widgets m) h)
           = observe m).
Proof.
  intros Hc Hwi Hp. split.
  - intros Hcfg. cbv zeta.
    pose proof (can_pin_default_config _ Hcfg) as Hcan.
    destruct (pin_then_unpin_built m index wi Hc Hwi Hp Hcan)
      as (H1 & H2 & H3).
    rewrite (pin_selected_widget_result index m wi Hwi Hp Hcan) in *.
    repeat split; assumption.
  - intros Hcan. unfold pin_selected_widget.
    rewrite (bind_ret _ _ _ wi m)
      by (unfold active_widget; rewrite Hwi; reflexivity).
    rewrite bind_get_state, Hp.
    pose proof (pin_widget_to_desktop_unpinned index m wi Hwi Hp) as Hpin.
    cbv zeta in Hpin.
    destruct (pin_to_desktop_init_fail (instance wi)
                (stagger (length (desktop_widgets m)))
                (stagger (length (desktop_widgets m))) Hcan) as [e He].
    rewrite He in Hpin. rewrite (bind_raise _ _ _ _ _ _ Hpin).
    eexists. eexists. split; [reflexivity |].
    unfold observe at 1. cbn [active_widgets].
    apply observe_heap_app_consistent. exact Hc.
Qed.

Lemma pin_then_unpin_witness :
  let m := run [Create "Clock"; Create "Timer"; Unpin (Some 0%nat)] empty in
  let m1 := state_of (pin_selected_widget (Some 0%nat) m) in
  let m2 := state_of (unpin_selected_widget (Some 0%nat) m1) in
  pinned_positions m1 = [(JInt 130, JInt 130); (JInt 130, JInt 130)]
  /\ observe m2 = observe m
  /\ desktop_widgets m2 = desktop_widgets m.
Proof.
  intros m m1 m2.
  destruct (pin_then_unpin m 0%nat
              (Info "Clock" (BaseWidget_init ClockWidget JNull)
                    (JStr "Clock #1") None)) as [H _].
  - apply run_consistent, consistent_empty.
  - reflexivity.
  - reflexivity.
  - destruct (H eq_refl) as (_ & _ & H1 & H2 & H3).
    split; [| split; [exact H2 | exact H3]].
    unfold pinned_positions. subst m1. rewrite H1. reflexivity.
Defined.

(** X11. Creating a widget of a known type, in a state where the desktop
    list and the entries agree, adds one widget after the others: it has
    the default configuration of its class, the name made of its type and
    its rank, and is pinned at the staggered position for the number of
    widgets on the desktop; the other widgets are observed as before. *)
Theorem create_widget_observed (m : WidgetManager) (ty : string)
  (c : widget_class) :
  consistent m ->
  lookup_type ty widget_types = Some c ->
  let n := length (desktop_widgets m) in
  let m' := state_of (create_widget ty m) in
  observe m'
  = observe m
    ++ [Saved ty (JStr (ty ++ " #" ++ str_nat (length (active_widgets m) + 1)))
              (get_default_config c) (Some (stagger n, stagger n))]
  /\ toasts_of (create_widget ty m)
     = [Toast (Str (ty ++ " widget created and pinned to desktop!")) "success"]
  /\ consistent m'.
Proof.
  intros Hc Hty n m'. unfold m'.
  pose proof (create_widget_consistent ty m Hc) as Hc'.
  rewrite (create_widget_known ty c m Hty) in *.
  unfold state_of, toasts_of in *. cbn [fst snd] in *.
  split; [| split; [reflexivity | exact Hc']].
  unfold observe at 1. cbn [active_widgets]. rewrite fmap_app.
  rewrite observe_heap_app_consistent by exact Hc. f_equal.
  cbn. unfold snapshot. cbn [desktop_widget heap]. rewrite lookup_snoc.
  reflexivity.
Qed.

Lemma create_widget_observed_witness :
  observe (state_of (create_widget "Weather"
                       (run [Create "Clock"] empty)))
  = [Saved "Clock" (JStr "Clock #1") (get_default_config ClockWidget)
           (Some (JInt 100, JInt 100));
     Saved "Weather" (JStr "Weather #2") (get_default_config WeatherWidget)
           (Some (JInt 130, JInt 130))].
Proof.
  exact (proj1 (create_widget_observed (run [Create "Clock"] empty) "Weather"
                  WeatherWidget
                  (run_consistent [Create "Clock"] empty consistent_empty)
                  eq_refl)).
Defined.

(** X12. A selection that is out of range makes each of the three commands
    raise IndexError before it has changed anything or shown a toast; no
    selection makes each of them show its warning and change nothing. *)
Theorem selection_errors (m : WidgetManager) (index : nat) :
  active_widgets m !! index = None ->
  (pin_selected_widget (Some index) m = (Raise IndexError, m, [])
   /\ unpin_selected_widget (Some index) m = (Raise IndexError, m, [])
   /\ remove_widget (Some index) m = (Raise IndexError, m, []))
  /\ (pin_selected_widget None m
      = (Ret tt, m, [Toast (Str "Please select a widget to pin.") "warning"])
      /\ unpin_selected_widget None m
         = (Ret tt, m,
            [Toast (Str "Please select a widget to unpin.") "warning"])
      /\ remove_widget None m
         = (Ret tt, m,
            [Toast (Str "Please select a widget to remove.") "warning"])).
Proof.
  intros Hwi.
  assert (active_widget index m = (Raise IndexError, m, [])) as E
    by (unfold active_widget; rewrite Hwi; reflexivity).
  split; [| repeat split; reflexivity].
  unfold pin_selected_widget, unpin_selected_widget, remove_widget.
  rewrite !(bind_raise _ _ _ _ _ _ E). auto.
Qed.

Lemma selection_errors_witness :
  let m := run [Create "Clock"] empty in
  remove_widget (Some 1%nat) m = (Raise IndexError, m, [])
  /\ unpin_selected_widget (Some 5%nat) m = (Raise IndexError, m, []).
Proof.
  intros m.
  destruct (selection_errors m 1%nat eq_refl) as [(_ & _ & H1) _].
  destruct (selection_errors m 5%nat eq_refl) as [(_ & H2 & _) _].
  split; assumption.
Defined.

(** *** Loading over an existing layout *)

(** X13. Loading a document that was parsed, whatever it holds and however
    the reading ends, leaves no object of the store before the load on the
    desktop: each is unpinned, and the desktop list holds only objects
    built by the load. *)
Theorem load_unpins_old_widgets (j : json) (m : WidgetManager) :
  consistent m ->
  let m' := state_of (load_config (Some (Document j)) m) in
  (length (heap m) <= length (heap m'))%nat
  /\ (forall r dw, (r < length (heap m))%nat -> heap m' !! r = Some dw ->
        Desktop.is_pinned dw = false)
  /\ Forall (fun r => (length (heap m) <= r)%nat) (desktop_widgets m').
Proof.
  intros Hc m'.
  pose proof (load_config_consistent (Some (Document j)) m Hc) as Hc'.
  fold m' in Hc'.
  assert (exists h h',
             heap m' = h ++ h' /\ length h = length (heap m)
             /\ Forall (fun dw => Desktop.is_pinned dw = false) h)
    as (h & h' & Hh' & Hlen & Hun).
  { destruct (unpin_all_consistent m Hc) as (h & Hh & Hlen & Hun).
    exists h. unfold m'. rewrite (load_config_document j m h Hh).
    destruct (get j "widgets" (JArr [])) as [widgets | e];
      [| exists []; rewrite app_nil_r; auto].
    destruct (iter widgets) as [items | e];
      [| exists []; rewrite app_nil_r; auto].
    destruct (load_widgets_consistent items (Mgr [] [] h)
                (consistent_clear h Hun)) as (_ & aw & h' & _ & Hheap).
    exists h'. split; [| auto].
    destruct (for_each items load_widget (Mgr [] [] h)) as [[[[] | e] m1] t1];
      exact Hheap. }
  assert (forall r dw, (r < length (heap m))%nat -> heap m' !! r = Some dw ->
            Desktop.is_pinned dw = false) as Hold.
  { intros r dw Hr Hl. rewrite Hh', lookup_app_l in Hl by lia.
    exact (Forall_lookup_1 _ _ _ _ Hun Hl). }
  split; [rewrite Hh', length_app; lia |]. split; [exact Hold |].
  apply Forall_forall. intros r Hr.
  destruct Hc' as (_ & Hdw & _ & Hpin & _).
  destruct (Hpin r (proj1 (Hdw r) Hr)) as (dw & Hl & Hp).
  destruct (le_lt_dec (length (heap m)) r) as [Hle | Hlt]; [exact Hle |].
  rewrite (Hold r dw Hlt Hl) in Hp. discriminate.
Qed.

Lemma load_unpins_old_widgets_witness :
  let m := run [Create "Clock"; Create "Timer"] empty in
  let timer := Saved "Timer" (JStr "Timer #1")
                     (get_default_config TimerWidget)
                     (Some (JInt 5, JInt 7)) in
  let m' := state_of (load_config (Some (Document (layout [timer]))) m) in
  (2 <= length (heap m'))%nat
  /\ Forall (fun r => (2 <= r)%nat) (desktop_widgets m').
Proof.
  intros m timer m'.
  destruct (load_unpins_old_widgets (layout [timer]) m
              (run_consistent _ empty consistent_empty)) as (H1 & _ & H3).
  split; [exact H1 | exact H3].
Defined.

(** X14. Loading a document that holds no list of widgets, over a state
    where the desktop list and the entries agree.  The widgets are
    discarded in each case and every object of the store is unpinned.  A
    document that is no object: the failure of its [get] is shown.  An
    object without the key: the load succeeds with no widget.  A value
    under the key that cannot be iterated: the failure is shown. *)
Theorem load_without_widget_list (j : json) (m : WidgetManager) :
  consistent m ->
  exists h,
    length h = length (heap m)
    /\ Forall (fun dw => Desktop.is_pinned dw = false) h
    /\ ((forall items, j <> JObj items) ->
        load_config (Some (Document j)) m
        = (Ret tt, Mgr [] [] h, [load_failed AttributeError]))
    /\ (forall items, j = JObj items -> assoc "widgets" items = None ->
        load_config (Some (Document j)) m
        = (Ret tt, Mgr [] [] h, [load_succeeded]))
    /\ (forall items v e, j = JObj items ->
        assoc "widgets" items = Some v -> iter v = Raise e ->
        load_config (Some (Document j)) m
        = (Ret tt, Mgr [] [] h, [load_failed e])).
Proof.
  intros Hc.
  destruct (unpin_all_consistent m Hc) as (h & Hh & Hlen & Hun).
  exists h. split; [exact Hlen |]. split; [exact Hun |].
  rewrite (load_config_document j m h Hh).
  split; [| split].
  - intros Hno. destruct j; try reflexivity. destruct (Hno items eq_refl).
  - intros items -> Hk. cbn [get]. rewrite Hk. reflexivity.
  - intros items v e -> Hk Hv. cbn [get]. rewrite Hk, Hv. reflexivity.
Qed.

Lemma load_without_widget_list_witness :
  let m := run [Create "Clock"] empty in
  exists h,
    Forall (fun dw => Desktop.is_pinned dw = false) h
    /\ load_config (Some (Document (JObj [("widgets", JInt 3)]))) m
       = (Ret tt, Mgr [] [] h, [load_failed TypeError]).
Proof.
  intros m.
  destruct (load_without_widget_list (JObj [("widgets", JInt 3)]) m
              (run_consistent _ empty consistent_empty))
    as (h & _ & Hun & _ & _ & H3).
  exists h. split; [exact Hun |].
  exact (H3 _ (JInt 3) TypeError eq_refl eq_refl eq_refl).
Defined.

Lemma for_each_app_raise {A} (body : A -> M unit) (l1 l2 : list A) (x : A)
  (m m1 m2 : WidgetManager) (e : exn) (t2 : list toast) :
  for_each l1 body m = (Ret tt, m1, []) ->
  body x m1 = (Raise e, m2, t2) ->
  for_each (l1 ++ x :: l2) body m = (Raise e, m2, t2).
Proof.
  revert m. induction l1 as [| a l1 IH]; intros m H1 H2.
  - cbn in H1. injection H1 as ->. cbn [app for_each].
    rewrite (bind_raise _ _ _ _ _ _ H2). reflexivity.
  - cbn [app for_each] in *. unfold mbind, M_bind in *.
    destruct (body a m) as [[[[] | ea] ma] ta] eqn:Ea; [| discriminate].
    destruct (for_each l1 body ma) as [[o1 m1'] t1'] eqn:E1.
    injection H1 as -> -> Ht.
    apply app_eq_nil in Ht as [-> ->].
    rewrite (IH ma E1 H2). reflexivity.
Qed.

(** X15. A document whose list of widgets holds loadable records, then a
    record whose type cannot be read (it is no object, or has no type),
    then anything: the failure of that record is shown, the widgets of the
    new state are those of the records before it, and no later record is
    read. *)
Theorem load_stops_at_bad_record (ss : list saved) (bad : json)
  (rest : list json) (others : list (string * json)) (e : exn)
  (m : WidgetManager) :
  Forall loadable ss ->
  subscript bad "type" = Raise e ->
  exists m',
    load_config
      (Some (Document (JObj (("widgets",
                              JArr (map widget_config ss ++ bad :: rest))
                             :: others)))) m
    = (Ret tt, m', [load_failed e])
    /\ observe m' = map rebuilt (List.filter recognized ss).
Proof.
  intros Hss Hbad.
  destruct (unpin_all (active_widgets m) m) as [h Hh].
  rewrite (load_config_document _ m h Hh).
  cbn [get assoc String.eqb Ascii.eqb Bool.eqb iter].
  destruct (load_saved_widgets ss (Mgr [] [] h) Hss)
    as (m1 & Hrun & _ & Hobs); [constructor |].
  assert (load_widget bad m1 = (Raise e, m1, [])) as Hb.
  { unfold load_widget. rewrite bind_lift, Hbad. reflexivity. }
  rewrite (for_each_app_raise _ _ rest _ _ _ _ _ _ Hrun Hb).
  exists m1. split; [reflexivity | exact Hobs].
Qed.

Lemma load_stops_at_bad_record_witness :
  let clock := Saved "Clock" (JStr "Clock #1")
                     (get_default_config ClockWidget)
                     (Some (JInt 100, JInt 100)) in
  let timer := Saved "Timer" (JStr "Timer #3")
                     (get_default_config TimerWidget) None in
  exists m',
    load_config
      (Some (Document (JObj [("widgets",
                              JArr [widget_config clock;
                                    JObj [("name", JStr "x")];
                                    widget_config timer])])))
      (run [Create "Weather"] empty)
    = (Ret tt, m', [load_failed (KeyError "type")])
    /\ observe m' = [clock].
Proof.
  intros clock timer.
  apply (load_stops_at_bad_record [clock] (JObj [("name", JStr "x")])
           [widget_config timer] [] (KeyError "type")).
  - repeat constructor.
  - reflexivity.
Defined.

(** What [load_widget] does with a record that is an object of a
    recognized type with a configuration and a name. *)
Lemma load_record_cases (items : list (string * json)) (ty : string)
  (c : widget_class) (cfg nm : json) (m : WidgetManager) :
  assoc "type" items = Some (JStr ty) ->
  lookup_type ty widget_types = Some c ->
  assoc "config" items = Some cfg ->
  assoc "name" items = Some nm ->
  let flag := from_option truthy false (assoc "pinned" items) in
  let x := default (JInt 100) (assoc "desktop_x" items) in
  let y := default (JInt 100) (assoc "desktop_y" items) in
  let w := BaseWidget_init c cfg in
  load_widget (JObj items) m
  = if flag then
      match Desktop.pin_to_desktop (Desktop.init w x y) with
      | (Ret _, dw1) =>
          (Ret tt,
           Mgr (active_widgets m ++ [Info ty w nm (Some (length (heap m)))])
               (desktop_widgets m ++ [length (heap m)]) (heap m ++ [dw1]), [])
      | (Raise e, dw1) =>
          (Raise e,
           Mgr (active_widgets m ++ [Info ty w nm None]) (desktop_widgets m)
               (heap m ++ [dw1]), [])
      end
    else
      (Ret tt,
       Mgr (active_widgets m ++ [Info ty w nm None]) (desktop_widgets m)
           (heap m), []).
Proof.
  intros Hty Hc' Hcfg Hnm flag x y w.
  unfold load_widget.
  rewrite bind_lift. cbn [subscript]. rewrite Hty.
  rewrite bind_lift. cbn [known_type]. rewrite Hc'.
  rewrite bind_lift. cbn [subscript]. rewrite Hcfg.
  rewrite bind_lift. cbn [subscript]. rewrite Hnm.
  rewrite bind_get_state. unfold append_active. rewrite bind_modify.
  rewrite bind_lift. cbn [get].
  assert (truthy (match assoc "pinned" items with
                  | Some v => v
                  | None => JBool false
                  end) = flag) as Hflag.
  { unfold flag. destruct (assoc "pinned" items); reflexivity. }
  assert (match assoc "pinned" items with
          | Some x0 => Ret x0
          | None => Ret (JBool false)
          end
          = Ret (match assoc "pinned" items with
                 | Some v => v
                 | None => JBool false
                 end)) as -> by (destruct (assoc "pinned" items); reflexivity).
  rewrite Hflag. destruct flag; [| reflexivity].
  rewrite bind_lift. cbn [get].
  assert (match assoc "desktop_x" items with
          | Some v => Ret v
          | None => Ret (JInt 100)
          end = Ret x) as ->
    by (unfold x; destruct (assoc "desktop_x" items); reflexivity).
  rewrite bind_lift.
  assert (match assoc "desktop_y" items with
          | Some v => Ret v
          | None => Ret (JInt 100)
          end = Ret y) as ->
    by (unfold y; destruct (assoc "desktop_y" items); reflexivity).
  rewrite bind_alloc. cbn [heap active_widgets desktop_widgets].
  rewrite (bind_call _ _ _ _ (Desktop.init (BaseWidget_init c cfg) x y))
    by apply lookup_snoc.
  cbn [heap active_widgets desktop_widgets]. fold w.
  destruct (Desktop.pin_to_desktop (Desktop.init w x y)) as [[[] | e] dw1].
  - unfold set_desktop_widget, append_desktop. rewrite bind_modify.
    unfold modify. cbn [heap active_widgets desktop_widgets].
    rewrite insert_snoc, alter_snoc. reflexivity.
  - rewrite insert_snoc. reflexivity.
Qed.

(** X16. A record of a recognized type that is an object with a
    configuration and a name, loaded in a state where the desktop list
    and the entries agree.  The widget is added after the others, with the
    configuration of the record, or the default of its class when that is
    empty.  (1) If the value under [pinned] is missing or false in
    Python's sense, it is loaded unpinned, whatever the coordinates.
    (2) If that value is true in Python's sense, the widget has the
    default configuration of its class and the coordinates of the record
    are integers, 100 standing for a missing one, it is loaded pinned at
    those coordinates.  (3) If that value is true and a look-up that the
    window makes in the configuration fails, the record raises: the
    widget stays in the list, not pinned. *)
Theorem load_record_position (items : list (string * json)) (ty : string)
  (c : widget_class) (cfg nm : json) (m : WidgetManager) :
  consistent m ->
  assoc "type" items = Some (JStr ty) ->
  lookup_type ty widget_types = Some c ->
  assoc "config" items = Some cfg ->
  assoc "name" items = Some nm ->
  let flag := from_option truthy false (assoc "pinned" items) in
  let x := default (JInt 100) (assoc "desktop_x" items) in
  let y := default (JInt 100) (assoc "desktop_y" items) in
  let w := BaseWidget_init c cfg in
  (flag = false ->
   outcome_of (load_widget (JObj items) m) = Ret tt
   /\ observe (state_of (load_widget (JObj items) m))
      = observe m ++ [Saved ty nm (config w) None])
  /\ (flag = true ->
      config w = get_default_config c ->
      (exists zx zy : Z, x = JInt zx /\ y = JInt zy) ->
      outcome_of (load_widget (JObj items) m) = Ret tt
      /\ observe (state_of (load_widget (JObj items) m))
         = observe m ++ [Saved ty nm (config w) (Some (x, y))])
  /\ (flag = true ->
      can_pin w = false ->
      (exists e, outcome_of (load_widget (JObj items) m) = Raise e)
      /\ observe (state_of (load_widget (JObj items) m))
         = observe m ++ [Saved ty nm (config w) None]).
Proof.
  intros Hc Hty Hc' Hcfg Hnm flag x y w.
  pose proof (load_record_cases items ty c cfg nm m Hty Hc' Hcfg Hnm) as E.
  cbv zeta in E. fold flag x y w in E.
  assert (forall h,
            observe (Mgr (active_widgets m ++ [Info ty w nm None])
                         (desktop_widgets m) (heap m ++ h))
            = observe m ++ [Saved ty nm (config w) None]) as Hnone.
  { intros h. unfold observe at 1. cbn [active_widgets]. rewrite map_app.
    change map with (@fmap list _) at 1.
    rewrite observe_heap_app_consistent by exact Hc. reflexivity. }
  split; [| split].
  - intros Hf. rewrite Hf in E. rewrite E. unfold outcome_of, state_of.
    cbn [fst snd]. split; [reflexivity |].
    rewrite <- (app_nil_r (heap m)). apply Hnone.
  - intros Hf Hdef _. rewrite Hf in E.
    assert (can_pin w = true) as Hcan.
    { apply can_pin_default_config. rewrite Hdef. reflexivity. }
    rewrite (pin_to_desktop_init_ok _ _ _ Hcan) in E. rewrite E.
    unfold outcome_of, state_of. cbn [fst snd]. split; [reflexivity |].
    unfold observe at 1. cbn [active_widgets]. rewrite map_app.
    change map with (@fmap list _) at 1.
    rewrite observe_heap_app_consistent by exact Hc. f_equal. cbn.
    unfold snapshot. cbn [desktop_widget heap]. rewrite lookup_snoc.
    reflexivity.
  - intros Hf Hcan. rewrite Hf in E.
    destruct (pin_to_desktop_init_fail w x y Hcan) as [e He].
    rewrite He in E. rewrite E. unfold outcome_of, state_of. cbn [fst snd].
    split; [exists e; reflexivity | apply Hnone].
Qed.

Lemma load_record_position_witness :
  observe (state_of (load_widget
                       (JObj [("pinned", JInt 1); ("desktop_y", JInt 40);
                              ("type", JStr "Clock"); ("name", JStr "c");
                              ("config", get_default_config ClockWidget)])
                       (run [Create "Timer"] empty)))
  = observe (run [Create "Timer"] empty)
    ++ [Saved "Clock" (JStr "c") (get_default_config ClockWidget)
              (Some (JInt 100, JInt 40))].
Proof.
  destruct (load_record_position
              [("pinned", JInt 1); ("desktop_y", JInt 40);
               ("type", JStr "Clock"); ("name", JStr "c");
               ("config", get_default_config ClockWidget)]
              "Clock" ClockWidget
              (get_default_config ClockWidget) (JStr "c")
              (run [Create "Timer"] empty)
              (run_consistent _ empty consistent_empty)
              eq_refl eq_refl eq_refl eq_refl) as (_ & H & _).
  destruct (H eq_refl eq_refl) as [_ Hobs].
  - exists 100, 40. split; reflexivity.
  - exact Hobs.
Defined.

(** *** Counting the pinned widgets *)

Lemma NoDup_omap_id (refs : list (option nat)) :
  (forall i j r, refs !! i = Some (Some r) -> refs !! j = Some (Some r) ->
     i = j) ->
  NoDup (omap id refs).
Proof.
  induction refs as [| o refs IH]; intros Hinj; [constructor |].
  assert (NoDup (omap id refs)) as Hrest.
  { apply IH. intros i j r Hi Hj.
    specialize (Hinj (S i) (S j) r Hi Hj). lia. }
  destruct o as [r |]; [| exact Hrest].
  cbn. apply NoDup_cons. split; [| exact Hrest].
  intros Hin. apply list_elem_of_omap in Hin as (o & Ho & Hr).
  cbn in Hr. subst o.
  apply list_elem_of_lookup_1 in Ho as [j Hj].
  specialize (Hinj 0%nat (S j) r eq_refl Hj). discriminate.
Qed.

Lemma consistent_count (refs : list (option nat)) (dws : list nat)
  (h : list DesktopWidget) :
  consistent_with refs dws h -> length (omap id refs) = length dws.
Proof.
  intros (Hnd & Hmem & Hinj & _). apply Permutation_length.
  apply NoDup_Permutation; [apply NoDup_omap_id; exact Hinj | exact Hnd |].
  intros r. rewrite Hmem, list_elem_of_omap. split.
  - intros (o & Ho & Hr). cbn in Hr. subst o. exact Ho.
  - intros Hr. exists (Some r). auto.
Qed.

Lemma pinned_positions_refs (m : WidgetManager) :
  consistent m ->
  length (pinned_positions m) = length (omap id (entry_refs m)).
Proof.
  intros Hc. unfold pinned_positions, observe, entry_refs.
  assert (Forall (fun wi =>
                    pinned m wi
                    = match desktop_widget wi with
                      | Some _ => true
                      | None => false
                      end) (active_widgets m)) as Hall.
  { apply Forall_lookup. intros i wi Hwi.
    exact (consistent_pinned m i wi Hc Hwi). }
  induction Hall as [| wi aw Hwi _ IH]; [reflexivity |].
  cbn [map fmap list_fmap omap list_omap].
  unfold snapshot at 1. unfold pinned in Hwi. cbn [saved_position id].
  destruct (desktop_widget wi) as [r |]; [| exact IH].
  destruct (heap m !! r) as [dw |]; [| discriminate].
  rewrite Hwi. cbn [length]. f_equal. exact IH.
Qed.

(** X21. In a state where the desktop list and the entries agree, the
    desktop list is as long as the number of widgets that are observed
    with a position. *)
Theorem desktop_list_counts_pinned (m : WidgetManager) :
  consistent m ->
  length (desktop_widgets m) = length (pinned_positions m).
Proof.
  intros Hc. rewrite (pinned_positions_refs m Hc).
  symmetry. exact (consistent_count _ _ _ Hc).
Qed.

Lemma desktop_list_counts_pinned_witness :
  let m := run [Create "Clock"; Create "Timer"; Create "Todo";
                Unpin (Some 1%nat)] empty in
  length (desktop_widgets m) = length (pinned_positions m).
Proof.
  intros m. apply desktop_list_counts_pinned.
  apply run_consistent, consistent_empty.
Defined.

(** *** The customisation dialog and the desktop list *)

Lemma repin_desktop_widget_result (index r : nat) (m : WidgetManager)
  (wi : widget_info) (dw : DesktopWidget) :
  active_widgets m !! index = Some wi ->
  desktop_widget wi = Some r ->
  heap m !! r = Some dw ->
  Desktop.is_pinned dw = true ->
  let new := Desktop.pin_to_desktop
               (Desktop.init (instance wi) (Desktop.x dw) (Desktop.y dw)) in
  repin_desktop_widget index m
  = (fst new,
     Mgr (alter (fun wi => Info (type wi) (instance wi) (name wi)
                             (Some (length (heap m))))
                index (active_widgets m))
         (desktop_widgets m)
         (<[r := Desktop.unpin_from_desktop dw]> (heap m) ++ [snd new]),
     []).
Proof.
  intros Hwi Hd Hdw Hp new. unfold repin_desktop_widget.
  rewrite (bind_ret _ _ _ wi m) by (unfold active_widget; rewrite Hwi; reflexivity).
  rewrite bind_get_state, Hd.
  assert (pinned m wi = true) as -> by (unfold pinned; rewrite Hd, Hdw; exact Hp).
  rewrite Hdw. rewrite (bind_call _ _ _ _ dw Hdw).
  rewrite bind_alloc. cbn [heap active_widgets desktop_widgets].
  unfold set_desktop_widget. rewrite bind_modify.
  unfold call. cbn [heap active_widgets desktop_widgets].
  set (h1 := <[r := Desktop.unpin_from_desktop dw]> (heap m)).
  assert (length h1 = length (heap m)) as Hl by apply length_insert.
  rewrite Hl, <- Hl, lookup_snoc. fold new.
  destruct new as [o dw1]. cbn [fst snd].
  rewrite insert_snoc, Hl. reflexivity.
Qed.

Lemma snapshot_agree (m : WidgetManager) (aw : list widget_info)
  (dws : list nat) (h' : list DesktopWidget) (wi : widget_info) :
  (forall r, desktop_widget wi = Some r -> h' !! r = heap m !! r) ->
  snapshot (Mgr aw dws h') wi = snapshot m wi.
Proof.
  intros H. unfold snapshot. cbn [heap].
  destruct (desktop_widget wi) as [r |]; [| reflexivity].
  rewrite (H r eq_refl). reflexivity.
Qed.

(** X28. The customisation dialog replaces the desktop widget of a pinned
    entry without touching the desktop list.  In a state where the desktop
    list and the entries agree, after the block that re-pins a pinned
    widget, however it ends: the desktop list is as before, the entry
    refers to a new object that is not in the desktop list, and the list
    and the entries no longer agree.  If the widget has the default
    configuration of its class, the block returns without a toast, every
    widget is observed as before and the new object is pinned; Unpin
    Selected on that widget then unpins it and raises ValueError where it
    removes the object from the desktop list, without a toast, and the
    widget is observed without a position. *)
Theorem repin_leaves_desktop_list (m : WidgetManager) (index : nat)
  (wi : widget_info) :
  consistent m ->
  active_widgets m !! index = Some wi ->
  pinned m wi = true ->
  let m' := state_of (repin_desktop_widget index m) in
  toasts_of (repin_desktop_widget index m) = []
  /\ desktop_widgets m' = desktop_widgets m
  /\ (exists wi',
        active_widgets m' !! index = Some wi'
        /\ desktop_widget wi' = Some (length (heap m))
        /\ (length (heap m) ∉ desktop_widgets m')
        /\ (config (instance wi) = get_default_config (class (instance wi)) ->
            pinned m' wi' = true))
  /\ ~ consistent m'
  /\ (config (instance wi) = get_default_config (class (instance wi)) ->
      outcome_of (repin_desktop_widget index m) = Ret tt
      /\ observe m' = observe m
      /\ exists m'',
           unpin_selected_widget (Some index) m' = (Raise ValueError, m'', [])
           /\ observe m''
              = <[index := without_position (snapshot m wi)]> (observe m)).
Proof.
  intros Hc Hwi Hp.
  destruct (pinned_lookup m wi Hp) as (r & dw & Hd & Hdw & Hpd).
  pose proof (repin_desktop_widget_result index r m wi dw Hwi Hd Hdw Hpd) as E.
  cbv zeta in E. rewrite E. unfold state_of, toasts_of, outcome_of.
  cbn [fst snd]. clear E.
  destruct (consistent_fresh _ _ _ Hc) as [_ Hfresh].
  set (h1 := <[r := Desktop.unpin_from_desktop dw]> (heap m)).
  set (wi' := Info (type wi) (instance wi) (name wi)
                   (Some (length (heap m)))).
  assert (length h1 = length (heap m)) as Hl by apply length_insert.
  assert (forall new, (h1 ++ [new]) !! length (heap m) = Some new) as Hnew.
  { intros new. rewrite <- Hl. apply lookup_snoc. }
  assert (forall j wj r', j <> index -> active_widgets m !! j = Some wj ->
            desktop_widget wj = Some r' ->
            (r' < length (heap m))%nat /\ r' <> r) as Hother.
  { intros j wj r' Hj Hwj Hr'. split.
    - exact (consistent_entry_valid m j wj Hc Hwj r' Hr').
    - intros ->. apply Hj.
      exact (consistent_entries_distinct m j index r wj wi Hc Hwj Hwi Hr' Hd). }
  assert (alter (fun wi0 => Info (type wi0) (instance wi0) (name wi0)
                              (Some (length (heap m))))
                index (active_widgets m) !! index = Some wi') as Hentry.
  { rewrite list_lookup_alter_eq, Hwi. reflexivity. }
  cbn [active_widgets desktop_widgets heap].
  split; [reflexivity |]. split; [reflexivity |]. split; [| split].
  - exists wi'. split; [exact Hentry |]. split; [reflexivity |].
    split; [exact Hfresh |]. intros Hdef.
    rewrite (pin_to_desktop_init_ok _ _ _ (can_pin_default_config _ Hdef)).
    unfold pinned. cbn [desktop_widget wi' heap snd]. rewrite Hnew.
    reflexivity.
  - intros (_ & Hmem & _). apply Hfresh.
    cbn [desktop_widgets] in Hmem. apply Hmem.
    apply (list_elem_of_lookup_2 _ index). unfold entry_refs.
    cbn [active_widgets]. rewrite list_lookup_fmap, Hentry. reflexivity.
  - intros Hdef.
    rewrite (pin_to_desktop_init_ok _ _ _ (can_pin_default_config _ Hdef)).
    cbn [fst snd].
    set (new := Desktop.Build (instance wi) (Desktop.x dw) (Desktop.y dw)
                              true true).
    split; [reflexivity |]. split.
    + unfold observe. cbn [active_widgets]. apply list_eq. intros j.
      rewrite !list_lookup_fmap.
      destruct (decide (j = index)) as [-> | Hne].
      * rewrite Hentry, Hwi. cbn. f_equal. unfold snapshot.
        cbn [heap desktop_widget type name instance wi'].
        rewrite Hnew, Hd, Hdw, Hpd. reflexivity.
      * rewrite list_lookup_alter_ne by congruence.
        destruct (active_widgets m !! j) as [wj |] eqn:Hwj; [| reflexivity].
        cbn. f_equal. apply snapshot_agree. intros r' Hr'.
        destruct (Hother j wj r' Hne Hwj Hr') as [Hlt Hrr].
        rewrite lookup_app_l by (rewrite Hl; exact Hlt).
        unfold h1. apply list_lookup_insert_ne. congruence.
    + eexists. split.
      * unfold unpin_selected_widget.
        erewrite bind_ret;
          [| unfold active_widget; cbn [active_widgets]; rewrite Hentry;
             reflexivity].
        rewrite bind_get_state. cbn [desktop_widget wi'].
        assert (pinned (Mgr (alter (fun wi0 => Info (type wi0) (instance wi0)
                                                 (name wi0)
                                                 (Some (length (heap m))))
                                   index (active_widgets m))
                            (desktop_widgets m) (h1 ++ [new])) wi' = true)
          as ->.
        { unfold pinned. cbn [desktop_widget wi' heap]. rewrite Hnew.
          reflexivity. }
        rewrite (bind_call _ _ _ _ new) by apply Hnew.
        erewrite bind_raise; [reflexivity |].
        unfold remove_desktop. cbn [desktop_widgets].
        rewrite (list_remove_absent _ _ Hfresh). reflexivity.
      * unfold observe. cbn [active_widgets]. apply list_eq. intros j.
        rewrite list_lookup_fmap.
        destruct (decide (j = index)) as [-> | Hne].
        -- rewrite Hentry.
           rewrite list_lookup_insert_eq
             by (rewrite length_map; exact (lookup_lt_Some _ _ _ Hwi)).
           cbn. f_equal. unfold snapshot, without_position.
           cbn [heap desktop_widget type name instance wi' saved_type
                saved_name saved_config].
           rewrite <- Hl, insert_snoc, lookup_snoc. reflexivity.
        -- rewrite list_lookup_alter_ne, list_lookup_insert_ne by congruence.
           rewrite list_lookup_fmap.
           destruct (active_widgets m !! j) as [wj |] eqn:Hwj; [| reflexivity].
           cbn. f_equal. apply snapshot_agree. intros r' Hr'.
           destruct (Hother j wj r' Hne Hwj Hr') as [Hlt Hrr].
           rewrite list_lookup_insert_ne by lia.
           rewrite lookup_app_l by (rewrite Hl; exact Hlt).
           unfold h1. apply list_lookup_insert_ne. congruence.
Qed.

Lemma repin_leaves_desktop_list_witness :
  let m := run [Create "Clock"; Create "Timer"] empty in
  let m' := state_of (repin_desktop_widget 0%nat m) in
  desktop_widgets m' = [0%nat; 1%nat]
  /\ entry_refs m' = [Some 2%nat; Some 1%nat]
  /\ ~ consistent m'
  /\ outcome_of (unpin_selected_widget (Some 0%nat) m') = Raise ValueError.
Proof.
  intros m m'.
  destruct (repin_leaves_desktop_list m 0%nat
              (Info "Clock" (BaseWidget_init ClockWidget JNull)
                    (JStr "Clock #1") (Some 0%nat)))
    as (_ & Hd & _ & Hn & Hdef).
  - apply run_consistent, consistent_empty.
  - reflexivity.
  - reflexivity.
  - destruct (Hdef eq_refl) as (_ & _ & m'' & Eu & _).
    split; [exact Hd |]. split; [reflexivity |]. split; [exact Hn |].
    fold m' in Eu. rewrite Eu. reflexivity.
Defined.

End ManagerMore.

(** ** More on the preview *)

Module PreviewMore.

Import Manager Preview PreviewPanel.

(** *** Moving a desktop widget *)

Lemma same_objects_refl (h : list DesktopWidget) : same_objects h h.
Proof.
  split; [reflexivity |]. intros r dw dw' H1 H2.
  rewrite H1 in H2. injection H2 as <-. auto.
Qed.

Lemma same_objects_trans (h1 h2 h3 : list DesktopWidget) :
  same_objects h1 h2 -> same_objects h2 h3 -> same_objects h1 h3.
Proof.
  intros [Hl12 H12] [Hl23 H23]. split; [congruence |].
  intros r dw1 dw3 E1 E3.
  destruct (lookup_lt_is_Some_2 h2 r) as [dw2 E2].
  { rewrite Hl12. exact (lookup_lt_Some _ _ _ E1). }
  destruct (H12 r dw1 dw2 E1 E2) as (? & ? & ?).
  destruct (H23 r dw2 dw3 E2 E3) as (? & ? & ?).
  repeat split; congruence.
Qed.

Lemma moved_refl (m : WidgetManager) : moved m m.
Proof.
  split; [reflexivity |]. split; [reflexivity |]. apply same_objects_refl.
Qed.

Lemma moved_trans (m1 m2 m3 : WidgetManager) :
  moved m1 m2 -> moved m2 m3 -> moved m1 m3.
Proof.
  intros (Ha & Hd & Hh) (Ha' & Hd' & Hh').
  split; [congruence |]. split; [congruence |].
  exact (same_objects_trans _ _ _ Hh Hh').
Qed.

Lemma set_position_moved (r : nat) (new_x new_y : Z) (m : WidgetManager) :
  moved m (set_position r new_x new_y m).
Proof.
  split; [reflexivity |]. split; [reflexivity |].
  unfold set_position. cbn [heap]. split; [apply length_alter |].
  intros r' dw dw' Hl Hl'. rewrite list_lookup_alter in Hl'.
  destruct (decide (r = r')) as [<- | _]; rewrite Hl in Hl'.
  - injection Hl' as <-. auto.
  - injection Hl' as <-. auto.
Qed.

Lemma set_position_other (r r' : nat) (new_x new_y : Z) (m : WidgetManager) :
  r <> r' -> heap (set_position r new_x new_y m) !! r' = heap m !! r'.
Proof. intros Hne. apply list_lookup_alter_ne. exact Hne. Qed.


Lemma moved_pinned (m m' : WidgetManager) (wi : Manager.widget_info) :
  moved m m' -> pinned m' wi = pinned m wi.
Proof.
  intros (_ & _ & Hlen & Hobj). unfold pinned.
  destruct (desktop_widget wi) as [r |]; [| reflexivity].
  destruct (heap m !! r) as [dw |] eqn:E.
  - destruct (lookup_lt_is_Some_2 (heap m') r) as [dw' E'].
    { rewrite Hlen. exact (lookup_lt_Some _ _ _ E). }
    rewrite E'. apply (Hobj r dw dw' E E').
  - rewrite (proj2 (lookup_ge_None _ _)); [reflexivity |].
    rewrite Hlen. apply lookup_ge_None. exact E.
Qed.

Lemma moved_consistent (m m' : WidgetManager) :
  moved m m' -> consistent m -> consistent m'.
Proof.
  intros (Ha & Hd & Hlen & Hobj) Hc. unfold consistent, entry_refs.
  rewrite Ha, Hd. apply (ManagerMore.consistent_flags _ _ _ Hc).
  intros r. destruct (heap m !! r) as [dw |] eqn:E.
  - destruct (lookup_lt_is_Some_2 (heap m') r) as [dw' E'].
    { rewrite Hlen. exact (lookup_lt_Some _ _ _ E). }
    rewrite E'. cbn. destruct (Hobj r dw dw' E E') as (_ & -> & ->).
    reflexivity.
  - rewrite (proj2 (lookup_ge_None _ _)); [reflexivity |].
    rewrite Hlen. apply lookup_ge_None. exact E.
Qed.

Lemma moved_well_formed (m m' : WidgetManager) :
  moved m m' -> well_formed m -> well_formed m'.
Proof.
  intros (Ha & _ & Hlen & Hobj) Hwf. destruct m' as [aw' dws' h'].
  cbn [active_widgets heap] in *. subst aw'.
  apply ManagerProofs.well_formed_after; [| exact Hwf].
  split; [lia |]. intros r dw' Hr Hl Hp.
  destruct (lookup_lt_is_Some_2 (heap m) r Hr) as [dw Hdw].
  exists dw. split; [exact Hdw |].
  destruct (Hobj r dw dw' Hdw Hl) as (_ & _ & <-). exact Hp.
Qed.

(** What the write-back of a drag changes: nothing but the position of
    the entry's object, and only if it is pinned. *)
Lemma write_back_moved (wi : Manager.widget_info) (rx ry : float)
  (m : WidgetManager) :
  moved m (snd (write_back wi rx ry m))
  /\ forall r dw dw',
       heap m !! r = Some dw ->
       heap (snd (write_back wi rx ry m)) !! r = Some dw' ->
       ~ same_position dw dw' ->
       desktop_widget wi = Some r /\ Desktop.is_pinned dw = true.
Proof.
  assert (forall r dw dw', heap m !! r = Some dw -> heap m !! r = Some dw' ->
            ~ same_position dw dw' ->
            desktop_widget wi = Some r /\ Desktop.is_pinned dw = true) as Hsame.
  { intros r dw dw' H1 H2 Hn. rewrite H1 in H2. injection H2 as <-.
    destruct Hn. split; reflexivity. }
  unfold write_back.
  destruct (desktop_widget wi) as [r0 |] eqn:Hr;
    [| split; [apply moved_refl | exact Hsame]].
  destruct (pinned m wi) eqn:Hp; [| split; [apply moved_refl | exact Hsame]].
  destruct (int_of_float rx) as [new_x |];
    [| split; [apply moved_refl | exact Hsame]].
  destruct (int_of_float ry) as [new_y |];
    [| split; [apply moved_refl | exact Hsame]].
  cbn [snd]. split; [apply set_position_moved |].
  intros r dw dw' Hl Hl' Hn.
  destruct (decide (r0 = r)) as [<- | Hne].
  - split; [reflexivity |]. unfold pinned in Hp. rewrite Hr, Hl in Hp.
    exact Hp.
  - rewrite set_position_other in Hl' by exact Hne.
    rewrite Hl in Hl'. injection Hl' as <-. destruct Hn. split; reflexivity.
Qed.

(** What one pointer-move event changes, for any preview and manager of
    the model. *)
Lemma on_preview_drag_frame (event_x event_y : Z) (p : preview)
  (m : WidgetManager) :
  let s' := snd (on_preview_drag event_x event_y (p, m)) in
  moved m (snd s')
  /\ (forall r dw dw',
        heap m !! r = Some dw -> heap (snd s') !! r = Some dw' ->
        ~ same_position dw dw' ->
        exists i, dragging_widget p = Some i /\ shown_at p m i r)
  /\ scale_x (fst s') = scale_x p
  /\ scale_y (fst s') = scale_y p
  /\ dragging_widget (fst s') = dragging_widget p
  /\ length (preview_widget_items (fst s')) = length (preview_widget_items p)
  /\ (forall j, dragging_widget p <> Some j ->
        preview_widget_items (fst s') !! j = preview_widget_items p !! j)
  /\ (widget_info <$> preview_widget_items (fst s')
      = widget_info <$> preview_widget_items p).
Proof.
  cbv zeta.
  assert (forall r dw dw', heap m !! r = Some dw -> heap m !! r = Some dw' ->
            ~ same_position dw dw' ->
            exists i, dragging_widget p = Some i /\ shown_at p m i r) as Hsame.
  { intros r dw dw' H1 H2 Hn. rewrite H1 in H2. injection H2 as <-.
    destruct Hn. split; reflexivity. }
  assert (forall i it it',
            preview_widget_items p !! i = Some it ->
            widget_info it' = widget_info it ->
            widget_info <$> <[i := it']> (preview_widget_items p)
            = widget_info <$> preview_widget_items p) as Hkeys.
  { intros i it it' Hit Hw. rewrite list_fmap_insert, Hw.
    apply list_insert_id. rewrite list_lookup_fmap, Hit. reflexivity. }
  unfold on_preview_drag.
  destruct (dragging_widget p) as [i |] eqn:Hd;
    [| cbn [fst snd]; rewrite ?Hd;
       split; [apply moved_refl |]; split; [exact Hsame |];
       repeat split; reflexivity].
  destruct (preview_widget_items p !! i) as [it |] eqn:Hit;
    [| cbn [fst snd]; rewrite ?Hd;
       split; [apply moved_refl |]; split; [exact Hsame |];
       repeat split; reflexivity].
  cbn [real_x real_y canvas_x canvas_y widget_info].
  assert (forall j, Some i <> Some j -> forall it',
            <[i := it']> (preview_widget_items p) !! j
            = preview_widget_items p !! j) as Hother.
  { intros j Hne it'. apply list_lookup_insert_ne. congruence. }
  destruct (accumulate (real_x it) _ _) as [rx |];
    [| cbn [fst snd set_item scale_x scale_y dragging_widget
            preview_widget_items];
       split; [apply moved_refl |]; split; [exact Hsame |];
       repeat split; try reflexivity; try assumption;
       try apply length_insert;
       try (intros j Hj; apply Hother; exact Hj);
       try (eapply Hkeys; [exact Hit | reflexivity])].
  destruct (accumulate (real_y it) _ _) as [ry |];
    [| cbn [fst snd set_item scale_x scale_y dragging_widget
            preview_widget_items];
       split; [apply moved_refl |]; split; [exact Hsame |];
       repeat split; try reflexivity; try assumption;
       try apply length_insert;
       try (intros j Hj; apply Hother; exact Hj);
       try (eapply Hkeys; [exact Hit | reflexivity])].
  destruct (active_widgets m !! widget_info it) as [wi |] eqn:Hwi;
    [| cbn [fst snd set_item scale_x scale_y dragging_widget
            preview_widget_items];
       split; [apply moved_refl |]; split; [exact Hsame |];
       repeat split; try reflexivity; try assumption;
       try apply length_insert;
       try (intros j Hj; apply Hother; exact Hj);
       try (eapply Hkeys; [exact Hit | reflexivity])].
  destruct (write_back_moved wi rx ry m) as [Hmv Hch].
  assert (forall r dw dw',
            heap m !! r = Some dw ->
            heap (snd (write_back wi rx ry m)) !! r = Some dw' ->
            ~ same_position dw dw' ->
            exists i0, Some i = Some i0 /\ shown_at p m i0 r) as Hch'.
  { intros r dw dw' Hl Hl' Hn. destruct (Hch r dw dw' Hl Hl' Hn) as [Hr Hp].
    exists i. split; [reflexivity |]. exists it, wi, dw. auto. }
  destruct (write_back wi rx ry m) as [[[] | e] m'];
    cbn [fst snd set_item scale_x scale_y dragging_widget
         preview_widget_items] in *;
    (split; [exact Hmv |]); (split; [exact Hch' |]);
    repeat split; try reflexivity; try assumption;
    try apply length_insert;
    try (intros j Hj; apply Hother; exact Hj);
    try (eapply Hkeys; [exact Hit | reflexivity]).
Qed.



Lemma on_preview_drag_moved (event_x event_y : Z) (p : preview)
  (m : WidgetManager) :
  moved m (snd (snd (on_preview_drag event_x event_y (p, m)))).
Proof.
  unfold on_preview_drag.
  destruct (dragging_widget p) as [i |]; [| apply moved_refl].
  destruct (preview_widget_items p !! i) as [it |]; [| apply moved_refl].
  cbn [real_x real_y canvas_x canvas_y widget_info].
  destruct (accumulate (real_x it) _ _) as [rx |]; [| apply moved_refl].
  destruct (accumulate (real_y it) _ _) as [ry |]; [| apply moved_refl].
  destruct (active_widgets m !! widget_info it) as [wi |]; [| apply moved_refl].
  destruct (write_back_moved wi rx ry m) as [Hmv _].
  destruct (write_back wi rx ry m) as [[[] | e] m']; exact Hmv.
Qed.

(** X18. Pointer moves are handled only while an entry is grabbed: after
    the button is released, any sequence of pointer-move events returns
    and leaves the preview and the manager as they are; a click that hits
    no entry grabs nothing. *)
Theorem drag_needs_grab (events : list (Z * Z)) (p : preview)
  (m : WidgetManager) (event_x event_y : Z) :
  drag_all events (on_preview_release p, m)
  = (Ret tt, (on_preview_release p, m))
  /\ drag_all events
       (on_preview_click None event_x event_y (on_preview_release p), m)
     = (Ret tt, (on_preview_release p, m))
  /\ on_preview_release (on_preview_release p) = on_preview_release p.
Proof.
  assert (drag_all events (on_preview_release p, m)
          = (Ret tt, (on_preview_release p, m))) as H.
  { induction events as [| [ex ey] events IH]; [reflexivity |].
    cbn [drag_all]. unfold on_preview_drag at 1.
    cbn [on_preview_release dragging_widget]. exact IH. }
  split; [exact H |]. split; [exact H | reflexivity].
Qed.

Lemma to_float_raises (v : json) (e : exn) :
  to_float v = Raise e -> e = TypeError \/ e = OverflowError.
Proof.
  destruct v as [| b | z | f | s | items | items]; cbn [to_float];
    try (intros [= <-]; auto; fail); try discriminate.
  unfold float_of_int. destruct (PrimFloat.is_infinity _);
    [intros [= <-]; auto | discriminate].
Qed.

Lemma int_of_float_raises (f : float) (e : exn) :
  int_of_float f = Raise e -> e = OverflowError \/ e = ValueError.
Proof.
  unfold int_of_float. destruct (Prim2SF f); intros [= <-]; auto.
Qed.

Lemma accumulate_raises (v : json) (d : Z) (scale : float) (e : exn) :
  PrimFloat.eqb scale 0 = false ->
  accumulate v d scale = Raise e -> e <> ZeroDivisionError.
Proof.
  intros Hs. unfold accumulate, truediv. rewrite Hs.
  destruct (to_float v) as [f | e'] eqn:E; [discriminate |].
  intros [= <-]. destruct (to_float_raises v e' E) as [-> | ->]; discriminate.
Qed.

Lemma write_back_raises (wi : Manager.widget_info) (rx ry : float)
  (m : WidgetManager) (e : exn) :
  fst (write_back wi rx ry m) = Raise e -> e <> ZeroDivisionError.
Proof.
  unfold write_back.
  destruct (desktop_widget wi); [| discriminate].
  destruct (pinned m wi); [| discriminate].
  destruct (int_of_float rx) as [x |e1] eqn:E1.
  - destruct (int_of_float ry) as [y | e2] eqn:E2; [discriminate |].
    intros [= <-].
    destruct (int_of_float_raises ry e2 E2) as [-> | ->]; discriminate.
  - intros [= <-].
    destruct (int_of_float_raises rx e1 E1) as [-> | ->]; discriminate.
Qed.

Lemma on_preview_drag_divides (event_x event_y : Z) (p : preview)
  (m : WidgetManager) :
  PrimFloat.eqb (scale_x p) 0 = false ->
  PrimFloat.eqb (scale_y p) 0 = false ->
  fst (on_preview_drag event_x event_y (p, m)) <> Raise ZeroDivisionError.
Proof.
  intros Hsx Hsy. unfold on_preview_drag.
  destruct (dragging_widget p) as [i |]; [| discriminate].
  destruct (preview_widget_items p !! i) as [it |]; [| discriminate].
  cbn [real_x real_y canvas_x canvas_y widget_info].
  destruct (accumulate (real_x it) _ _) as [rx | e] eqn:Ex.
  - destruct (accumulate (real_y it) _ _) as [ry | e] eqn:Ey.
    + destruct (active_widgets m !! widget_info it) as [wi |];
        [| discriminate].
      pose proof (write_back_raises wi rx ry m) as Hw.
      destruct (write_back wi rx ry m) as [[[] | e] m']; [discriminate |].
      cbn [fst] in *. intros [= ->]. exact (Hw _ eq_refl eq_refl).
    + cbn [fst]. intros [= ->].
      exact (accumulate_raises _ _ _ _ Hsy Ey eq_refl).
  - cbn [fst]. intros [= ->].
    exact (accumulate_raises _ _ _ _ Hsx Ex eq_refl).
Qed.

(** A scale that compares equal to zero gives the grid a step of zero. *)
Lemma scaled_by_zero (n : Z) (scale : float) (step : Z) :
  PrimFloat.eqb scale 0 = true ->
  scaled (JInt n) scale = Ret step -> step = 0.
Proof.
  intros Hz. unfold scaled. cbn [to_float]. unfold float_of_int.
  destruct (PrimFloat.is_infinity (float_of_Z n)) eqn:Hinf;
    [discriminate |].
  unfold mbind, outcome_bind, int_of_float. rewrite mul_spec.
  rewrite FloatAxioms.eqb_spec in Hz.
  assert (exists b, Prim2SF scale = S754_zero b) as [b ->].
  { change (Prim2SF 0) with (S754_zero false) in Hz.
    destruct (Prim2SF scale) as [b | b | | b mm e]; [eauto | | |];
      try destruct b; discriminate. }
  destruct (Prim2SF (float_of_Z n)) as [b' | b' | | b' mm e] eqn:En;
    cbn; try discriminate; try (intros [= <-]; reflexivity).
Qed.

Lemma grid_step_scale (scale : float) (step : Z) :
  grid_step scale = Ret step -> PrimFloat.eqb scale 0 = false.
Proof.
  unfold grid_step, mbind, outcome_bind.
  destruct (scaled (JInt 50) scale) as [k |] eqn:E; [| discriminate].
  destruct (k =? 0) eqn:Hk; [discriminate |]. intros _.
  destruct (PrimFloat.eqb scale 0) eqn:Hz; [| reflexivity].
  rewrite (scaled_by_zero 50 scale k Hz E) in Hk. discriminate.
Qed.

(** X19. The drag handler never divides by zero in a preview whose
    desktop simulation was drawn: drawing it raises ValueError for the
    step of a grid when a scale is zero, before the handlers are bound;
    so when it returns, neither scale is zero, and no pointer-move
    event, in any sequence of them and whatever the manager holds,
    raises ZeroDivisionError. *)
Theorem drag_after_draw (p : preview) :
  draw_desktop_simulation p = Ret tt ->
  PrimFloat.eqb (scale_x p) 0 = false
  /\ PrimFloat.eqb (scale_y p) 0 = false
  /\ forall (events : list (Z * Z)) (m : WidgetManager),
       fst (drag_all events (p, m)) <> Raise ZeroDivisionError.
Proof.
  intros Hdraw.
  assert (PrimFloat.eqb (scale_x p) 0 = false
          /\ PrimFloat.eqb (scale_y p) 0 = false) as [Hsx Hsy].
  { unfold draw_desktop_simulation in Hdraw.
    unfold mbind at 1, outcome_bind at 1 in Hdraw.
    destruct (grid_step (scale_x p)) as [kx |] eqn:Ex; [| discriminate].
    unfold mbind at 1, outcome_bind at 1 in Hdraw.
    destruct (grid_step (scale_y p)) as [ky |] eqn:Ey; [| discriminate].
    split; eapply grid_step_scale; eassumption. }
  split; [exact Hsx |]. split; [exact Hsy |].
  clear Hdraw. intros events. revert p Hsx Hsy.
  induction events as [| [ex ey] events IH]; intros p Hsx Hsy m;
    [discriminate |].
  cbn [drag_all].
  pose proof (on_preview_drag_divides ex ey p m Hsx Hsy) as Hstep.
  destruct (on_preview_drag_frame ex ey p m) as (_ & _ & Hx & Hy & _).
  destruct (on_preview_drag ex ey (p, m)) as [[[] | e] [p' m']];
    cbn [fst snd] in *.
  - apply IH; [rewrite Hx; exact Hsx | rewrite Hy; exact Hsy].
  - exact Hstep.
Qed.

Lemma drag_after_draw_witness :
  draw_desktop_simulation (fst grabbed_clock) = Ret tt
  /\ PrimFloat.eqb (scale_x (fst grabbed_clock)) 0 = false
  /\ PrimFloat.eqb (scale_y (fst grabbed_clock)) 0 = false
  /\ fst (drag_all [(211, 200); (230, 260)] grabbed_clock)
     <> Raise ZeroDivisionError.
Proof.
  assert (H : draw_desktop_simulation (fst grabbed_clock) = Ret tt)
    by (vm_compute; reflexivity).
  destruct (drag_after_draw (fst grabbed_clock) H) as (Hx & Hy & Hd).
  split; [exact H |]. split; [exact Hx |]. split; [exact Hy |].
  exact (Hd [(211, 200); (230, 260)] (snd grabbed_clock)).
Defined.

End PreviewMore.

(** ** The entries and the buttons of the preview *)

Module PreviewPanelProofs.

Import Manager Preview PreviewPanel PreviewMore.

(** *** The buttons move desktop widgets and do nothing else *)

Lemma apply_item_moved (it : item_data) (n : nat) (m : WidgetManager) :
  moved m (snd (snd (apply_item it (n, m)))).
Proof.
  unfold apply_item.
  destruct (active_widgets m !! widget_info it) as [wi |]; [| apply moved_refl].
  destruct (desktop_widget wi) as [r |]; [| apply moved_refl].
  destruct (pinned m wi); [| apply moved_refl].
  destruct (int_of_json (real_x it)) as [new_x |]; [| apply moved_refl].
  destruct (int_of_json (real_y it)) as [new_y |]; [| apply moved_refl].
  destruct (geometry r (set_position r new_x new_y m));
    apply set_position_moved.
Qed.

Lemma apply_all_moved (items : list item_data) (n : nat) (m : WidgetManager) :
  moved m (snd (snd (apply_all items (n, m)))).
Proof.
  revert n m. induction items as [| it items IH]; intros n m;
    [apply moved_refl |].
  cbn [apply_all]. pose proof (apply_item_moved it n m) as H1.
  destruct (apply_item it (n, m)) as [[[] | e] [n1 m1]]; cbn [snd] in H1.
  - exact (moved_trans _ _ _ H1 (IH n1 m1)).
  - exact H1.
Qed.

Lemma same_entries_refl (p : preview) : same_entries p p.
Proof. repeat split. Qed.

Lemma same_entries_trans (p1 p2 p3 : preview) :
  same_entries p1 p2 -> same_entries p2 p3 -> same_entries p1 p3.
Proof.
  intros (? & ? & ? & ? & ? & ?) (? & ? & ? & ? & ? & ?).
  repeat split; congruence.
Qed.

Lemma set_item_same_entries (i : nat) (it it' : item_data) (p : preview) :
  preview_widget_items p !! i = Some it ->
  widget_info it' = widget_info it ->
  same_entries p (set_item i it' p).
Proof.
  intros Hit Hw. repeat split.
  unfold set_item. cbn [preview_widget_items].
  rewrite list_fmap_insert, Hw. apply list_insert_id.
  rewrite list_lookup_fmap, Hit. reflexivity.
Qed.

Lemma reset_item_moved (i : nat) (it : item_data) (p : preview)
  (m : WidgetManager) :
  preview_widget_items p !! i = Some it ->
  same_entries p (fst (snd (reset_item i it (p, m))))
  /\ moved m (snd (snd (reset_item i it (p, m))))
  /\ forall j, j <> i ->
       preview_widget_items (fst (snd (reset_item i it (p, m)))) !! j
       = preview_widget_items p !! j.
Proof.
  intros Hit. unfold reset_item.
  destruct (scaled (JInt (default_x i)) (scale_x p)) as [cx |];
    [| split; [apply same_entries_refl | split; [apply moved_refl | auto]]].
  destruct (scaled (JInt (default_y i)) (scale_y p)) as [cy |];
    [| split; [apply same_entries_refl | split; [apply moved_refl | auto]]].
  assert (same_entries p
            (set_item i (ItemData cx cy (JInt (default_x i))
                                  (JInt (default_y i)) (widget_info it)) p))
    as Hp by (eapply set_item_same_entries; [exact Hit | reflexivity]).
  assert (forall j, j <> i ->
            preview_widget_items
              (set_item i (ItemData cx cy (JInt (default_x i))
                                    (JInt (default_y i)) (widget_info it)) p)
            !! j
            = preview_widget_items p !! j) as Hj.
  { intros j Hne. apply list_lookup_insert_ne. congruence. }
  destruct (active_widgets m !! widget_info it) as [wi |];
    [| split; [exact Hp | split; [apply moved_refl | exact Hj]]].
  destruct (desktop_widget wi) as [r |];
    [| split; [exact Hp | split; [apply moved_refl | exact Hj]]].
  destruct (pinned m wi);
    [| split; [exact Hp | split; [apply moved_refl | exact Hj]]].
  destruct (geometry r m); (split; [exact Hp |]); (split; [| exact Hj]);
    [apply set_position_moved | apply moved_refl].
Qed.

Lemma reset_from_moved (rest : list item_data) (i : nat) (p : preview)
  (m : WidgetManager) :
  (forall k it, rest !! k = Some it ->
     preview_widget_items p !! (i + k)%nat = Some it) ->
  same_entries p (fst (snd (reset_from i rest (p, m))))
  /\ moved m (snd (snd (reset_from i rest (p, m)))).
Proof.
  revert i p m. induction rest as [| it rest IH]; intros i p m Hrest;
    [split; [apply same_entries_refl | apply moved_refl] |].
  cbn [reset_from].
  assert (preview_widget_items p !! i = Some it) as Hit.
  { rewrite <- (Nat.add_0_r i). apply Hrest. reflexivity. }
  destruct (reset_item_moved i it p m Hit) as (Hp1 & Hm1 & Hj1).
  destruct (reset_item i it (p, m)) as [[[] | e] [p1 m1]];
    cbn [fst snd] in Hp1, Hm1, Hj1; [| auto].
  destruct (IH (S i) p1 m1) as [Hp2 Hm2].
  { intros k it' Hk. rewrite Hj1 by lia.
    replace (S i + k)%nat with (i + S k)%nat by lia. apply Hrest. exact Hk. }
  split; [exact (same_entries_trans _ _ _ Hp1 Hp2)
         | exact (moved_trans _ _ _ Hm1 Hm2)].
Qed.

Lemma apply_preview_positions_moved (p : preview) (m : WidgetManager) :
  moved m (snd (after (apply_preview_positions (p, m)))).
Proof.
  unfold apply_preview_positions, after.
  pose proof (apply_all_moved (preview_widget_items p) 0 m) as H.
  destruct (apply_all (preview_widget_items p) (0%nat, m))
    as [[[] | e] [n m']]; cbn [fst snd] in *; exact H.
Qed.

Lemma reset_preview_positions_moved (p : preview) (m : WidgetManager) :
  moved m (snd (after (reset_preview_positions (p, m)))).
Proof.
  unfold reset_preview_positions, after. cbn [fst].
  pose proof (reset_from_moved (preview_widget_items p) 0 p m
                (fun k it H => H)) as [_ H].
  destruct (reset_from 0 (preview_widget_items p) (p, m))
    as [[[] | e] [p' m']]; cbn [fst snd] in *; exact H.
Qed.

(** X22. The two buttons of the preview, however they end, change in the
    manager nothing but positions of desktop widgets: the entries, the
    desktop list, the windows and the pinned flags stay, and so does the
    agreement of the desktop list with the entries.  Applying leaves the
    preview as it is; a reset leaves its scales, the grabbed entry, the
    drag origin and the widget each entry stands for. *)
Theorem buttons_move_only (s : state) :
  let s1 := after (apply_preview_positions s) in
  let s2 := after (reset_preview_positions s) in
  (fst s1 = fst s /\ moved (snd s) (snd s1))
  /\ (same_entries (fst s) (fst s2) /\ moved (snd s) (snd s2))
  /\ (consistent (snd s) -> consistent (snd s1) /\ consistent (snd s2)).
Proof.
  destruct s as [p m]. cbv zeta. cbn [fst snd].
  assert (fst (after (apply_preview_positions (p, m))) = p
          /\ moved m (snd (after (apply_preview_positions (p, m))))) as H1.
  { unfold apply_preview_positions, after.
    pose proof (apply_all_moved (preview_widget_items p) 0 m) as H.
    destruct (apply_all (preview_widget_items p) (0%nat, m))
      as [[[] | e] [n m']]; cbn [fst snd] in *; auto. }
  assert (same_entries p (fst (after (reset_preview_positions (p, m))))
          /\ moved m (snd (after (reset_preview_positions (p, m))))) as H2.
  { unfold reset_preview_positions, after. cbn [fst].
    pose proof (reset_from_moved (preview_widget_items p) 0 p m
                  (fun k it H => H)) as H.
    destruct (reset_from 0 (preview_widget_items p) (p, m))
      as [[[] | e] [p' m']]; cbn [fst snd] in *; exact H. }
  split; [exact H1 |]. split; [exact H2 |].
  intros Hc. split; eapply moved_consistent; try exact Hc;
    [apply H1 | apply H2].
Qed.

Lemma buttons_move_only_witness :
  let s := (Prev 0.5 0.5 [ItemData 50 50 (JFloat 120.5) (JInt 80) 0] None 0 0,
            run [Create "Clock"] empty) in
  consistent (snd (after (apply_preview_positions s)))
  /\ consistent (snd (after (reset_preview_positions s))).
Proof.
  intros s. apply (buttons_move_only s).
  apply ManagerMore.run_consistent, ManagerMore.consistent_empty.
Defined.

(** *** Building the entries of the preview *)

Lemma interactive_widget_scales (i : nat) (wi : Manager.widget_info)
  (p p' : preview) (m : WidgetManager) :
  scale_x p' = scale_x p -> scale_y p' = scale_y p ->
  interactive_widget i wi (p', m) = interactive_widget i wi (p, m).
Proof.
  intros Hx Hy. unfold interactive_widget, font_size. rewrite Hx, Hy.
  reflexivity.
Qed.

Lemma interactive_widget_ret (i : nat) (wi : Manager.widget_info)
  (p : preview) (m : WidgetManager) (it : item_data) :
  interactive_widget i wi (p, m) = Ret it ->
  widget_info it = i
  /\ (real_x it, real_y it) = current_position i wi m
  /\ scaled (real_x it) (scale_x p) = Ret (canvas_x it)
  /\ scaled (real_y it) (scale_y p) = Ret (canvas_y it).
Proof.
  unfold interactive_widget.
  destruct (current_position i wi m) as [rx ry].
  unfold mbind at 1, outcome_bind at 1.
  destruct (scaled rx (scale_x p)) as [cx |] eqn:Hcx; [| discriminate].
  unfold mbind at 1, outcome_bind at 1.
  destruct (scaled ry (scale_y p)) as [cy |] eqn:Hcy; [| discriminate].
  unfold mbind at 1, outcome_bind at 1.
  destruct (get _ "width" _) as [w |]; [| discriminate].
  unfold mbind at 1, outcome_bind at 1.
  destruct (scaled w (scale_x p)); [| discriminate].
  unfold mbind at 1, outcome_bind at 1.
  destruct (get _ "height" _) as [h |]; [| discriminate].
  unfold mbind at 1, outcome_bind at 1.
  destruct (scaled h (scale_y p)); [| discriminate].
  unfold mbind at 1, outcome_bind at 1.
  destruct (get _ "bg_color" _); [| discriminate].
  unfold mbind at 1, outcome_bind at 1.
  destruct (get _ "text_color" _); [| discriminate].
  unfold mbind at 1, outcome_bind at 1.
  destruct (font_size 9 p); [| discriminate].
  unfold mbind at 1, outcome_bind at 1.
  destruct (font_size 8 p); [| discriminate].
  intros [= <-]. cbn. auto.
Qed.

(** The loop from the key [i], when the table holds the keys below [i]:
    it appends the entries it builds, and stops at the first widget whose
    entry cannot be built. *)
Lemma add_from_spec (widgets : list Manager.widget_info) (i : nat)
  (p : preview) (m : WidgetManager) :
  length (preview_widget_items p) = i ->
  exists new,
    snd (add_from i widgets (p, m))
    = (Prev (scale_x p) (scale_y p) (preview_widget_items p ++ new)
            (dragging_widget p) (drag_start_x p) (drag_start_y p), m)
    /\ (forall k it, new !! k = Some it ->
          exists wi, widgets !! k = Some wi
                     /\ interactive_widget (i + k) wi (p, m) = Ret it)
    /\ match fst (add_from i widgets (p, m)) with
       | Ret _ => length new = length widgets
       | Raise e =>
           exists wi, widgets !! length new = Some wi
                      /\ interactive_widget (i + length new) wi (p, m)
                         = Raise e
       end.
Proof.
  revert i p. induction widgets as [| wi widgets IH]; intros i p Hlen.
  - exists []. cbn. rewrite app_nil_r. destruct p.
    split; [reflexivity |]. split; [| reflexivity].
    intros k it Hk. rewrite lookup_nil in Hk. discriminate.
  - cbn [add_from].
    destruct (interactive_widget i wi (p, m)) as [it | e] eqn:E.
    + cbn [fst snd]. unfold store.
      destruct (decide (i < length (preview_widget_items p))%nat); [lia |].
      set (p1 := Prev (scale_x p) (scale_y p) (preview_widget_items p ++ [it])
                      (dragging_widget p) (drag_start_x p) (drag_start_y p)).
      destruct (IH (S i) p1) as (new & Hs & Hnew & Ho).
      { unfold p1. cbn. rewrite length_app. cbn. lia. }
      exists (it :: new). rewrite Hs. unfold p1 at 1 2 3 4 5 6.
      cbn [scale_x scale_y preview_widget_items dragging_widget drag_start_x
           drag_start_y].
      rewrite <- app_assoc. split; [reflexivity |]. split.
      * intros [| k] it' Hk.
        -- injection Hk as <-. exists wi. rewrite Nat.add_0_r. auto.
        -- destruct (Hnew k it' Hk) as (wi' & Hw & Hi). exists wi'.
           split; [exact Hw |].
           rewrite <- (interactive_widget_scales _ _ p p1) by reflexivity.
           replace (i + S k)%nat with (S i + k)%nat by lia. exact Hi.
      * destruct (fst (add_from (S i) widgets (p1, m))) as [[] | e].
        -- cbn. f_equal. exact Ho.
        -- destruct Ho as (wi' & Hw & Hi). exists wi'. cbn [length].
           split; [exact Hw |].
           rewrite <- (interactive_widget_scales _ _ p p1) by reflexivity.
           replace (i + S (length new))%nat with (S i + length new)%nat by lia.
           exact Hi.
    + exists []. cbn. rewrite app_nil_r, Nat.add_0_r. destruct p.
      split; [reflexivity |]. split; [| eauto].
      intros k it Hk. rewrite lookup_nil in Hk. discriminate.
Qed.

(** X23. [add_interactive_widgets] on an empty table does not touch the
    manager and builds the entries in the order of the widgets: the
    [i]-th entry stands for the [i]-th widget and holds its position if it
    is pinned, or the default for [i], with its canvas coordinates scaled
    from them.  It returns when the entry of every widget can be built,
    and the preview then shows all the widgets; otherwise it raises at
    the first widget whose entry cannot be built, with the entries of the
    widgets before it in the table. *)
Theorem add_interactive_widgets_spec (p : preview) (m : WidgetManager) :
  preview_widget_items p = [] ->
  let r := add_interactive_widgets (p, m) in
  let p' := fst (snd r) in
  snd (snd r) = m
  /\ scale_x p' = scale_x p
  /\ scale_y p' = scale_y p
  /\ dragging_widget p' = dragging_widget p
  /\ (forall i it, preview_widget_items p' !! i = Some it ->
        exists wi,
          active_widgets m !! i = Some wi
          /\ widget_info it = i
          /\ (real_x it, real_y it) = current_position i wi m
          /\ scaled (real_x it) (scale_x p) = Ret (canvas_x it)
          /\ scaled (real_y it) (scale_y p) = Ret (canvas_y it))
  /\ ((forall i wi, active_widgets m !! i = Some wi ->
         exists it, interactive_widget i wi (p, m) = Ret it) ->
      fst r = Ret tt)
  /\ (fst r = Ret tt -> shows p' m)
  /\ (forall e, fst r = Raise e ->
        exists wi,
          active_widgets m !! length (preview_widget_items p') = Some wi
          /\ interactive_widget (length (preview_widget_items p')) wi (p, m)
             = Raise e).
Proof.
  intros Hempty r p'. unfold p', r, add_interactive_widgets. cbn [snd].
  destruct (add_from_spec (active_widgets m) 0 p m) as (new & Hs & Hnew & Ho);
    [rewrite Hempty; reflexivity |].
  rewrite Hempty in Hs. cbn [app] in Hs. rewrite Hs. cbn [fst snd].
  cbn [scale_x scale_y dragging_widget preview_widget_items].
  assert (forall i it, new !! i = Some it ->
            exists wi,
              active_widgets m !! i = Some wi
              /\ widget_info it = i
              /\ (real_x it, real_y it) = current_position i wi m
              /\ scaled (real_x it) (scale_x p) = Ret (canvas_x it)
              /\ scaled (real_y it) (scale_y p) = Ret (canvas_y it)) as Hitems.
  { intros i it Hi. destruct (Hnew i it Hi) as (wi & Hwi & E).
    exists wi. split; [exact Hwi |].
    exact (interactive_widget_ret i wi p m it E). }
  repeat (split; [reflexivity |]). split; [exact Hitems |].
  split; [| split].
  - intros Hall.
    destruct (fst (add_from 0 (active_widgets m) (p, m))) as [[] | e];
      [reflexivity |].
    destruct Ho as (wi & Hwi & E). destruct (Hall _ wi Hwi) as [it Hit].
    cbn [Nat.add] in E. congruence.
  - intros Hret. rewrite Hret in Ho. unfold shows.
    cbn [preview_widget_items]. apply list_eq. intros k.
    rewrite list_lookup_fmap.
    destruct (new !! k) as [it |] eqn:Hk.
    + destruct (Hitems k it Hk) as (wi & Hwi & Hw & _). cbn.
      rewrite Hw. symmetry. apply lookup_seq. split; [reflexivity |].
      exact (lookup_lt_Some _ _ _ Hwi).
    + cbn. symmetry. apply lookup_ge_None. rewrite length_seq, <- Ho.
      apply lookup_ge_None. exact Hk.
  - intros e Hraise. rewrite Hraise in Ho. exact Ho.
Qed.

Lemma add_interactive_widgets_spec_witness :
  let m := run [Create "Clock"; Create "Timer"; Unpin (Some 1%nat)] empty in
  add_interactive_widgets (Prev 0.5 0.5 [] None 0 0, m)
  = (Ret tt,
     (Prev 0.5 0.5 [ItemData 50 50 (JInt 100) (JInt 100) 0;
                    ItemData 125 100 (JInt 250) (JInt 200) 1] None 0 0, m))
  /\ shows (fst (snd (add_interactive_widgets (Prev 0.5 0.5 [] None 0 0, m))))
           m.
Proof.
  intros m. split; [vm_compute; reflexivity |].
  apply (add_interactive_widgets_spec (Prev 0.5 0.5 [] None 0 0) m eq_refl).
  vm_compute. reflexivity.
Defined.


(** *** Applying the positions of a preview that was just built *)

Lemma set_position_same (r : nat) (x y : Z) (m : WidgetManager)
  (dw : DesktopWidget) :
  heap m !! r = Some dw ->
  Desktop.x dw = JInt x -> Desktop.y dw = JInt y ->
  set_position r x y m = m.
Proof.
  intros Hl Hx Hy. unfold set_position. destruct m as [aw dws h].
  cbn [heap active_widgets desktop_widgets] in *. f_equal.
  apply list_eq. intros r'. rewrite list_lookup_alter.
  destruct (decide (r = r')) as [<- | _]; [| reflexivity].
  rewrite Hl. cbn. rewrite <- Hx, <- Hy. destruct dw. reflexivity.
Qed.

Lemma snapshot_pinned (m : WidgetManager) (wi : Manager.widget_info) :
  pinned m wi = true ->
  exists r dw,
    desktop_widget wi = Some r /\ heap m !! r = Some dw
    /\ Desktop.is_pinned dw = true
    /\ saved_position (snapshot m wi) = Some (Desktop.x dw, Desktop.y dw).
Proof.
  unfold pinned, snapshot. cbn [saved_position].
  destruct (desktop_widget wi) as [r |]; [| discriminate].
  destruct (heap m !! r) as [dw |] eqn:Hl; [| discriminate].
  intros Hp. exists r, dw. rewrite Hp. auto.
Qed.

Lemma snapshot_unpinned (m : WidgetManager) (wi : Manager.widget_info) :
  pinned m wi = false -> saved_position (snapshot m wi) = None.
Proof.
  unfold pinned, snapshot. cbn [saved_position].
  destruct (desktop_widget wi) as [r |]; [| reflexivity].
  destruct (heap m !! r) as [dw |]; [| reflexivity].
  intros ->. reflexivity.
Qed.

Lemma apply_all_integral (items : list item_data) (n : nat)
  (m : WidgetManager) :
  consistent m ->
  (forall it, it ∈ items ->
     exists wi,
       active_widgets m !! widget_info it = Some wi
       /\ (pinned m wi = true ->
           exists x y,
             real_x it = JInt x /\ real_y it = JInt y
             /\ saved_position (snapshot m wi) = Some (JInt x, JInt y))) ->
  apply_all items (n, m)
  = (Ret tt, (n + length (List.filter (pinned_entry m) items), m))%nat.
Proof.
  intros Hc. revert n. induction items as [| it items IH]; intros n Hall.
  - cbn. rewrite Nat.add_0_r. reflexivity.
  - cbn [apply_all List.filter].
    destruct (Hall it) as (wi & Hwi & Hint); [left |].
    assert (apply_item it (n, m)
            = (Ret tt, ((if pinned m wi then S n else n), m))) as E.
    { unfold apply_item. rewrite Hwi.
      destruct (pinned m wi) eqn:Hp;
        [| destruct (desktop_widget wi); reflexivity].
      destruct (Hint eq_refl) as (x & y & Hx & Hy & Hpos).
      destruct (snapshot_pinned m wi Hp) as (r & dw & Hr & Hl & Hpin & Hpos').
      rewrite Hpos in Hpos'. injection Hpos' as Hdx Hdy.
      rewrite Hr, Hx, Hy. cbn [int_of_json].
      rewrite (set_position_same r x y m dw Hl) by congruence.
      unfold geometry. rewrite Hl.
      destruct Hc as (_ & _ & _ & _ & Hwin).
      destruct (Hwin r dw Hl Hpin) as [-> _]. reflexivity. }
    rewrite E. unfold pinned_entry at 1. rewrite Hwi.
    rewrite IH by (intros it' Hit'; apply Hall; right; exact Hit').
    destruct (pinned m wi); cbn [length]; do 2 f_equal; lia.
Qed.

Lemma count_shown (m : WidgetManager) (widgets : list Manager.widget_info)
  (items : list item_data) (k : nat) :
  widget_info <$> items = seq k (length widgets) ->
  (forall j wi, widgets !! j = Some wi ->
     active_widgets m !! (k + j)%nat = Some wi) ->
  length (List.filter (pinned_entry m) items)
  = length (omap saved_position (map (snapshot m) widgets)).
Proof.
  revert items k. induction widgets as [| wi widgets IH]; intros items k Hk Hw.
  - destruct items; [reflexivity | discriminate].
  - destruct items as [| it items]; [discriminate |].
    cbn in Hk. injection Hk as Hit Hk.
    cbn [List.filter map omap list_omap].
    unfold pinned_entry at 1. rewrite Hit.
    specialize (Hw 0%nat wi eq_refl) as Hwi. rewrite Nat.add_0_r in Hwi.
    rewrite Hwi.
    assert (length (List.filter (pinned_entry m) items)
            = length (omap saved_position (map (snapshot m) widgets))) as Hrest.
    { apply (IH items (S k) Hk). intros j wj Hj.
      replace (S k + j)%nat with (k + S j)%nat by lia.
      apply Hw. exact Hj. }
    destruct (pinned m wi) eqn:Hp.
    + destruct (snapshot_pinned m wi Hp) as (r & dw & _ & _ & _ & ->).
      cbn [length]. f_equal. exact Hrest.
    + rewrite (snapshot_unpinned m wi Hp). exact Hrest.
Qed.

(** X24. Opening the preview and applying at once, in a state where the
    desktop list and the entries agree and the pinned widgets are at
    integer positions: the button returns, nothing has moved, and the
    toast counts the widgets on the desktop. *)
Theorem apply_after_open (p0 p : preview) (m : WidgetManager) :
  consistent m ->
  preview_widget_items p0 = [] ->
  add_interactive_widgets (p0, m) = (Ret tt, (p, m)) ->
  Forall integral (pinned_positions m) ->
  apply_preview_positions (p, m)
  = (Ret tt, (p, m), [applied (length (desktop_widgets m))]).
Proof.
  intros Hc Hempty Hadd Hint. unfold add_interactive_widgets in Hadd.
  cbn [snd] in Hadd.
  destruct (add_from_spec (active_widgets m) 0 p0 m) as (new & Hs & Hnew & Ho);
    [rewrite Hempty; reflexivity |].
  rewrite Hadd in Hs, Ho. cbn [fst snd] in Hs, Ho.
  rewrite Hempty in Hs. cbn [app] in Hs.
  assert (preview_widget_items p = new) as Hitems
    by (injection Hs as ->; reflexivity).
  assert (forall i it, new !! i = Some it ->
            exists wi,
              active_widgets m !! i = Some wi /\ widget_info it = i
              /\ (real_x it, real_y it) = current_position i wi m) as Hnew'.
  { intros i it Hi. destruct (Hnew i it Hi) as (wi & Hwi & E).
    destruct (interactive_widget_ret i wi p0 m it E) as (Hw & Hpos & _).
    exists wi. auto. }
  unfold apply_preview_positions. rewrite Hitems.
  rewrite (apply_all_integral new 0 m Hc).
  - cbn [Nat.add]. do 3 f_equal.
    rewrite (count_shown m (active_widgets m) new 0).
    + fold (observe m). fold (pinned_positions m).
      rewrite (ManagerMore.pinned_positions_refs m Hc).
      exact (ManagerMore.consistent_count _ _ _ Hc).
    + apply list_eq. intros k. rewrite list_lookup_fmap.
      destruct (new !! k) as [it |] eqn:Hk.
      * destruct (Hnew' k it Hk) as (wi & Hwi & Hw & _). cbn.
        rewrite Hw. symmetry. apply lookup_seq. split; [reflexivity |].
        exact (lookup_lt_Some _ _ _ Hwi).
      * cbn. symmetry. apply lookup_ge_None. rewrite length_seq, <- Ho.
        apply lookup_ge_None. exact Hk.
    + intros j wi Hj. exact Hj.
  - intros it Hit. apply list_elem_of_lookup_1 in Hit as [i Hi].
    destruct (Hnew' i it Hi) as (wi & Hwi & Hw & Hpos).
    exists wi. rewrite Hw. split; [exact Hwi |]. intros Hp.
    destruct (snapshot_pinned m wi Hp) as (r & dw & Hr & Hl & Hpin & Hsp).
    assert (integral (Desktop.x dw, Desktop.y dw)) as (x & y & Hxy).
    { apply (proj1 (Forall_forall _ _) Hint).
      unfold pinned_positions. apply list_elem_of_omap.
      exists (snapshot m wi). split; [| exact Hsp].
      unfold observe. apply list_elem_of_fmap. exists wi.
      split; [reflexivity |]. exact (list_elem_of_lookup_2 _ _ _ Hwi). }
    exists x, y. unfold current_position in Hpos.
    rewrite Hr, Hl, Hpin in Hpos. rewrite Hsp, Hxy.
    injection Hxy as Hx Hy. injection Hpos as Hrx Hry.
    repeat split; congruence.
Qed.

Lemma apply_after_open_witness :
  let m := run [Create "Clock"; Create "Timer"; Unpin (Some 1%nat)] empty in
  let p := Prev 0.5 0.5 [ItemData 50 50 (JInt 100) (JInt 100) 0;
                         ItemData 125 100 (JInt 250) (JInt 200) 1] None 0 0 in
  apply_preview_positions (p, m)
  = (Ret tt, (p, m),
     [Toast (Str "Applied positions to 1 desktop widgets!") "success"]).
Proof.
  intros m p.
  apply (apply_after_open (Prev 0.5 0.5 [] None 0 0) p m).
  - apply ManagerMore.run_consistent, ManagerMore.consistent_empty.
  - reflexivity.
  - vm_compute. reflexivity.
  - repeat constructor. exists 100, 100. reflexivity.
Defined.

(** *** Resetting the positions *)








End PreviewPanelProofs.

(** ** Sessions *)

Module SessionMore.

Import Manager Preview PreviewPanel Session.

(** The steps that only move desktop widgets. *)
Lemma reachable_step_moved (m m' : WidgetManager) :
  (exists event_x event_y p,
     m' = snd (snd (on_preview_drag event_x event_y (p, m))))
  \/ (exists p, m' = snd (after (apply_preview_positions (p, m))))
  \/ (exists p, m' = snd (after (reset_preview_positions (p, m))))
  \/ (exists r x y, m' = set_position r x y m) ->
  moved m m'.
Proof.
  intros [(ex & ey & p & ->) | [(p & ->) | [(p & ->) | (r & x & y & ->)]]].
  - apply PreviewMore.on_preview_drag_moved.
  - apply PreviewPanelProofs.apply_preview_positions_moved.
  - apply PreviewPanelProofs.reset_preview_positions_moved.
  - apply PreviewMore.set_position_moved.
Qed.

(** Every state of such a session is well formed: the round trip of a
    saved layout holds in each of them. *)
Lemma reachable_well_formed (m : WidgetManager) :
  reachable m -> well_formed m.
Proof.
  induction 1 as [| c m _ IH | fs m _ IH | e fs m _ IH | ex ey p m _ IH
                  | p m _ IH | p m _ IH | r dw x y m _ IH _ _].
  - apply ManagerProofs.well_formed_empty.
  - apply ManagerProofs.run_command_well_formed. exact IH.
  - apply ManagerProofs.load_config_well_formed. exact IH.
  - destruct e; exact IH.
  - apply (PreviewMore.moved_well_formed m); [| exact IH].
    apply reachable_step_moved. left. eauto.
  - apply (PreviewMore.moved_well_formed m); [| exact IH].
    apply reachable_step_moved. right. left. eauto.
  - apply (PreviewMore.moved_well_formed m); [| exact IH].
    apply reachable_step_moved. right. right. left. eauto.
  - apply (PreviewMore.moved_well_formed m); [| exact IH].
    apply reachable_step_moved. right. right. right. eauto.
Qed.

(** X20. In every state the manager reaches from the empty one without
    the customisation dialog, that is by the commands Create, Pin
    Selected, Unpin Selected and Remove, by loads and saves of the
    layout, by the drag handler and the Apply and Reset buttons of a
    preview and by drags of a desktop window, in any order and whatever
    raises on the way, the desktop list and the entries agree: the
    desktop list holds each object once, an object is in it exactly when
    an entry refers to it, no two entries refer to the same object, the
    object of an entry is pinned, and a pinned object has a window and
    an entry. *)
Theorem reachable_consistent (m : WidgetManager) :
  reachable m -> consistent m.
Proof.
  induction 1 as [| c m _ IH | fs m _ IH | e fs m _ IH | ex ey p m _ IH
                  | p m _ IH | p m _ IH | r dw x y m _ IH _ _].
  - apply ManagerMore.consistent_empty.
  - apply ManagerMore.run_command_consistent. exact IH.
  - apply ManagerMore.load_config_consistent. exact IH.
  - destruct e; exact IH.
  - apply (PreviewMore.moved_consistent m); [| exact IH].
    apply reachable_step_moved. left. eauto.
  - apply (PreviewMore.moved_consistent m); [| exact IH].
    apply reachable_step_moved. right. left. eauto.
  - apply (PreviewMore.moved_consistent m); [| exact IH].
    apply reachable_step_moved. right. right. left. eauto.
  - apply (PreviewMore.moved_consistent m); [| exact IH].
    apply reachable_step_moved. right. right. right. eauto.
Qed.

Lemma reachable_run (cs : list command) (m : WidgetManager) :
  reachable m -> reachable (run cs m).
Proof.
  revert m. induction cs as [| c cs IH]; intros m Hm; [exact Hm |].
  cbn. apply IH. apply reachable_command. exact Hm.
Qed.

Lemma reachable_consistent_witness :
  let p := Prev 0.5 0.5 [ItemData 50 50 (JFloat 120.5) (JInt 80) 0] None 0 0 in
  let m := run [Create "Clock"; Create "Timer"; Unpin (Some 0%nat);
                Remove (Some 1%nat); Create "Weather"] empty in
  consistent (set_position 2 300 200
                (snd (after (reset_preview_positions (p, m))))).
Proof.
  intros p m. apply reachable_consistent.
  eapply (reachable_do_drag 2).
  - apply reachable_reset, reachable_run, reachable_empty.
  - vm_compute. reflexivity.
  - reflexivity.
Defined.

End SessionMore.

(** ** The life of a desktop widget object *)

Module DesktopMore.

Import Widget Desktop DesktopLife.

Lemma invoke_keeps (c : method) (self : DesktopWidget) :
  (is_pinned self = true -> desktop_window self = true) ->
  widget_instance (invoke c self) = widget_instance self
  /\ x (invoke c self) = x self /\ y (invoke c self) = y self
  /\ (is_pinned (invoke c self) = true -> desktop_window (invoke c self) = true).
Proof.
  intros Hinv. destruct c; cbn [invoke].
  - unfold pin_to_desktop. destruct (is_pinned self) eqn:Hp.
    + cbn [snd]. rewrite Hp. auto.
    + destruct (get _ _ _); [| cbn; auto].
      destruct (Widget.create_widget _); cbn; auto.
  - unfold unpin_from_desktop. destruct (desktop_window self) eqn:Hw.
    + cbn. repeat split; discriminate.
    + rewrite Hw. auto.
Qed.

Lemma invoke_all_snoc (cs : list method) (c : method) (self : DesktopWidget) :
  invoke_all (cs ++ [c]) self = invoke c (invoke_all cs self).
Proof. unfold invoke_all. rewrite fold_left_app. reflexivity. Qed.

Lemma invoke_pin_twice (self : DesktopWidget) :
  invoke Pin (invoke Pin self) = invoke Pin self.
Proof.
  destruct self as [w x0 y0 win pin]. cbn [invoke]. unfold pin_to_desktop.
  cbn [is_pinned widget_instance x y desktop_window].
  destruct pin; [reflexivity |].
  destruct (get (config w) "opacity" (JFloat 0.9)) as [v | e] eqn:Hg.
  - destruct (Widget.create_widget w) as [[] | e] eqn:Hc;
      cbn [snd is_pinned widget_instance x y desktop_window];
      rewrite ?Hg, ?Hc; reflexivity.
  - cbn [snd is_pinned widget_instance x y desktop_window].
    rewrite Hg. reflexivity.
Qed.

(** X26. A desktop widget object, through any sequence of calls of
    [pin_to_desktop] and [unpin_from_desktop], whatever raises: it keeps
    its widget and its position; when it is pinned it holds a window; an
    unpin gives back the object as it was built; and a second pin in a
    row, after one that returned or raised, leaves the object as the
    first left it. *)
Theorem desktop_widget_life (w : Widget.instance) (x0 y0 : json)
  (cs : list method) :
  let self := invoke_all cs (init w x0 y0) in
  widget_instance self = w /\ x self = x0 /\ y self = y0
  /\ (is_pinned self = true -> desktop_window self = true)
  /\ invoke Unpin self = init w x0 y0
  /\ invoke Pin (invoke Pin self) = invoke Pin self.
Proof.
  cbv zeta.
  assert (widget_instance (invoke_all cs (init w x0 y0)) = w
          /\ x (invoke_all cs (init w x0 y0)) = x0
          /\ y (invoke_all cs (init w x0 y0)) = y0
          /\ (is_pinned (invoke_all cs (init w x0 y0)) = true ->
              desktop_window (invoke_all cs (init w x0 y0)) = true))
    as (Hw & Hx & Hy & Hinv).
  { induction cs as [| c cs IH] using rev_ind.
    - cbn. repeat split. discriminate.
    - rewrite invoke_all_snoc. destruct IH as (Hw & Hx & Hy & Hinv).
      destruct (invoke_keeps c _ Hinv) as (Hw' & Hx' & Hy' & Hinv').
      repeat split; try congruence. exact Hinv'. }
  repeat (split; [assumption |]). split; [| apply invoke_pin_twice].
  cbn [invoke]. unfold unpin_from_desktop.
  destruct (invoke_all cs (init w x0 y0)) as [w' x' y' win pin].
  cbn [widget_instance x y desktop_window is_pinned] in *. subst.
  unfold init. destruct win; [reflexivity |].
  destruct pin; [| reflexivity]. specialize (Hinv eq_refl). discriminate.
Qed.

Lemma desktop_widget_life_witness :
  let self := invoke_all [Pin; Unpin; Pin; Pin]
                (init (BaseWidget_init ClockWidget JNull) (JInt 3) (JInt 4)) in
  is_pinned self = true /\ desktop_window self = true
  /\ invoke Unpin self
     = init (BaseWidget_init ClockWidget JNull) (JInt 3) (JInt 4).
Proof.
  intros self.
  destruct (desktop_widget_life (BaseWidget_init ClockWidget JNull)
              (JInt 3) (JInt 4) [Pin; Unpin; Pin; Pin])
    as (_ & _ & _ & Hinv & Hun & _).
  split; [reflexivity |]. split; [apply Hinv; reflexivity | exact Hun].
Defined.

(** X27. For a widget whose configuration is an object with every key of
    the default configuration of its class, and a number wherever the
    default has one, every look-up and every arithmetic operand that
    [create_widget] and [pin_to_desktop] take from the configuration is
    there and of a type that Python accepts: evaluating them raises no
    KeyError, TypeError or AttributeError.  The default configuration of
    each class is such a configuration.  The statement is about the
    look-ups; that the toolkit accepts the values, and so that pinning
    returns, is not part of it. *)
Theorem covering_config_lookups (c : widget_class) :
  (exists items0,
     get_default_config c = JObj items0 /\ covers_default c items0)
  /\ forall items,
       covers_default c items ->
       run_accesses (JObj items) (create_widget_accesses c) = Ret tt
       /\ (exists v, get (JObj items) "opacity" (JFloat 0.9) = Ret v)
       /\ Manager.can_pin (MkInstance c (JObj items)) = true.
Proof.
  split.
  - assert (forall items0, get_default_config c = JObj items0 ->
              covers_default c items0) as Hd.
    { intros items0 E key v Hk. rewrite E in Hk. cbn [subscript] in Hk.
      destruct (assoc key items0) as [v' |]; [| discriminate].
      injection Hk as <-. exists v'. auto. }
    destruct c; eexists; (split; [reflexivity | apply Hd; reflexivity]).
  - intros items H.
    assert (run_accesses (JObj items) (create_widget_accesses c) = Ret tt)
      as E.
    { destruct c; cbn [create_widget_accesses run_accesses subscript];
        repeat match goal with
               | |- context [assoc ?k items] =>
                   let v := fresh "v" in
                   let Hn := fresh "Hn" in
                   destruct (H k _ eq_refl) as (v & -> & Hn);
                   try rewrite (Hn eq_refl)
               end; reflexivity. }
    split; [exact E |].
    assert (exists v, get (JObj items) "opacity" (JFloat 0.9) = Ret v)
      as [v Hv] by (cbn [get]; destruct (assoc "opacity" items); eauto).
    split; [eauto |].
    unfold Manager.can_pin, Widget.create_widget. cbn [config class].
    rewrite Hv, E. reflexivity.
Qed.

Lemma covering_config_lookups_witness :
  run_accesses
    (JObj (("bg_color", JStr "#000000")
           :: ("font_size", JInt 20)
           :: match get_default_config TimerWidget with
              | JObj items => items
              | _ => []
              end))
    (create_widget_accesses TimerWidget)
  = Ret tt.
Proof.
  apply (proj2 (covering_config_lookups TimerWidget)).
  intros key v Hk.
  cbn [get_default_config subscript assoc] in Hk.
  cbn [get_default_config assoc].
  repeat match type of Hk with
         | context [String.eqb ?a key] =>
             destruct (String.eqb_spec a key) as [<- | ?];
             [cbn in Hk; injection Hk as <-; cbn; eexists;
              split; [reflexivity | auto] |]
         end.
  discriminate.
Defined.

End DesktopMore.
